(** * Election Visualization Dashboard: the data pipeline of [main.py]

    A shallow embedding of the dataframe transforms of
    [Election Visualization Dashboard/main.py] (load, clean, derive
    aggregates, render on demand), with the properties its description
    states about them.

    Numeric columns are float64 columns; they are modelled by Rocq's
    primitive binary64 floats, so that a missing value is NaN, as it is in
    pandas, and a division by zero yields an infinity or NaN.

    Text columns hold Python strings, sequences of Unicode code points,
    or a missing value; [str.strip] and [str.title] are those of CPython
    3.11, with the case tables of Unicode 14.0. The program runs under
    pandas 2 or pandas 3, which differ in what [astype(str)] does with a
    missing value; the tables are defined for both. *)

From Stdlib Require Import Strings.Ascii Strings.String.
From Stdlib Require Import ZArith NArith PArith Lia Bool List Floats.
From Stdlib Require Uint63.
From Stdlib Require Import Sorting.Sorted Sorting.Permutation.
Import ListNotations.

Set Implicit Arguments.

(** ** float64 values *)

Module F64.

Open Scope float_scope.

(** [pd.isna] on a float64 value. *)
Definition isna (x : float) : bool := is_nan x.

Definition notna (x : float) : bool := negb (isna x).

(** Key equality of a float64 group key: IEEE equality, as the hash
    table of [groupby] and [drop_duplicates] uses on values that are not
    NaN (so [0.0] and [-0.0] are one key). *)
Definition key_eqb (x y : float) : bool := x =? y.

(** Equality of two values in [drop_duplicates] and in a merge key,
    where missing values are equal to each other. *)
Definition dup_eqb (x y : float) : bool :=
  (x =? y) || (isna x && isna y).

(** Position of [x] in an ascending sort with [na_position="last"]:
    [asc_le x y] holds when [x] may stand before [y]. *)
Definition asc_le (x y : float) : bool :=
  if isna y then true else if isna x then false else x <=? y.

(** The same for a descending sort; NaN stays last. *)
Definition desc_le (x y : float) : bool :=
  if isna y then true else if isna x then false else y <=? x.

(** The comparison of two floats as the IEEE 754 specification of the
    primitive operations gives it; [None] when one of them is NaN. *)
Definition cmp (x y : float) : option comparison :=
  SFcompare (Prim2SF x) (Prim2SF y).

Close Scope float_scope.

End F64.

(** ** Python strings *)

Module Py.

(** A Python [str] is a sequence of Unicode code points. *)
Definition codepoint := N.
Definition str := list codepoint.

(** An ASCII literal as a [str]. *)
Definition lit (s : String.string) : str :=
  map Ascii.N_of_ascii (String.list_ascii_of_string s).

Definition ascii_cp (c : codepoint) : bool := (c <? 128)%N.
Definition is_ascii (s : str) : bool := forallb ascii_cp s.

Fixpoint eqb (a b : str) : bool :=
  match a, b with
  | [], [] => true
  | x :: a', y :: b' => (x =? y)%N && eqb a' b'
  | _, _ => false
  end.

(** [a <= b] on [str]: lexicographic on code points. *)
Fixpoint leb (a b : str) : bool :=
  match a, b with
  | [], _ => true
  | _ :: _, [] => false
  | x :: a', y :: b' =>
      if (x <? y)%N then true
      else if (y <? x)%N then false
      else leb a' b'
  end.

(** [str.isspace] of one code point (the code points Python's
    [Py_UNICODE_ISSPACE] accepts). *)
Definition isspace (c : codepoint) : bool :=
  ((9 <=? c) && (c <=? 13) || (28 <=? c) && (c <=? 32)
   || (c =? 133) || (c =? 160) || (c =? 5760)
   || (8192 <=? c) && (c <=? 8202)
   || (c =? 8232) || (c =? 8233) || (c =? 8239) || (c =? 8287)
   || (c =? 12288))%N.

Fixpoint lstrip (s : str) : str :=
  match s with
  | c :: s' => if isspace c then lstrip s' else s
  | [] => []
  end.

Definition rstrip (s : str) : str := rev (lstrip (rev s)).

(** [str.strip()] with no argument. *)
Definition strip (s : str) : str := rstrip (lstrip s).

(** A text that does not start with a space; a stripped text neither
    starts nor ends with one. *)
Definition no_leading_space (s : str) : bool :=
  match s with
  | [] => true
  | c :: _ => negb (isspace c)
  end.

Definition stripped (s : str) : bool :=
  no_leading_space s && no_leading_space (rev s).

Definition is_upper_ascii (c : codepoint) : bool :=
  ((65 <=? c) && (c <=? 90))%N.
Definition is_lower_ascii (c : codepoint) : bool :=
  ((97 <=? c) && (c <=? 122))%N.

(** *** Case data

    The case data of the Unicode character database, version 14.0, as
    CPython 3.11 compiles it into [unicodetype_db.h] and serves it to
    [str.title] through [_PyUnicode_IsCased],
    [_PyUnicode_IsCaseIgnorable], [_PyUnicode_ToTitleFull] and
    [_PyUnicode_ToLowerFull]. *)

(** The code points with the property Cased, as inclusive ranges in
    ascending order ([_PyUnicode_IsCased]). *)
Definition cased_ranges : list (codepoint * codepoint) :=
  [
    (65, 90); (97, 122); (170, 170); (181, 181); (186, 186); (192, 214);
    (216, 246); (248, 442); (444, 447); (452, 659); (661, 696); (704, 705);
    (736, 740); (837, 837); (880, 883); (886, 887); (890, 893); (895, 895);
    (902, 902); (904, 906); (908, 908); (910, 929); (931, 1013);
    (1015, 1153); (1162, 1327); (1329, 1366); (1376, 1416); (4256, 4293);
    (4295, 4295); (4301, 4301); (4304, 4346); (4349, 4351); (5024, 5109);
    (5112, 5117); (7296, 7304); (7312, 7354); (7357, 7359); (7424, 7615);
    (7680, 7957); (7960, 7965); (7968, 8005); (8008, 8013); (8016, 8023);
    (8025, 8025); (8027, 8027); (8029, 8029); (8031, 8061); (8064, 8116);
    (8118, 8124); (8126, 8126); (8130, 8132); (8134, 8140); (8144, 8147);
    (8150, 8155); (8160, 8172); (8178, 8180); (8182, 8188); (8305, 8305);
    (8319, 8319); (8336, 8348); (8450, 8450); (8455, 8455); (8458, 8467);
    (8469, 8469); (8473, 8477); (8484, 8484); (8486, 8486); (8488, 8488);
    (8490, 8493); (8495, 8500); (8505, 8505); (8508, 8511); (8517, 8521);
    (8526, 8526); (8544, 8575); (8579, 8580); (9398, 9449); (11264, 11492);
    (11499, 11502); (11506, 11507); (11520, 11557); (11559, 11559);
    (11565, 11565); (42560, 42605); (42624, 42653); (42786, 42887);
    (42891, 42894); (42896, 42954); (42960, 42961); (42963, 42963);
    (42965, 42969); (42997, 42998); (43000, 43002); (43824, 43866);
    (43868, 43880); (43888, 43967); (64256, 64262); (64275, 64279);
    (65313, 65338); (65345, 65370); (66560, 66639); (66736, 66771);
    (66776, 66811); (66928, 66938); (66940, 66954); (66956, 66962);
    (66964, 66965); (66967, 66977); (66979, 66993); (66995, 67001);
    (67003, 67004); (67456, 67456); (67459, 67461); (67463, 67504);
    (67506, 67514); (68736, 68786); (68800, 68850); (71840, 71903);
    (93760, 93823); (119808, 119892); (119894, 119964); (119966, 119967);
    (119970, 119970); (119973, 119974); (119977, 119980); (119982, 119993);
    (119995, 119995); (119997, 120003); (120005, 120069); (120071, 120074);
    (120077, 120084); (120086, 120092); (120094, 120121); (120123, 120126);
    (120128, 120132); (120134, 120134); (120138, 120144); (120146, 120485);
    (120488, 120512); (120514, 120538); (120540, 120570); (120572, 120596);
    (120598, 120628); (120630, 120654); (120656, 120686); (120688, 120712);
    (120714, 120744); (120746, 120770); (120772, 120779); (122624, 122633);
    (122635, 122654); (125184, 125251); (127280, 127305); (127312, 127337);
    (127344, 127369)
  ]%N.

(** The code points with the property Case_Ignorable
    ([_PyUnicode_IsCaseIgnorable]). *)
Definition case_ignorable_ranges : list (codepoint * codepoint) :=
  [
    (39, 39); (46, 46); (58, 58); (94, 94); (96, 96); (168, 168);
    (173, 173); (175, 175); (180, 180); (183, 184); (688, 879); (884, 885);
    (890, 890); (900, 901); (903, 903); (1155, 1161); (1369, 1369);
    (1375, 1375); (1425, 1469); (1471, 1471); (1473, 1474); (1476, 1477);
    (1479, 1479); (1524, 1524); (1536, 1541); (1552, 1562); (1564, 1564);
    (1600, 1600); (1611, 1631); (1648, 1648); (1750, 1757); (1759, 1768);
    (1770, 1773); (1807, 1807); (1809, 1809); (1840, 1866); (1958, 1968);
    (2027, 2037); (2042, 2042); (2045, 2045); (2070, 2093); (2137, 2139);
    (2184, 2184); (2192, 2193); (2200, 2207); (2249, 2306); (2362, 2362);
    (2364, 2364); (2369, 2376); (2381, 2381); (2385, 2391); (2402, 2403);
    (2417, 2417); (2433, 2433); (2492, 2492); (2497, 2500); (2509, 2509);
    (2530, 2531); (2558, 2558); (2561, 2562); (2620, 2620); (2625, 2626);
    (2631, 2632); (2635, 2637); (2641, 2641); (2672, 2673); (2677, 2677);
    (2689, 2690); (2748, 2748); (2753, 2757); (2759, 2760); (2765, 2765);
    (2786, 2787); (2810, 2815); (2817, 2817); (2876, 2876); (2879, 2879);
    (2881, 2884); (2893, 2893); (2901, 2902); (2914, 2915); (2946, 2946);
    (3008, 3008); (3021, 3021); (3072, 3072); (3076, 3076); (3132, 3132);
    (3134, 3136); (3142, 3144); (3146, 3149); (3157, 3158); (3170, 3171);
    (3201, 3201); (3260, 3260); (3263, 3263); (3270, 3270); (3276, 3277);
    (3298, 3299); (3328, 3329); (3387, 3388); (3393, 3396); (3405, 3405);
    (3426, 3427); (3457, 3457); (3530, 3530); (3538, 3540); (3542, 3542);
    (3633, 3633); (3636, 3642); (3654, 3662); (3761, 3761); (3764, 3772);
    (3782, 3782); (3784, 3789); (3864, 3865); (3893, 3893); (3895, 3895);
    (3897, 3897); (3953, 3966); (3968, 3972); (3974, 3975); (3981, 3991);
    (3993, 4028); (4038, 4038); (4141, 4144); (4146, 4151); (4153, 4154);
    (4157, 4158); (4184, 4185); (4190, 4192); (4209, 4212); (4226, 4226);
    (4229, 4230); (4237, 4237); (4253, 4253); (4348, 4348); (4957, 4959);
    (5906, 5908); (5938, 5939); (5970, 5971); (6002, 6003); (6068, 6069);
    (6071, 6077); (6086, 6086); (6089, 6099); (6103, 6103); (6109, 6109);
    (6155, 6159); (6211, 6211); (6277, 6278); (6313, 6313); (6432, 6434);
    (6439, 6440); (6450, 6450); (6457, 6459); (6679, 6680); (6683, 6683);
    (6742, 6742); (6744, 6750); (6752, 6752); (6754, 6754); (6757, 6764);
    (6771, 6780); (6783, 6783); (6823, 6823); (6832, 6862); (6912, 6915);
    (6964, 6964); (6966, 6970); (6972, 6972); (6978, 6978); (7019, 7027);
    (7040, 7041); (7074, 7077); (7080, 7081); (7083, 7085); (7142, 7142);
    (7144, 7145); (7149, 7149); (7151, 7153); (7212, 7219); (7222, 7223);
    (7288, 7293); (7376, 7378); (7380, 7392); (7394, 7400); (7405, 7405);
    (7412, 7412); (7416, 7417); (7468, 7530); (7544, 7544); (7579, 7679);
    (8125, 8125); (8127, 8129); (8141, 8143); (8157, 8159); (8173, 8175);
    (8189, 8190); (8203, 8207); (8216, 8217); (8228, 8228); (8231, 8231);
    (8234, 8238); (8288, 8292); (8294, 8303); (8305, 8305); (8319, 8319);
    (8336, 8348); (8400, 8432); (11388, 11389); (11503, 11505);
    (11631, 11631); (11647, 11647); (11744, 11775); (11823, 11823);
    (12293, 12293); (12330, 12333); (12337, 12341); (12347, 12347);
    (12441, 12446); (12540, 12542); (40981, 40981); (42232, 42237);
    (42508, 42508); (42607, 42610); (42612, 42621); (42623, 42623);
    (42652, 42655); (42736, 42737); (42752, 42785); (42864, 42864);
    (42888, 42890); (42994, 42996); (43000, 43001); (43010, 43010);
    (43014, 43014); (43019, 43019); (43045, 43046); (43052, 43052);
    (43204, 43205); (43232, 43249); (43263, 43263); (43302, 43309);
    (43335, 43345); (43392, 43394); (43443, 43443); (43446, 43449);
    (43452, 43453); (43471, 43471); (43493, 43494); (43561, 43566);
    (43569, 43570); (43573, 43574); (43587, 43587); (43596, 43596);
    (43632, 43632); (43644, 43644); (43696, 43696); (43698, 43700);
    (43703, 43704); (43710, 43711); (43713, 43713); (43741, 43741);
    (43756, 43757); (43763, 43764); (43766, 43766); (43867, 43871);
    (43881, 43883); (44005, 44005); (44008, 44008); (44013, 44013);
    (64286, 64286); (64434, 64450); (65024, 65039); (65043, 65043);
    (65056, 65071); (65106, 65106); (65109, 65109); (65279, 65279);
    (65287, 65287); (65294, 65294); (65306, 65306); (65342, 65342);
    (65344, 65344); (65392, 65392); (65438, 65439); (65507, 65507);
    (65529, 65531); (66045, 66045); (66272, 66272); (66422, 66426);
    (67456, 67461); (67463, 67504); (67506, 67514); (68097, 68099);
    (68101, 68102); (68108, 68111); (68152, 68154); (68159, 68159);
    (68325, 68326); (68900, 68903); (69291, 69292); (69446, 69456);
    (69506, 69509); (69633, 69633); (69688, 69702); (69744, 69744);
    (69747, 69748); (69759, 69761); (69811, 69814); (69817, 69818);
    (69821, 69821); (69826, 69826); (69837, 69837); (69888, 69890);
    (69927, 69931); (69933, 69940); (70003, 70003); (70016, 70017);
    (70070, 70078); (70089, 70092); (70095, 70095); (70191, 70193);
    (70196, 70196); (70198, 70199); (70206, 70206); (70367, 70367);
    (70371, 70378); (70400, 70401); (70459, 70460); (70464, 70464);
    (70502, 70508); (70512, 70516); (70712, 70719); (70722, 70724);
    (70726, 70726); (70750, 70750); (70835, 70840); (70842, 70842);
    (70847, 70848); (70850, 70851); (71090, 71093); (71100, 71101);
    (71103, 71104); (71132, 71133); (71219, 71226); (71229, 71229);
    (71231, 71232); (71339, 71339); (71341, 71341); (71344, 71349);
    (71351, 71351); (71453, 71455); (71458, 71461); (71463, 71467);
    (71727, 71735); (71737, 71738); (71995, 71996); (71998, 71998);
    (72003, 72003); (72148, 72151); (72154, 72155); (72160, 72160);
    (72193, 72202); (72243, 72248); (72251, 72254); (72263, 72263);
    (72273, 72278); (72281, 72283); (72330, 72342); (72344, 72345);
    (72752, 72758); (72760, 72765); (72767, 72767); (72850, 72871);
    (72874, 72880); (72882, 72883); (72885, 72886); (73009, 73014);
    (73018, 73018); (73020, 73021); (73023, 73029); (73031, 73031);
    (73104, 73105); (73109, 73109); (73111, 73111); (73459, 73460);
    (78896, 78904); (92912, 92916); (92976, 92982); (92992, 92995);
    (94031, 94031); (94095, 94111); (94176, 94177); (94179, 94180);
    (110576, 110579); (110581, 110587); (110589, 110590); (113821, 113822);
    (113824, 113827); (118528, 118573); (118576, 118598); (119143, 119145);
    (119155, 119170); (119173, 119179); (119210, 119213); (119362, 119364);
    (121344, 121398); (121403, 121452); (121461, 121461); (121476, 121476);
    (121499, 121503); (121505, 121519); (122880, 122886); (122888, 122904);
    (122907, 122913); (122915, 122916); (122918, 122922); (123184, 123197);
    (123566, 123566); (123628, 123631); (125136, 125142); (125252, 125259);
    (127995, 127999); (917505, 917505); (917536, 917631); (917760, 917999)
  ]%N.

(** The full title-case mapping of the code points it changes
    ([_PyUnicode_ToTitleFull]), in ascending order. *)
Definition title_full_table : list (codepoint * list codepoint) :=
  [
    (97, [65]); (98, [66]); (99, [67]); (100, [68]); (101, [69]);
    (102, [70]); (103, [71]); (104, [72]); (105, [73]); (106, [74]);
    (107, [75]); (108, [76]); (109, [77]); (110, [78]); (111, [79]);
    (112, [80]); (113, [81]); (114, [82]); (115, [83]); (116, [84]);
    (117, [85]); (118, [86]); (119, [87]); (120, [88]); (121, [89]);
    (122, [90]); (181, [924]); (223, [83; 115]); (224, [192]);
    (225, [193]); (226, [194]); (227, [195]); (228, [196]); (229, [197]);
    (230, [198]); (231, [199]); (232, [200]); (233, [201]); (234, [202]);
    (235, [203]); (236, [204]); (237, [205]); (238, [206]); (239, [207]);
    (240, [208]); (241, [209]); (242, [210]); (243, [211]); (244, [212]);
    (245, [213]); (246, [214]); (248, [216]); (249, [217]); (250, [218]);
    (251, [219]); (252, [220]); (253, [221]); (254, [222]); (255, [376]);
    (257, [256]); (259, [258]); (261, [260]); (263, [262]); (265, [264]);
    (267, [266]); (269, [268]); (271, [270]); (273, [272]); (275, [274]);
    (277, [276]); (279, [278]); (281, [280]); (283, [282]); (285, [284]);
    (287, [286]); (289, [288]); (291, [290]); (293, [292]); (295, [294]);
    (297, [296]); (299, [298]); (301, [300]); (303, [302]); (305, [73]);
    (307, [306]); (309, [308]); (311, [310]); (314, [313]); (316, [315]);
    (318, [317]); (320, [319]); (322, [321]); (324, [323]); (326, [325]);
    (328, [327]); (329, [700; 78]); (331, [330]); (333, [332]);
    (335, [334]); (337, [336]); (339, [338]); (341, [340]); (343, [342]);
    (345, [344]); (347, [346]); (349, [348]); (351, [350]); (353, [352]);
    (355, [354]); (357, [356]); (359, [358]); (361, [360]); (363, [362]);
    (365, [364]); (367, [366]); (369, [368]); (371, [370]); (373, [372]);
    (375, [374]); (378, [377]); (380, [379]); (382, [381]); (383, [83]);
    (384, [579]); (387, [386]); (389, [388]); (392, [391]); (396, [395]);
    (402, [401]); (405, [502]); (409, [408]); (410, [573]); (414, [544]);
    (417, [416]); (419, [418]); (421, [420]); (424, [423]); (429, [428]);
    (432, [431]); (436, [435]); (438, [437]); (441, [440]); (445, [444]);
    (447, [503]); (452, [453]); (454, [453]); (455, [456]); (457, [456]);
    (458, [459]); (460, [459]); (462, [461]); (464, [463]); (466, [465]);
    (468, [467]); (470, [469]); (472, [471]); (474, [473]); (476, [475]);
    (477, [398]); (479, [478]); (481, [480]); (483, [482]); (485, [484]);
    (487, [486]); (489, [488]); (491, [490]); (493, [492]); (495, [494]);
    (496, [74; 780]); (497, [498]); (499, [498]); (501, [500]);
    (505, [504]); (507, [506]); (509, [508]); (511, [510]); (513, [512]);
    (515, [514]); (517, [516]); (519, [518]); (521, [520]); (523, [522]);
    (525, [524]); (527, [526]); (529, [528]); (531, [530]); (533, [532]);
    (535, [534]); (537, [536]); (539, [538]); (541, [540]); (543, [542]);
    (547, [546]); (549, [548]); (551, [550]); (553, [552]); (555, [554]);
    (557, [556]); (559, [558]); (561, [560]); (563, [562]); (572, [571]);
    (575, [11390]); (576, [11391]); (578, [577]); (583, [582]);
    (585, [584]); (587, [586]); (589, [588]); (591, [590]); (592, [11375]);
    (593, [11373]); (594, [11376]); (595, [385]); (596, [390]);
    (598, [393]); (599, [394]); (601, [399]); (603, [400]); (604, [42923]);
    (608, [403]); (609, [42924]); (611, [404]); (613, [42893]);
    (614, [42922]); (616, [407]); (617, [406]); (618, [42926]);
    (619, [11362]); (620, [42925]); (623, [412]); (625, [11374]);
    (626, [413]); (629, [415]); (637, [11364]); (640, [422]);
    (642, [42949]); (643, [425]); (647, [42929]); (648, [430]);
    (649, [580]); (650, [433]); (651, [434]); (652, [581]); (658, [439]);
    (669, [42930]); (670, [42928]); (837, [921]); (881, [880]);
    (883, [882]); (887, [886]); (891, [1021]); (892, [1022]);
    (893, [1023]); (912, [921; 776; 769]); (940, [902]); (941, [904]);
    (942, [905]); (943, [906]); (944, [933; 776; 769]); (945, [913]);
    (946, [914]); (947, [915]); (948, [916]); (949, [917]); (950, [918]);
    (951, [919]); (952, [920]); (953, [921]); (954, [922]); (955, [923]);
    (956, [924]); (957, [925]); (958, [926]); (959, [927]); (960, [928]);
    (961, [929]); (962, [931]); (963, [931]); (964, [932]); (965, [933]);
    (966, [934]); (967, [935]); (968, [936]); (969, [937]); (970, [938]);
    (971, [939]); (972, [908]); (973, [910]); (974, [911]); (976, [914]);
    (977, [920]); (981, [934]); (982, [928]); (983, [975]); (985, [984]);
    (987, [986]); (989, [988]); (991, [990]); (993, [992]); (995, [994]);
    (997, [996]); (999, [998]); (1001, [1000]); (1003, [1002]);
    (1005, [1004]); (1007, [1006]); (1008, [922]); (1009, [929]);
    (1010, [1017]); (1011, [895]); (1013, [917]); (1016, [1015]);
    (1019, [1018]); (1072, [1040]); (1073, [1041]); (1074, [1042]);
    (1075, [1043]); (1076, [1044]); (1077, [1045]); (1078, [1046]);
    (1079, [1047]); (1080, [1048]); (1081, [1049]); (1082, [1050]);
    (1083, [1051]); (1084, [1052]); (1085, [1053]); (1086, [1054]);
    (1087, [1055]); (1088, [1056]); (1089, [1057]); (1090, [1058]);
    (1091, [1059]); (1092, [1060]); (1093, [1061]); (1094, [1062]);
    (1095, [1063]); (1096, [1064]); (1097, [1065]); (1098, [1066]);
    (1099, [1067]); (1100, [1068]); (1101, [1069]); (1102, [1070]);
    (1103, [1071]); (1104, [1024]); (1105, [1025]); (1106, [1026]);
    (1107, [1027]); (1108, [1028]); (1109, [1029]); (1110, [1030]);
    (1111, [1031]); (1112, [1032]); (1113, [1033]); (1114, [1034]);
    (1115, [1035]); (1116, [1036]); (1117, [1037]); (1118, [1038]);
    (1119, [1039]); (1121, [1120]); (1123, [1122]); (1125, [1124]);
    (1127, [1126]); (1129, [1128]); (1131, [1130]); (1133, [1132]);
    (1135, [1134]); (1137, [1136]); (1139, [1138]); (1141, [1140]);
    (1143, [1142]); (1145, [1144]); (1147, [1146]); (1149, [1148]);
    (1151, [1150]); (1153, [1152]); (1163, [1162]); (1165, [1164]);
    (1167, [1166]); (1169, [1168]); (1171, [1170]); (1173, [1172]);
    (1175, [1174]); (1177, [1176]); (1179, [1178]); (1181, [1180]);
    (1183, [1182]); (1185, [1184]); (1187, [1186]); (1189, [1188]);
    (1191, [1190]); (1193, [1192]); (1195, [1194]); (1197, [1196]);
    (1199, [1198]); (1201, [1200]); (1203, [1202]); (1205, [1204]);
    (1207, [1206]); (1209, [1208]); (1211, [1210]); (1213, [1212]);
    (1215, [1214]); (1218, [1217]); (1220, [1219]); (1222, [1221]);
    (1224, [1223]); (1226, [1225]); (1228, [1227]); (1230, [1229]);
    (1231, [1216]); (1233, [1232]); (1235, [1234]); (1237, [1236]);
    (1239, [1238]); (1241, [1240]); (1243, [1242]); (1245, [1244]);
    (1247, [1246]); (1249, [1248]); (1251, [1250]); (1253, [1252]);
    (1255, [1254]); (1257, [1256]); (1259, [1258]); (1261, [1260]);
    (1263, [1262]); (1265, [1264]); (1267, [1266]); (1269, [1268]);
    (1271, [1270]); (1273, [1272]); (1275, [1274]); (1277, [1276]);
    (1279, [1278]); (1281, [1280]); (1283, [1282]); (1285, [1284]);
    (1287, [1286]); (1289, [1288]); (1291, [1290]); (1293, [1292]);
    (1295, [1294]); (1297, [1296]); (1299, [1298]); (1301, [1300]);
    (1303, [1302]); (1305, [1304]); (1307, [1306]); (1309, [1308]);
    (1311, [1310]); (1313, [1312]); (1315, [1314]); (1317, [1316]);
    (1319, [1318]); (1321, [1320]); (1323, [1322]); (1325, [1324]);
    (1327, [1326]); (1377, [1329]); (1378, [1330]); (1379, [1331]);
    (1380, [1332]); (1381, [1333]); (1382, [1334]); (1383, [1335]);
    (1384, [1336]); (1385, [1337]); (1386, [1338]); (1387, [1339]);
    (1388, [1340]); (1389, [1341]); (1390, [1342]); (1391, [1343]);
    (1392, [1344]); (1393, [1345]); (1394, [1346]); (1395, [1347]);
    (1396, [1348]); (1397, [1349]); (1398, [1350]); (1399, [1351]);
    (1400, [1352]); (1401, [1353]); (1402, [1354]); (1403, [1355]);
    (1404, [1356]); (1405, [1357]); (1406, [1358]); (1407, [1359]);
    (1408, [1360]); (1409, [1361]); (1410, [1362]); (1411, [1363]);
    (1412, [1364]); (1413, [1365]); (1414, [1366]); (1415, [1333; 1410]);
    (5112, [5104]); (5113, [5105]); (5114, [5106]); (5115, [5107]);
    (5116, [5108]); (5117, [5109]); (7296, [1042]); (7297, [1044]);
    (7298, [1054]); (7299, [1057]); (7300, [1058]); (7301, [1058]);
    (7302, [1066]); (7303, [1122]); (7304, [42570]); (7545, [42877]);
    (7549, [11363]); (7566, [42950]); (7681, [7680]); (7683, [7682]);
    (7685, [7684]); (7687, [7686]); (7689, [7688]); (7691, [7690]);
    (7693, [7692]); (7695, [7694]); (7697, [7696]); (7699, [7698]);
    (7701, [7700]); (7703, [7702]); (7705, [7704]); (7707, [7706]);
    (7709, [7708]); (7711, [7710]); (7713, [7712]); (7715, [7714]);
    (7717, [7716]); (7719, [7718]); (7721, [7720]); (7723, [7722]);
    (7725, [7724]); (7727, [7726]); (7729, [7728]); (7731, [7730]);
    (7733, [7732]); (7735, [7734]); (7737, [7736]); (7739, [7738]);
    (7741, [7740]); (7743, [7742]); (7745, [7744]); (7747, [7746]);
    (7749, [7748]); (7751, [7750]); (7753, [7752]); (7755, [7754]);
    (7757, [7756]); (7759, [7758]); (7761, [7760]); (7763, [7762]);
    (7765, [7764]); (7767, [7766]); (7769, [7768]); (7771, [7770]);
    (7773, [7772]); (7775, [7774]); (7777, [7776]); (7779, [7778]);
    (7781, [7780]); (7783, [7782]); (7785, [7784]); (7787, [7786]);
    (7789, [7788]); (7791, [7790]); (7793, [7792]); (7795, [7794]);
    (7797, [7796]); (7799, [7798]); (7801, [7800]); (7803, [7802]);
    (7805, [7804]); (7807, [7806]); (7809, [7808]); (7811, [7810]);
    (7813, [7812]); (7815, [7814]); (7817, [7816]); (7819, [7818]);
    (7821, [7820]); (7823, [7822]); (7825, [7824]); (7827, [7826]);
    (7829, [7828]); (7830, [72; 817]); (7831, [84; 776]);
    (7832, [87; 778]); (7833, [89; 778]); (7834, [65; 702]);
    (7835, [7776]); (7841, [7840]); (7843, [7842]); (7845, [7844]);
    (7847, [7846]); (7849, [7848]); (7851, [7850]); (7853, [7852]);
    (7855, [7854]); (7857, [7856]); (7859, [7858]); (7861, [7860]);
    (7863, [7862]); (7865, [7864]); (7867, [7866]); (7869, [7868]);
    (7871, [7870]); (7873, [7872]); (7875, [7874]); (7877, [7876]);
    (7879, [7878]); (7881, [7880]); (7883, [7882]); (7885, [7884]);
    (7887, [7886]); (7889, [7888]); (7891, [7890]); (7893, [7892]);
    (7895, [7894]); (7897, [7896]); (7899, [7898]); (7901, [7900]);
    (7903, [7902]); (7905, [7904]); (7907, [7906]); (7909, [7908]);
    (7911, [7910]); (7913, [7912]); (7915, [7914]); (7917, [7916]);
    (7919, [7918]); (7921, [7920]); (7923, [7922]); (7925, [7924]);
    (7927, [7926]); (7929, [7928]); (7931, [7930]); (7933, [7932]);
    (7935, [7934]); (7936, [7944]); (7937, [7945]); (7938, [7946]);
    (7939, [7947]); (7940, [7948]); (7941, [7949]); (7942, [7950]);
    (7943, [7951]); (7952, [7960]); (7953, [7961]); (7954, [7962]);
    (7955, [7963]); (7956, [7964]); (7957, [7965]); (7968, [7976]);
    (7969, [7977]); (7970, [7978]); (7971, [7979]); (7972, [7980]);
    (7973, [7981]); (7974, [7982]); (7975, [7983]); (7984, [7992]);
    (7985, [7993]); (7986, [7994]); (7987, [7995]); (7988, [7996]);
    (7989, [7997]); (7990, [7998]); (7991, [7999]); (8000, [8008]);
    (8001, [8009]); (8002, [8010]); (8003, [8011]); (8004, [8012]);
    (8005, [8013]); (8016, [933; 787]); (8017, [8025]);
    (8018, [933; 787; 768]); (8019, [8027]); (8020, [933; 787; 769]);
    (8021, [8029]); (8022, [933; 787; 834]); (8023, [8031]);
    (8032, [8040]); (8033, [8041]); (8034, [8042]); (8035, [8043]);
    (8036, [8044]); (8037, [8045]); (8038, [8046]); (8039, [8047]);
    (8048, [8122]); (8049, [8123]); (8050, [8136]); (8051, [8137]);
    (8052, [8138]); (8053, [8139]); (8054, [8154]); (8055, [8155]);
    (8056, [8184]); (8057, [8185]); (8058, [8170]); (8059, [8171]);
    (8060, [8186]); (8061, [8187]); (8064, [8072]); (8065, [8073]);
    (8066, [8074]); (8067, [8075]); (8068, [8076]); (8069, [8077]);
    (8070, [8078]); (8071, [8079]); (8080, [8088]); (8081, [8089]);
    (8082, [8090]); (8083, [8091]); (8084, [8092]); (8085, [8093]);
    (8086, [8094]); (8087, [8095]); (8096, [8104]); (8097, [8105]);
    (8098, [8106]); (8099, [8107]); (8100, [8108]); (8101, [8109]);
    (8102, [8110]); (8103, [8111]); (8112, [8120]); (8113, [8121]);
    (8114, [8122; 837]); (8115, [8124]); (8116, [902; 837]);
    (8118, [913; 834]); (8119, [913; 834; 837]); (8126, [921]);
    (8130, [8138; 837]); (8131, [8140]); (8132, [905; 837]);
    (8134, [919; 834]); (8135, [919; 834; 837]); (8144, [8152]);
    (8145, [8153]); (8146, [921; 776; 768]); (8147, [921; 776; 769]);
    (8150, [921; 834]); (8151, [921; 776; 834]); (8160, [8168]);
    (8161, [8169]); (8162, [933; 776; 768]); (8163, [933; 776; 769]);
    (8164, [929; 787]); (8165, [8172]); (8166, [933; 834]);
    (8167, [933; 776; 834]); (8178, [8186; 837]); (8179, [8188]);
    (8180, [911; 837]); (8182, [937; 834]); (8183, [937; 834; 837]);
    (8526, [8498]); (8560, [8544]); (8561, [8545]); (8562, [8546]);
    (8563, [8547]); (8564, [8548]); (8565, [8549]); (8566, [8550]);
    (8567, [8551]); (8568, [8552]); (8569, [8553]); (8570, [8554]);
    (8571, [8555]); (8572, [8556]); (8573, [8557]); (8574, [8558]);
    (8575, [8559]); (8580, [8579]); (9424, [9398]); (9425, [9399]);
    (9426, [9400]); (9427, [9401]); (9428, [9402]); (9429, [9403]);
    (9430, [9404]); (9431, [9405]); (9432, [9406]); (9433, [9407]);
    (9434, [9408]); (9435, [9409]); (9436, [9410]); (9437, [9411]);
    (9438, [9412]); (9439, [9413]); (9440, [9414]); (9441, [9415]);
    (9442, [9416]); (9443, [9417]); (9444, [9418]); (9445, [9419]);
    (9446, [9420]); (9447, [9421]); (9448, [9422]); (9449, [9423]);
    (11312, [11264]); (11313, [11265]); (11314, [11266]); (11315, [11267]);
    (11316, [11268]); (11317, [11269]); (11318, [11270]); (11319, [11271]);
    (11320, [11272]); (11321, [11273]); (11322, [11274]); (11323, [11275]);
    (11324, [11276]); (11325, [11277]); (11326, [11278]); (11327, [11279]);
    (11328, [11280]); (11329, [11281]); (11330, [11282]); (11331, [11283]);
    (11332, [11284]); (11333, [11285]); (11334, [11286]); (11335, [11287]);
    (11336, [11288]); (11337, [11289]); (11338, [11290]); (11339, [11291]);
    (11340, [11292]); (11341, [11293]); (11342, [11294]); (11343, [11295]);
    (11344, [11296]); (11345, [11297]); (11346, [11298]); (11347, [11299]);
    (11348, [11300]); (11349, [11301]); (11350, [11302]); (11351, [11303]);
    (11352, [11304]); (11353, [11305]); (11354, [11306]); (11355, [11307]);
    (11356, [11308]); (11357, [11309]); (11358, [11310]); (11359, [11311]);
    (11361, [11360]); (11365, [570]); (11366, [574]); (11368, [11367]);
    (11370, [11369]); (11372, [11371]); (11379, [11378]); (11382, [11381]);
    (11393, [11392]); (11395, [11394]); (11397, [11396]); (11399, [11398]);
    (11401, [11400]); (11403, [11402]); (11405, [11404]); (11407, [11406]);
    (11409, [11408]); (11411, [11410]); (11413, [11412]); (11415, [11414]);
    (11417, [11416]); (11419, [11418]); (11421, [11420]); (11423, [11422]);
    (11425, [11424]); (11427, [11426]); (11429, [11428]); (11431, [11430]);
    (11433, [11432]); (11435, [11434]); (11437, [11436]); (11439, [11438]);
    (11441, [11440]); (11443, [11442]); (11445, [11444]); (11447, [11446]);
    (11449, [11448]); (11451, [11450]); (11453, [11452]); (11455, [11454]);
    (11457, [11456]); (11459, [11458]); (11461, [11460]); (11463, [11462]);
    (11465, [11464]); (11467, [11466]); (11469, [11468]); (11471, [11470]);
    (11473, [11472]); (11475, [11474]); (11477, [11476]); (11479, [11478]);
    (11481, [11480]); (11483, [11482]); (11485, [11484]); (11487, [11486]);
    (11489, [11488]); (11491, [11490]); (11500, [11499]); (11502, [11501]);
    (11507, [11506]); (11520, [4256]); (11521, [4257]); (11522, [4258]);
    (11523, [4259]); (11524, [4260]); (11525, [4261]); (11526, [4262]);
    (11527, [4263]); (11528, [4264]); (11529, [4265]); (11530, [4266]);
    (11531, [4267]); (11532, [4268]); (11533, [4269]); (11534, [4270]);
    (11535, [4271]); (11536, [4272]); (11537, [4273]); (11538, [4274]);
    (11539, [4275]); (11540, [4276]); (11541, [4277]); (11542, [4278]);
    (11543, [4279]); (11544, [4280]); (11545, [4281]); (11546, [4282]);
    (11547, [4283]); (11548, [4284]); (11549, [4285]); (11550, [4286]);
    (11551, [4287]); (11552, [4288]); (11553, [4289]); (11554, [4290]);
    (11555, [4291]); (11556, [4292]); (11557, [4293]); (11559, [4295]);
    (11565, [4301]); (42561, [42560]); (42563, [42562]); (42565, [42564]);
    (42567, [42566]); (42569, [42568]); (42571, [42570]); (42573, [42572]);
    (42575, [42574]); (42577, [42576]); (42579, [42578]); (42581, [42580]);
    (42583, [42582]); (42585, [42584]); (42587, [42586]); (42589, [42588]);
    (42591, [42590]); (42593, [42592]); (42595, [42594]); (42597, [42596]);
    (42599, [42598]); (42601, [42600]); (42603, [42602]); (42605, [42604]);
    (42625, [42624]); (42627, [42626]); (42629, [42628]); (42631, [42630]);
    (42633, [42632]); (42635, [42634]); (42637, [42636]); (42639, [42638]);
    (42641, [42640]); (42643, [42642]); (42645, [42644]); (42647, [42646]);
    (42649, [42648]); (42651, [42650]); (42787, [42786]); (42789, [42788]);
    (42791, [42790]); (42793, [42792]); (42795, [42794]); (42797, [42796]);
    (42799, [42798]); (42803, [42802]); (42805, [42804]); (42807, [42806]);
    (42809, [42808]); (42811, [42810]); (42813, [42812]); (42815, [42814]);
    (42817, [42816]); (42819, [42818]); (42821, [42820]); (42823, [42822]);
    (42825, [42824]); (42827, [42826]); (42829, [42828]); (42831, [42830]);
    (42833, [42832]); (42835, [42834]); (42837, [42836]); (42839, [42838]);
    (42841, [42840]); (42843, [42842]); (42845, [42844]); (42847, [42846]);
    (42849, [42848]); (42851, [42850]); (42853, [42852]); (42855, [42854]);
    (42857, [42856]); (42859, [42858]); (42861, [42860]); (42863, [42862]);
    (42874, [42873]); (42876, [42875]); (42879, [42878]); (42881, [42880]);
    (42883, [42882]); (42885, [42884]); (42887, [42886]); (42892, [42891]);
    (42897, [42896]); (42899, [42898]); (42900, [42948]); (42903, [42902]);
    (42905, [42904]); (42907, [42906]); (42909, [42908]); (42911, [42910]);
    (42913, [42912]); (42915, [42914]); (42917, [42916]); (42919, [42918]);
    (42921, [42920]); (42933, [42932]); (42935, [42934]); (42937, [42936]);
    (42939, [42938]); (42941, [42940]); (42943, [42942]); (42945, [42944]);
    (42947, [42946]); (42952, [42951]); (42954, [42953]); (42961, [42960]);
    (42967, [42966]); (42969, [42968]); (42998, [42997]); (43859, [42931]);
    (43888, [5024]); (43889, [5025]); (43890, [5026]); (43891, [5027]);
    (43892, [5028]); (43893, [5029]); (43894, [5030]); (43895, [5031]);
    (43896, [5032]); (43897, [5033]); (43898, [5034]); (43899, [5035]);
    (43900, [5036]); (43901, [5037]); (43902, [5038]); (43903, [5039]);
    (43904, [5040]); (43905, [5041]); (43906, [5042]); (43907, [5043]);
    (43908, [5044]); (43909, [5045]); (43910, [5046]); (43911, [5047]);
    (43912, [5048]); (43913, [5049]); (43914, [5050]); (43915, [5051]);
    (43916, [5052]); (43917, [5053]); (43918, [5054]); (43919, [5055]);
    (43920, [5056]); (43921, [5057]); (43922, [5058]); (43923, [5059]);
    (43924, [5060]); (43925, [5061]); (43926, [5062]); (43927, [5063]);
    (43928, [5064]); (43929, [5065]); (43930, [5066]); (43931, [5067]);
    (43932, [5068]); (43933, [5069]); (43934, [5070]); (43935, [5071]);
    (43936, [5072]); (43937, [5073]); (43938, [5074]); (43939, [5075]);
    (43940, [5076]); (43941, [5077]); (43942, [5078]); (43943, [5079]);
    (43944, [5080]); (43945, [5081]); (43946, [5082]); (43947, [5083]);
    (43948, [5084]); (43949, [5085]); (43950, [5086]); (43951, [5087]);
    (43952, [5088]); (43953, [5089]); (43954, [5090]); (43955, [5091]);
    (43956, [5092]); (43957, [5093]); (43958, [5094]); (43959, [5095]);
    (43960, [5096]); (43961, [5097]); (43962, [5098]); (43963, [5099]);
    (43964, [5100]); (43965, [5101]); (43966, [5102]); (43967, [5103]);
    (64256, [70; 102]); (64257, [70; 105]); (64258, [70; 108]);
    (64259, [70; 102; 105]); (64260, [70; 102; 108]); (64261, [83; 116]);
    (64262, [83; 116]); (64275, [1348; 1398]); (64276, [1348; 1381]);
    (64277, [1348; 1387]); (64278, [1358; 1398]); (64279, [1348; 1389]);
    (65345, [65313]); (65346, [65314]); (65347, [65315]); (65348, [65316]);
    (65349, [65317]); (65350, [65318]); (65351, [65319]); (65352, [65320]);
    (65353, [65321]); (65354, [65322]); (65355, [65323]); (65356, [65324]);
    (65357, [65325]); (65358, [65326]); (65359, [65327]); (65360, [65328]);
    (65361, [65329]); (65362, [65330]); (65363, [65331]); (65364, [65332]);
    (65365, [65333]); (65366, [65334]); (65367, [65335]); (65368, [65336]);
    (65369, [65337]); (65370, [65338]); (66600, [66560]); (66601, [66561]);
    (66602, [66562]); (66603, [66563]); (66604, [66564]); (66605, [66565]);
    (66606, [66566]); (66607, [66567]); (66608, [66568]); (66609, [66569]);
    (66610, [66570]); (66611, [66571]); (66612, [66572]); (66613, [66573]);
    (66614, [66574]); (66615, [66575]); (66616, [66576]); (66617, [66577]);
    (66618, [66578]); (66619, [66579]); (66620, [66580]); (66621, [66581]);
    (66622, [66582]); (66623, [66583]); (66624, [66584]); (66625, [66585]);
    (66626, [66586]); (66627, [66587]); (66628, [66588]); (66629, [66589]);
    (66630, [66590]); (66631, [66591]); (66632, [66592]); (66633, [66593]);
    (66634, [66594]); (66635, [66595]); (66636, [66596]); (66637, [66597]);
    (66638, [66598]); (66639, [66599]); (66776, [66736]); (66777, [66737]);
    (66778, [66738]); (66779, [66739]); (66780, [66740]); (66781, [66741]);
    (66782, [66742]); (66783, [66743]); (66784, [66744]); (66785, [66745]);
    (66786, [66746]); (66787, [66747]); (66788, [66748]); (66789, [66749]);
    (66790, [66750]); (66791, [66751]); (66792, [66752]); (66793, [66753]);
    (66794, [66754]); (66795, [66755]); (66796, [66756]); (66797, [66757]);
    (66798, [66758]); (66799, [66759]); (66800, [66760]); (66801, [66761]);
    (66802, [66762]); (66803, [66763]); (66804, [66764]); (66805, [66765]);
    (66806, [66766]); (66807, [66767]); (66808, [66768]); (66809, [66769]);
    (66810, [66770]); (66811, [66771]); (66967, [66928]); (66968, [66929]);
    (66969, [66930]); (66970, [66931]); (66971, [66932]); (66972, [66933]);
    (66973, [66934]); (66974, [66935]); (66975, [66936]); (66976, [66937]);
    (66977, [66938]); (66979, [66940]); (66980, [66941]); (66981, [66942]);
    (66982, [66943]); (66983, [66944]); (66984, [66945]); (66985, [66946]);
    (66986, [66947]); (66987, [66948]); (66988, [66949]); (66989, [66950]);
    (66990, [66951]); (66991, [66952]); (66992, [66953]); (66993, [66954]);
    (66995, [66956]); (66996, [66957]); (66997, [66958]); (66998, [66959]);
    (66999, [66960]); (67000, [66961]); (67001, [66962]); (67003, [66964]);
    (67004, [66965]); (68800, [68736]); (68801, [68737]); (68802, [68738]);
    (68803, [68739]); (68804, [68740]); (68805, [68741]); (68806, [68742]);
    (68807, [68743]); (68808, [68744]); (68809, [68745]); (68810, [68746]);
    (68811, [68747]); (68812, [68748]); (68813, [68749]); (68814, [68750]);
    (68815, [68751]); (68816, [68752]); (68817, [68753]); (68818, [68754]);
    (68819, [68755]); (68820, [68756]); (68821, [68757]); (68822, [68758]);
    (68823, [68759]); (68824, [68760]); (68825, [68761]); (68826, [68762]);
    (68827, [68763]); (68828, [68764]); (68829, [68765]); (68830, [68766]);
    (68831, [68767]); (68832, [68768]); (68833, [68769]); (68834, [68770]);
    (68835, [68771]); (68836, [68772]); (68837, [68773]); (68838, [68774]);
    (68839, [68775]); (68840, [68776]); (68841, [68777]); (68842, [68778]);
    (68843, [68779]); (68844, [68780]); (68845, [68781]); (68846, [68782]);
    (68847, [68783]); (68848, [68784]); (68849, [68785]); (68850, [68786]);
    (71872, [71840]); (71873, [71841]); (71874, [71842]); (71875, [71843]);
    (71876, [71844]); (71877, [71845]); (71878, [71846]); (71879, [71847]);
    (71880, [71848]); (71881, [71849]); (71882, [71850]); (71883, [71851]);
    (71884, [71852]); (71885, [71853]); (71886, [71854]); (71887, [71855]);
    (71888, [71856]); (71889, [71857]); (71890, [71858]); (71891, [71859]);
    (71892, [71860]); (71893, [71861]); (71894, [71862]); (71895, [71863]);
    (71896, [71864]); (71897, [71865]); (71898, [71866]); (71899, [71867]);
    (71900, [71868]); (71901, [71869]); (71902, [71870]); (71903, [71871]);
    (93792, [93760]); (93793, [93761]); (93794, [93762]); (93795, [93763]);
    (93796, [93764]); (93797, [93765]); (93798, [93766]); (93799, [93767]);
    (93800, [93768]); (93801, [93769]); (93802, [93770]); (93803, [93771]);
    (93804, [93772]); (93805, [93773]); (93806, [93774]); (93807, [93775]);
    (93808, [93776]); (93809, [93777]); (93810, [93778]); (93811, [93779]);
    (93812, [93780]); (93813, [93781]); (93814, [93782]); (93815, [93783]);
    (93816, [93784]); (93817, [93785]); (93818, [93786]); (93819, [93787]);
    (93820, [93788]); (93821, [93789]); (93822, [93790]); (93823, [93791]);
    (125218, [125184]); (125219, [125185]); (125220, [125186]);
    (125221, [125187]); (125222, [125188]); (125223, [125189]);
    (125224, [125190]); (125225, [125191]); (125226, [125192]);
    (125227, [125193]); (125228, [125194]); (125229, [125195]);
    (125230, [125196]); (125231, [125197]); (125232, [125198]);
    (125233, [125199]); (125234, [125200]); (125235, [125201]);
    (125236, [125202]); (125237, [125203]); (125238, [125204]);
    (125239, [125205]); (125240, [125206]); (125241, [125207]);
    (125242, [125208]); (125243, [125209]); (125244, [125210]);
    (125245, [125211]); (125246, [125212]); (125247, [125213]);
    (125248, [125214]); (125249, [125215]); (125250, [125216]);
    (125251, [125217])
  ]%N.

(** The full lower-case mapping of the code points it changes
    ([_PyUnicode_ToLowerFull]), in ascending order. *)
Definition lower_full_table : list (codepoint * list codepoint) :=
  [
    (65, [97]); (66, [98]); (67, [99]); (68, [100]); (69, [101]);
    (70, [102]); (71, [103]); (72, [104]); (73, [105]); (74, [106]);
    (75, [107]); (76, [108]); (77, [109]); (78, [110]); (79, [111]);
    (80, [112]); (81, [113]); (82, [114]); (83, [115]); (84, [116]);
    (85, [117]); (86, [118]); (87, [119]); (88, [120]); (89, [121]);
    (90, [122]); (192, [224]); (193, [225]); (194, [226]); (195, [227]);
    (196, [228]); (197, [229]); (198, [230]); (199, [231]); (200, [232]);
    (201, [233]); (202, [234]); (203, [235]); (204, [236]); (205, [237]);
    (206, [238]); (207, [239]); (208, [240]); (209, [241]); (210, [242]);
    (211, [243]); (212, [244]); (213, [245]); (214, [246]); (216, [248]);
    (217, [249]); (218, [250]); (219, [251]); (220, [252]); (221, [253]);
    (222, [254]); (256, [257]); (258, [259]); (260, [261]); (262, [263]);
    (264, [265]); (266, [267]); (268, [269]); (270, [271]); (272, [273]);
    (274, [275]); (276, [277]); (278, [279]); (280, [281]); (282, [283]);
    (284, [285]); (286, [287]); (288, [289]); (290, [291]); (292, [293]);
    (294, [295]); (296, [297]); (298, [299]); (300, [301]); (302, [303]);
    (304, [105; 775]); (306, [307]); (308, [309]); (310, [311]);
    (313, [314]); (315, [316]); (317, [318]); (319, [320]); (321, [322]);
    (323, [324]); (325, [326]); (327, [328]); (330, [331]); (332, [333]);
    (334, [335]); (336, [337]); (338, [339]); (340, [341]); (342, [343]);
    (344, [345]); (346, [347]); (348, [349]); (350, [351]); (352, [353]);
    (354, [355]); (356, [357]); (358, [359]); (360, [361]); (362, [363]);
    (364, [365]); (366, [367]); (368, [369]); (370, [371]); (372, [373]);
    (374, [375]); (376, [255]); (377, [378]); (379, [380]); (381, [382]);
    (385, [595]); (386, [387]); (388, [389]); (390, [596]); (391, [392]);
    (393, [598]); (394, [599]); (395, [396]); (398, [477]); (399, [601]);
    (400, [603]); (401, [402]); (403, [608]); (404, [611]); (406, [617]);
    (407, [616]); (408, [409]); (412, [623]); (413, [626]); (415, [629]);
    (416, [417]); (418, [419]); (420, [421]); (422, [640]); (423, [424]);
    (425, [643]); (428, [429]); (430, [648]); (431, [432]); (433, [650]);
    (434, [651]); (435, [436]); (437, [438]); (439, [658]); (440, [441]);
    (444, [445]); (452, [454]); (453, [454]); (455, [457]); (456, [457]);
    (458, [460]); (459, [460]); (461, [462]); (463, [464]); (465, [466]);
    (467, [468]); (469, [470]); (471, [472]); (473, [474]); (475, [476]);
    (478, [479]); (480, [481]); (482, [483]); (484, [485]); (486, [487]);
    (488, [489]); (490, [491]); (492, [493]); (494, [495]); (497, [499]);
    (498, [499]); (500, [501]); (502, [405]); (503, [447]); (504, [505]);
    (506, [507]); (508, [509]); (510, [511]); (512, [513]); (514, [515]);
    (516, [517]); (518, [519]); (520, [521]); (522, [523]); (524, [525]);
    (526, [527]); (528, [529]); (530, [531]); (532, [533]); (534, [535]);
    (536, [537]); (538, [539]); (540, [541]); (542, [543]); (544, [414]);
    (546, [547]); (548, [549]); (550, [551]); (552, [553]); (554, [555]);
    (556, [557]); (558, [559]); (560, [561]); (562, [563]); (570, [11365]);
    (571, [572]); (573, [410]); (574, [11366]); (577, [578]); (579, [384]);
    (580, [649]); (581, [652]); (582, [583]); (584, [585]); (586, [587]);
    (588, [589]); (590, [591]); (880, [881]); (882, [883]); (886, [887]);
    (895, [1011]); (902, [940]); (904, [941]); (905, [942]); (906, [943]);
    (908, [972]); (910, [973]); (911, [974]); (913, [945]); (914, [946]);
    (915, [947]); (916, [948]); (917, [949]); (918, [950]); (919, [951]);
    (920, [952]); (921, [953]); (922, [954]); (923, [955]); (924, [956]);
    (925, [957]); (926, [958]); (927, [959]); (928, [960]); (929, [961]);
    (931, [963]); (932, [964]); (933, [965]); (934, [966]); (935, [967]);
    (936, [968]); (937, [969]); (938, [970]); (939, [971]); (975, [983]);
    (984, [985]); (986, [987]); (988, [989]); (990, [991]); (992, [993]);
    (994, [995]); (996, [997]); (998, [999]); (1000, [1001]);
    (1002, [1003]); (1004, [1005]); (1006, [1007]); (1012, [952]);
    (1015, [1016]); (1017, [1010]); (1018, [1019]); (1021, [891]);
    (1022, [892]); (1023, [893]); (1024, [1104]); (1025, [1105]);
    (1026, [1106]); (1027, [1107]); (1028, [1108]); (1029, [1109]);
    (1030, [1110]); (1031, [1111]); (1032, [1112]); (1033, [1113]);
    (1034, [1114]); (1035, [1115]); (1036, [1116]); (1037, [1117]);
    (1038, [1118]); (1039, [1119]); (1040, [1072]); (1041, [1073]);
    (1042, [1074]); (1043, [1075]); (1044, [1076]); (1045, [1077]);
    (1046, [1078]); (1047, [1079]); (1048, [1080]); (1049, [1081]);
    (1050, [1082]); (1051, [1083]); (1052, [1084]); (1053, [1085]);
    (1054, [1086]); (1055, [1087]); (1056, [1088]); (1057, [1089]);
    (1058, [1090]); (1059, [1091]); (1060, [1092]); (1061, [1093]);
    (1062, [1094]); (1063, [1095]); (1064, [1096]); (1065, [1097]);
    (1066, [1098]); (1067, [1099]); (1068, [1100]); (1069, [1101]);
    (1070, [1102]); (1071, [1103]); (1120, [1121]); (1122, [1123]);
    (1124, [1125]); (1126, [1127]); (1128, [1129]); (1130, [1131]);
    (1132, [1133]); (1134, [1135]); (1136, [1137]); (1138, [1139]);
    (1140, [1141]); (1142, [1143]); (1144, [1145]); (1146, [1147]);
    (1148, [1149]); (1150, [1151]); (1152, [1153]); (1162, [1163]);
    (1164, [1165]); (1166, [1167]); (1168, [1169]); (1170, [1171]);
    (1172, [1173]); (1174, [1175]); (1176, [1177]); (1178, [1179]);
    (1180, [1181]); (1182, [1183]); (1184, [1185]); (1186, [1187]);
    (1188, [1189]); (1190, [1191]); (1192, [1193]); (1194, [1195]);
    (1196, [1197]); (1198, [1199]); (1200, [1201]); (1202, [1203]);
    (1204, [1205]); (1206, [1207]); (1208, [1209]); (1210, [1211]);
    (1212, [1213]); (1214, [1215]); (1216, [1231]); (1217, [1218]);
    (1219, [1220]); (1221, [1222]); (1223, [1224]); (1225, [1226]);
    (1227, [1228]); (1229, [1230]); (1232, [1233]); (1234, [1235]);
    (1236, [1237]); (1238, [1239]); (1240, [1241]); (1242, [1243]);
    (1244, [1245]); (1246, [1247]); (1248, [1249]); (1250, [1251]);
    (1252, [1253]); (1254, [1255]); (1256, [1257]); (1258, [1259]);
    (1260, [1261]); (1262, [1263]); (1264, [1265]); (1266, [1267]);
    (1268, [1269]); (1270, [1271]); (1272, [1273]); (1274, [1275]);
    (1276, [1277]); (1278, [1279]); (1280, [1281]); (1282, [1283]);
    (1284, [1285]); (1286, [1287]); (1288, [1289]); (1290, [1291]);
    (1292, [1293]); (1294, [1295]); (1296, [1297]); (1298, [1299]);
    (1300, [1301]); (1302, [1303]); (1304, [1305]); (1306, [1307]);
    (1308, [1309]); (1310, [1311]); (1312, [1313]); (1314, [1315]);
    (1316, [1317]); (1318, [1319]); (1320, [1321]); (1322, [1323]);
    (1324, [1325]); (1326, [1327]); (1329, [1377]); (1330, [1378]);
    (1331, [1379]); (1332, [1380]); (1333, [1381]); (1334, [1382]);
    (1335, [1383]); (1336, [1384]); (1337, [1385]); (1338, [1386]);
    (1339, [1387]); (1340, [1388]); (1341, [1389]); (1342, [1390]);
    (1343, [1391]); (1344, [1392]); (1345, [1393]); (1346, [1394]);
    (1347, [1395]); (1348, [1396]); (1349, [1397]); (1350, [1398]);
    (1351, [1399]); (1352, [1400]); (1353, [1401]); (1354, [1402]);
    (1355, [1403]); (1356, [1404]); (1357, [1405]); (1358, [1406]);
    (1359, [1407]); (1360, [1408]); (1361, [1409]); (1362, [1410]);
    (1363, [1411]); (1364, [1412]); (1365, [1413]); (1366, [1414]);
    (4256, [11520]); (4257, [11521]); (4258, [11522]); (4259, [11523]);
    (4260, [11524]); (4261, [11525]); (4262, [11526]); (4263, [11527]);
    (4264, [11528]); (4265, [11529]); (4266, [11530]); (4267, [11531]);
    (4268, [11532]); (4269, [11533]); (4270, [11534]); (4271, [11535]);
    (4272, [11536]); (4273, [11537]); (4274, [11538]); (4275, [11539]);
    (4276, [11540]); (4277, [11541]); (4278, [11542]); (4279, [11543]);
    (4280, [11544]); (4281, [11545]); (4282, [11546]); (4283, [11547]);
    (4284, [11548]); (4285, [11549]); (4286, [11550]); (4287, [11551]);
    (4288, [11552]); (4289, [11553]); (4290, [11554]); (4291, [11555]);
    (4292, [11556]); (4293, [11557]); (4295, [11559]); (4301, [11565]);
    (5024, [43888]); (5025, [43889]); (5026, [43890]); (5027, [43891]);
    (5028, [43892]); (5029, [43893]); (5030, [43894]); (5031, [43895]);
    (5032, [43896]); (5033, [43897]); (5034, [43898]); (5035, [43899]);
    (5036, [43900]); (5037, [43901]); (5038, [43902]); (5039, [43903]);
    (5040, [43904]); (5041, [43905]); (5042, [43906]); (5043, [43907]);
    (5044, [43908]); (5045, [43909]); (5046, [43910]); (5047, [43911]);
    (5048, [43912]); (5049, [43913]); (5050, [43914]); (5051, [43915]);
    (5052, [43916]); (5053, [43917]); (5054, [43918]); (5055, [43919]);
    (5056, [43920]); (5057, [43921]); (5058, [43922]); (5059, [43923]);
    (5060, [43924]); (5061, [43925]); (5062, [43926]); (5063, [43927]);
    (5064, [43928]); (5065, [43929]); (5066, [43930]); (5067, [43931]);
    (5068, [43932]); (5069, [43933]); (5070, [43934]); (5071, [43935]);
    (5072, [43936]); (5073, [43937]); (5074, [43938]); (5075, [43939]);
    (5076, [43940]); (5077, [43941]); (5078, [43942]); (5079, [43943]);
    (5080, [43944]); (5081, [43945]); (5082, [43946]); (5083, [43947]);
    (5084, [43948]); (5085, [43949]); (5086, [43950]); (5087, [43951]);
    (5088, [43952]); (5089, [43953]); (5090, [43954]); (5091, [43955]);
    (5092, [43956]); (5093, [43957]); (5094, [43958]); (5095, [43959]);
    (5096, [43960]); (5097, [43961]); (5098, [43962]); (5099, [43963]);
    (5100, [43964]); (5101, [43965]); (5102, [43966]); (5103, [43967]);
    (5104, [5112]); (5105, [5113]); (5106, [5114]); (5107, [5115]);
    (5108, [5116]); (5109, [5117]); (7312, [4304]); (7313, [4305]);
    (7314, [4306]); (7315, [4307]); (7316, [4308]); (7317, [4309]);
    (7318, [4310]); (7319, [4311]); (7320, [4312]); (7321, [4313]);
    (7322, [4314]); (7323, [4315]); (7324, [4316]); (7325, [4317]);
    (7326, [4318]); (7327, [4319]); (7328, [4320]); (7329, [4321]);
    (7330, [4322]); (7331, [4323]); (7332, [4324]); (7333, [4325]);
    (7334, [4326]); (7335, [4327]); (7336, [4328]); (7337, [4329]);
    (7338, [4330]); (7339, [4331]); (7340, [4332]); (7341, [4333]);
    (7342, [4334]); (7343, [4335]); (7344, [4336]); (7345, [4337]);
    (7346, [4338]); (7347, [4339]); (7348, [4340]); (7349, [4341]);
    (7350, [4342]); (7351, [4343]); (7352, [4344]); (7353, [4345]);
    (7354, [4346]); (7357, [4349]); (7358, [4350]); (7359, [4351]);
    (7680, [7681]); (7682, [7683]); (7684, [7685]); (7686, [7687]);
    (7688, [7689]); (7690, [7691]); (7692, [7693]); (7694, [7695]);
    (7696, [7697]); (7698, [7699]); (7700, [7701]); (7702, [7703]);
    (7704, [7705]); (7706, [7707]); (7708, [7709]); (7710, [7711]);
    (7712, [7713]); (7714, [7715]); (7716, [7717]); (7718, [7719]);
    (7720, [7721]); (7722, [7723]); (7724, [7725]); (7726, [7727]);
    (7728, [7729]); (7730, [7731]); (7732, [7733]); (7734, [7735]);
    (7736, [7737]); (7738, [7739]); (7740, [7741]); (7742, [7743]);
    (7744, [7745]); (7746, [7747]); (7748, [7749]); (7750, [7751]);
    (7752, [7753]); (7754, [7755]); (7756, [7757]); (7758, [7759]);
    (7760, [7761]); (7762, [7763]); (7764, [7765]); (7766, [7767]);
    (7768, [7769]); (7770, [7771]); (7772, [7773]); (7774, [7775]);
    (7776, [7777]); (7778, [7779]); (7780, [7781]); (7782, [7783]);
    (7784, [7785]); (7786, [7787]); (7788, [7789]); (7790, [7791]);
    (7792, [7793]); (7794, [7795]); (7796, [7797]); (7798, [7799]);
    (7800, [7801]); (7802, [7803]); (7804, [7805]); (7806, [7807]);
    (7808, [7809]); (7810, [7811]); (7812, [7813]); (7814, [7815]);
    (7816, [7817]); (7818, [7819]); (7820, [7821]); (7822, [7823]);
    (7824, [7825]); (7826, [7827]); (7828, [7829]); (7838, [223]);
    (7840, [7841]); (7842, [7843]); (7844, [7845]); (7846, [7847]);
    (7848, [7849]); (7850, [7851]); (7852, [7853]); (7854, [7855]);
    (7856, [7857]); (7858, [7859]); (7860, [7861]); (7862, [7863]);
    (7864, [7865]); (7866, [7867]); (7868, [7869]); (7870, [7871]);
    (7872, [7873]); (7874, [7875]); (7876, [7877]); (7878, [7879]);
    (7880, [7881]); (7882, [7883]); (7884, [7885]); (7886, [7887]);
    (7888, [7889]); (7890, [7891]); (7892, [7893]); (7894, [7895]);
    (7896, [7897]); (7898, [7899]); (7900, [7901]); (7902, [7903]);
    (7904, [7905]); (7906, [7907]); (7908, [7909]); (7910, [7911]);
    (7912, [7913]); (7914, [7915]); (7916, [7917]); (7918, [7919]);
    (7920, [7921]); (7922, [7923]); (7924, [7925]); (7926, [7927]);
    (7928, [7929]); (7930, [7931]); (7932, [7933]); (7934, [7935]);
    (7944, [7936]); (7945, [7937]); (7946, [7938]); (7947, [7939]);
    (7948, [7940]); (7949, [7941]); (7950, [7942]); (7951, [7943]);
    (7960, [7952]); (7961, [7953]); (7962, [7954]); (7963, [7955]);
    (7964, [7956]); (7965, [7957]); (7976, [7968]); (7977, [7969]);
    (7978, [7970]); (7979, [7971]); (7980, [7972]); (7981, [7973]);
    (7982, [7974]); (7983, [7975]); (7992, [7984]); (7993, [7985]);
    (7994, [7986]); (7995, [7987]); (7996, [7988]); (7997, [7989]);
    (7998, [7990]); (7999, [7991]); (8008, [8000]); (8009, [8001]);
    (8010, [8002]); (8011, [8003]); (8012, [8004]); (8013, [8005]);
    (8025, [8017]); (8027, [8019]); (8029, [8021]); (8031, [8023]);
    (8040, [8032]); (8041, [8033]); (8042, [8034]); (8043, [8035]);
    (8044, [8036]); (8045, [8037]); (8046, [8038]); (8047, [8039]);
    (8072, [8064]); (8073, [8065]); (8074, [8066]); (8075, [8067]);
    (8076, [8068]); (8077, [8069]); (8078, [8070]); (8079, [8071]);
    (8088, [8080]); (8089, [8081]); (8090, [8082]); (8091, [8083]);
    (8092, [8084]); (8093, [8085]); (8094, [8086]); (8095, [8087]);
    (8104, [8096]); (8105, [8097]); (8106, [8098]); (8107, [8099]);
    (8108, [8100]); (8109, [8101]); (8110, [8102]); (8111, [8103]);
    (8120, [8112]); (8121, [8113]); (8122, [8048]); (8123, [8049]);
    (8124, [8115]); (8136, [8050]); (8137, [8051]); (8138, [8052]);
    (8139, [8053]); (8140, [8131]); (8152, [8144]); (8153, [8145]);
    (8154, [8054]); (8155, [8055]); (8168, [8160]); (8169, [8161]);
    (8170, [8058]); (8171, [8059]); (8172, [8165]); (8184, [8056]);
    (8185, [8057]); (8186, [8060]); (8187, [8061]); (8188, [8179]);
    (8486, [969]); (8490, [107]); (8491, [229]); (8498, [8526]);
    (8544, [8560]); (8545, [8561]); (8546, [8562]); (8547, [8563]);
    (8548, [8564]); (8549, [8565]); (8550, [8566]); (8551, [8567]);
    (8552, [8568]); (8553, [8569]); (8554, [8570]); (8555, [8571]);
    (8556, [8572]); (8557, [8573]); (8558, [8574]); (8559, [8575]);
    (8579, [8580]); (9398, [9424]); (9399, [9425]); (9400, [9426]);
    (9401, [9427]); (9402, [9428]); (9403, [9429]); (9404, [9430]);
    (9405, [9431]); (9406, [9432]); (9407, [9433]); (9408, [9434]);
    (9409, [9435]); (9410, [9436]); (9411, [9437]); (9412, [9438]);
    (9413, [9439]); (9414, [9440]); (9415, [9441]); (9416, [9442]);
    (9417, [9443]); (9418, [9444]); (9419, [9445]); (9420, [9446]);
    (9421, [9447]); (9422, [9448]); (9423, [9449]); (11264, [11312]);
    (11265, [11313]); (11266, [11314]); (11267, [11315]); (11268, [11316]);
    (11269, [11317]); (11270, [11318]); (11271, [11319]); (11272, [11320]);
    (11273, [11321]); (11274, [11322]); (11275, [11323]); (11276, [11324]);
    (11277, [11325]); (11278, [11326]); (11279, [11327]); (11280, [11328]);
    (11281, [11329]); (11282, [11330]); (11283, [11331]); (11284, [11332]);
    (11285, [11333]); (11286, [11334]); (11287, [11335]); (11288, [11336]);
    (11289, [11337]); (11290, [11338]); (11291, [11339]); (11292, [11340]);
    (11293, [11341]); (11294, [11342]); (11295, [11343]); (11296, [11344]);
    (11297, [11345]); (11298, [11346]); (11299, [11347]); (11300, [11348]);
    (11301, [11349]); (11302, [11350]); (11303, [11351]); (11304, [11352]);
    (11305, [11353]); (11306, [11354]); (11307, [11355]); (11308, [11356]);
    (11309, [11357]); (11310, [11358]); (11311, [11359]); (11360, [11361]);
    (11362, [619]); (11363, [7549]); (11364, [637]); (11367, [11368]);
    (11369, [11370]); (11371, [11372]); (11373, [593]); (11374, [625]);
    (11375, [592]); (11376, [594]); (11378, [11379]); (11381, [11382]);
    (11390, [575]); (11391, [576]); (11392, [11393]); (11394, [11395]);
    (11396, [11397]); (11398, [11399]); (11400, [11401]); (11402, [11403]);
    (11404, [11405]); (11406, [11407]); (11408, [11409]); (11410, [11411]);
    (11412, [11413]); (11414, [11415]); (11416, [11417]); (11418, [11419]);
    (11420, [11421]); (11422, [11423]); (11424, [11425]); (11426, [11427]);
    (11428, [11429]); (11430, [11431]); (11432, [11433]); (11434, [11435]);
    (11436, [11437]); (11438, [11439]); (11440, [11441]); (11442, [11443]);
    (11444, [11445]); (11446, [11447]); (11448, [11449]); (11450, [11451]);
    (11452, [11453]); (11454, [11455]); (11456, [11457]); (11458, [11459]);
    (11460, [11461]); (11462, [11463]); (11464, [11465]); (11466, [11467]);
    (11468, [11469]); (11470, [11471]); (11472, [11473]); (11474, [11475]);
    (11476, [11477]); (11478, [11479]); (11480, [11481]); (11482, [11483]);
    (11484, [11485]); (11486, [11487]); (11488, [11489]); (11490, [11491]);
    (11499, [11500]); (11501, [11502]); (11506, [11507]); (42560, [42561]);
    (42562, [42563]); (42564, [42565]); (42566, [42567]); (42568, [42569]);
    (42570, [42571]); (42572, [42573]); (42574, [42575]); (42576, [42577]);
    (42578, [42579]); (42580, [42581]); (42582, [42583]); (42584, [42585]);
    (42586, [42587]); (42588, [42589]); (42590, [42591]); (42592, [42593]);
    (42594, [42595]); (42596, [42597]); (42598, [42599]); (42600, [42601]);
    (42602, [42603]); (42604, [42605]); (42624, [42625]); (42626, [42627]);
    (42628, [42629]); (42630, [42631]); (42632, [42633]); (42634, [42635]);
    (42636, [42637]); (42638, [42639]); (42640, [42641]); (42642, [42643]);
    (42644, [42645]); (42646, [42647]); (42648, [42649]); (42650, [42651]);
    (42786, [42787]); (42788, [42789]); (42790, [42791]); (42792, [42793]);
    (42794, [42795]); (42796, [42797]); (42798, [42799]); (42802, [42803]);
    (42804, [42805]); (42806, [42807]); (42808, [42809]); (42810, [42811]);
    (42812, [42813]); (42814, [42815]); (42816, [42817]); (42818, [42819]);
    (42820, [42821]); (42822, [42823]); (42824, [42825]); (42826, [42827]);
    (42828, [42829]); (42830, [42831]); (42832, [42833]); (42834, [42835]);
    (42836, [42837]); (42838, [42839]); (42840, [42841]); (42842, [42843]);
    (42844, [42845]); (42846, [42847]); (42848, [42849]); (42850, [42851]);
    (42852, [42853]); (42854, [42855]); (42856, [42857]); (42858, [42859]);
    (42860, [42861]); (42862, [42863]); (42873, [42874]); (42875, [42876]);
    (42877, [7545]); (42878, [42879]); (42880, [42881]); (42882, [42883]);
    (42884, [42885]); (42886, [42887]); (42891, [42892]); (42893, [613]);
    (42896, [42897]); (42898, [42899]); (42902, [42903]); (42904, [42905]);
    (42906, [42907]); (42908, [42909]); (42910, [42911]); (42912, [42913]);
    (42914, [42915]); (42916, [42917]); (42918, [42919]); (42920, [42921]);
    (42922, [614]); (42923, [604]); (42924, [609]); (42925, [620]);
    (42926, [618]); (42928, [670]); (42929, [647]); (42930, [669]);
    (42931, [43859]); (42932, [42933]); (42934, [42935]); (42936, [42937]);
    (42938, [42939]); (42940, [42941]); (42942, [42943]); (42944, [42945]);
    (42946, [42947]); (42948, [42900]); (42949, [642]); (42950, [7566]);
    (42951, [42952]); (42953, [42954]); (42960, [42961]); (42966, [42967]);
    (42968, [42969]); (42997, [42998]); (65313, [65345]); (65314, [65346]);
    (65315, [65347]); (65316, [65348]); (65317, [65349]); (65318, [65350]);
    (65319, [65351]); (65320, [65352]); (65321, [65353]); (65322, [65354]);
    (65323, [65355]); (65324, [65356]); (65325, [65357]); (65326, [65358]);
    (65327, [65359]); (65328, [65360]); (65329, [65361]); (65330, [65362]);
    (65331, [65363]); (65332, [65364]); (65333, [65365]); (65334, [65366]);
    (65335, [65367]); (65336, [65368]); (65337, [65369]); (65338, [65370]);
    (66560, [66600]); (66561, [66601]); (66562, [66602]); (66563, [66603]);
    (66564, [66604]); (66565, [66605]); (66566, [66606]); (66567, [66607]);
    (66568, [66608]); (66569, [66609]); (66570, [66610]); (66571, [66611]);
    (66572, [66612]); (66573, [66613]); (66574, [66614]); (66575, [66615]);
    (66576, [66616]); (66577, [66617]); (66578, [66618]); (66579, [66619]);
    (66580, [66620]); (66581, [66621]); (66582, [66622]); (66583, [66623]);
    (66584, [66624]); (66585, [66625]); (66586, [66626]); (66587, [66627]);
    (66588, [66628]); (66589, [66629]); (66590, [66630]); (66591, [66631]);
    (66592, [66632]); (66593, [66633]); (66594, [66634]); (66595, [66635]);
    (66596, [66636]); (66597, [66637]); (66598, [66638]); (66599, [66639]);
    (66736, [66776]); (66737, [66777]); (66738, [66778]); (66739, [66779]);
    (66740, [66780]); (66741, [66781]); (66742, [66782]); (66743, [66783]);
    (66744, [66784]); (66745, [66785]); (66746, [66786]); (66747, [66787]);
    (66748, [66788]); (66749, [66789]); (66750, [66790]); (66751, [66791]);
    (66752, [66792]); (66753, [66793]); (66754, [66794]); (66755, [66795]);
    (66756, [66796]); (66757, [66797]); (66758, [66798]); (66759, [66799]);
    (66760, [66800]); (66761, [66801]); (66762, [66802]); (66763, [66803]);
    (66764, [66804]); (66765, [66805]); (66766, [66806]); (66767, [66807]);
    (66768, [66808]); (66769, [66809]); (66770, [66810]); (66771, [66811]);
    (66928, [66967]); (66929, [66968]); (66930, [66969]); (66931, [66970]);
    (66932, [66971]); (66933, [66972]); (66934, [66973]); (66935, [66974]);
    (66936, [66975]); (66937, [66976]); (66938, [66977]); (66940, [66979]);
    (66941, [66980]); (66942, [66981]); (66943, [66982]); (66944, [66983]);
    (66945, [66984]); (66946, [66985]); (66947, [66986]); (66948, [66987]);
    (66949, [66988]); (66950, [66989]); (66951, [66990]); (66952, [66991]);
    (66953, [66992]); (66954, [66993]); (66956, [66995]); (66957, [66996]);
    (66958, [66997]); (66959, [66998]); (66960, [66999]); (66961, [67000]);
    (66962, [67001]); (66964, [67003]); (66965, [67004]); (68736, [68800]);
    (68737, [68801]); (68738, [68802]); (68739, [68803]); (68740, [68804]);
    (68741, [68805]); (68742, [68806]); (68743, [68807]); (68744, [68808]);
    (68745, [68809]); (68746, [68810]); (68747, [68811]); (68748, [68812]);
    (68749, [68813]); (68750, [68814]); (68751, [68815]); (68752, [68816]);
    (68753, [68817]); (68754, [68818]); (68755, [68819]); (68756, [68820]);
    (68757, [68821]); (68758, [68822]); (68759, [68823]); (68760, [68824]);
    (68761, [68825]); (68762, [68826]); (68763, [68827]); (68764, [68828]);
    (68765, [68829]); (68766, [68830]); (68767, [68831]); (68768, [68832]);
    (68769, [68833]); (68770, [68834]); (68771, [68835]); (68772, [68836]);
    (68773, [68837]); (68774, [68838]); (68775, [68839]); (68776, [68840]);
    (68777, [68841]); (68778, [68842]); (68779, [68843]); (68780, [68844]);
    (68781, [68845]); (68782, [68846]); (68783, [68847]); (68784, [68848]);
    (68785, [68849]); (68786, [68850]); (71840, [71872]); (71841, [71873]);
    (71842, [71874]); (71843, [71875]); (71844, [71876]); (71845, [71877]);
    (71846, [71878]); (71847, [71879]); (71848, [71880]); (71849, [71881]);
    (71850, [71882]); (71851, [71883]); (71852, [71884]); (71853, [71885]);
    (71854, [71886]); (71855, [71887]); (71856, [71888]); (71857, [71889]);
    (71858, [71890]); (71859, [71891]); (71860, [71892]); (71861, [71893]);
    (71862, [71894]); (71863, [71895]); (71864, [71896]); (71865, [71897]);
    (71866, [71898]); (71867, [71899]); (71868, [71900]); (71869, [71901]);
    (71870, [71902]); (71871, [71903]); (93760, [93792]); (93761, [93793]);
    (93762, [93794]); (93763, [93795]); (93764, [93796]); (93765, [93797]);
    (93766, [93798]); (93767, [93799]); (93768, [93800]); (93769, [93801]);
    (93770, [93802]); (93771, [93803]); (93772, [93804]); (93773, [93805]);
    (93774, [93806]); (93775, [93807]); (93776, [93808]); (93777, [93809]);
    (93778, [93810]); (93779, [93811]); (93780, [93812]); (93781, [93813]);
    (93782, [93814]); (93783, [93815]); (93784, [93816]); (93785, [93817]);
    (93786, [93818]); (93787, [93819]); (93788, [93820]); (93789, [93821]);
    (93790, [93822]); (93791, [93823]); (125184, [125218]);
    (125185, [125219]); (125186, [125220]); (125187, [125221]);
    (125188, [125222]); (125189, [125223]); (125190, [125224]);
    (125191, [125225]); (125192, [125226]); (125193, [125227]);
    (125194, [125228]); (125195, [125229]); (125196, [125230]);
    (125197, [125231]); (125198, [125232]); (125199, [125233]);
    (125200, [125234]); (125201, [125235]); (125202, [125236]);
    (125203, [125237]); (125204, [125238]); (125205, [125239]);
    (125206, [125240]); (125207, [125241]); (125208, [125242]);
    (125209, [125243]); (125210, [125244]); (125211, [125245]);
    (125212, [125246]); (125213, [125247]); (125214, [125248]);
    (125215, [125249]); (125216, [125250]); (125217, [125251])
  ]%N.

(** Membership in a table of ranges, and the entry of a code point in a
    mapping table; the tables are in ascending order, and the search
    stops at the first entry above the code point. *)
Fixpoint in_ranges (rs : list (codepoint * codepoint)) (c : codepoint)
  : bool :=
  match rs with
  | [] => false
  | (lo, hi) :: rs' =>
      if (c <? lo)%N then false
      else if (c <=? hi)%N then true
      else in_ranges rs' c
  end.

Fixpoint lookup (t : list (codepoint * list codepoint)) (c : codepoint)
  : option (list codepoint) :=
  match t with
  | [] => None
  | (k, m) :: t' =>
      if (c <? k)%N then None
      else if (c =? k)%N then Some m
      else lookup t' c
  end.

Definition is_cased (c : codepoint) : bool := in_ranges cased_ranges c.

Definition is_case_ignorable (c : codepoint) : bool :=
  in_ranges case_ignorable_ranges c.

Definition to_title_full (c : codepoint) : list codepoint :=
  match lookup title_full_table c with
  | Some m => m
  | None => [c]
  end.

Definition to_lower_full (c : codepoint) : list codepoint :=
  match lookup lower_full_table c with
  | Some m => m
  | None => [c]
  end.

(** The first code point that is not case-ignorable. *)
Fixpoint skip_case_ignorable (s : str) : option codepoint :=
  match s with
  | [] => None
  | c :: s' =>
      if is_case_ignorable c then skip_case_ignorable s' else Some c
  end.

Definition capital_sigma : codepoint := 931%N.
Definition small_final_sigma : codepoint := 962%N.
Definition small_sigma : codepoint := 963%N.

(** [handle_capital_sigma] of CPython's [unicodeobject.c]: a capital
    sigma becomes the final small sigma when, case-ignorable code points
    apart, a cased code point stands before it and none stands after it.
    [before] is the text before the sigma, last code point first;
    [after] is the text after it. *)
Definition handle_capital_sigma (before after : str) : codepoint :=
  let final_sigma :=
    match skip_case_ignorable before with
    | Some c => is_cased c
    | None => false
    end
    && match skip_case_ignorable after with
       | Some c => negb (is_cased c)
       | None => true
       end in
  if final_sigma then small_final_sigma else small_sigma.

(** [lower_ucs4]. *)
Definition lower_ucs4 (before : str) (c : codepoint) (after : str)
  : list codepoint :=
  if (c =? capital_sigma)%N then [handle_capital_sigma before after]
  else to_lower_full c.

(** [do_title] of CPython's [unicodeobject.c]: every code point is mapped,
    to lower case after a cased code point and to title case otherwise.
    [before] is the text already read, last code point first. *)
Fixpoint do_title (before : str) (previous_is_cased : bool) (s : str)
  : str :=
  match s with
  | [] => []
  | c :: s' =>
      (if previous_is_cased then lower_ucs4 before c s'
       else to_title_full c)
        ++ do_title (c :: before) (is_cased c) s'
  end.

(** [str.title()]. *)
Definition title (s : str) : str := do_title [] false s.

(** [reads_back b m]: read by [do_title] after a code point that is
    cased or not, as [b] says, every code point of [m] is mapped to
    itself, and none is a capital sigma to be put in lower case; the
    result says whether the last code point read is cased. *)
Fixpoint reads_back (previous_is_cased : bool) (m : str) : option bool :=
  match m with
  | [] => Some previous_is_cased
  | d :: m' =>
      if previous_is_cased && (d =? capital_sigma)%N then None
      else if eqb (if previous_is_cased then to_lower_full d
                   else to_title_full d) [d]
           then reads_back (is_cased d) m'
           else None
  end.

(** The code points at which [str.title] is not idempotent. The
    title-case form of 27 of them is a capital followed by a mark that is
    not cased (U+01F0 gives U+004A U+030C), so that what follows the mark
    is read as the start of a word the second time; the lower-case form
    of U+0130, U+0069 U+0307, ends in such a mark. *)
Definition title_unstable : list codepoint :=
  [ 304; 496; 912; 944; 7830; 7831; 7832; 7833; 7834; 8016; 8018; 8020;
    8022; 8118; 8119; 8134; 8135; 8146; 8147; 8150; 8151; 8162; 8163;
    8164; 8166; 8167; 8182; 8183 ]%N.

(** [str.replace(old, "")] for a one-character [old], as
    [.str.replace("%", "", regex=False)] uses it. *)
Definition remove_char (old : codepoint) (s : str) : str :=
  filter (fun c => negb (c =? old)%N) s.

End Py.

(** ** Dataframe operations

    A dataframe is the list of its rows, in index order. The operations
    below are the pandas calls [main.py] makes, on rows of any type. *)

Module DF.

Section Rows.

Variable A : Type.

(** Lexicographic combination of two sort columns. *)
Definition lex (le1 le2 : A -> A -> bool) (a b : A) : bool :=
  le1 a b && (negb (le1 b a) || le2 a b).

(** [sort_values] on several columns: the sort is stable (pandas sorts
    by [lexsort]); the result of a stable sort is the one of
    insertion, where a row stays behind the rows it ties with. *)
Fixpoint insert (le : A -> A -> bool) (x : A) (l : list A) : list A :=
  match l with
  | [] => [x]
  | y :: l' => if le x y then x :: l else y :: insert le x l'
  end.

Fixpoint sort_values (le : A -> A -> bool) (l : list A) : list A :=
  match l with
  | [] => []
  | x :: l' => insert le x (sort_values le l')
  end.

(** [drop_duplicates(subset)], keep="first": a row is dropped when a
    row before it has the same values in the subset. *)
Fixpoint drop_duplicates_from (same : A -> A -> bool) (before l : list A)
  : list A :=
  match l with
  | [] => []
  | x :: l' =>
      let rest := drop_duplicates_from same (x :: before) l' in
      if existsb (same x) before then rest else x :: rest
  end.

Definition drop_duplicates (same : A -> A -> bool) (l : list A) : list A :=
  drop_duplicates_from same [] l.

(** Number of rows for which [p] holds. *)
Definition count (p : A -> bool) (l : list A) : nat :=
  length (filter p l).

(** [groupby(keys).head(n)]: the rows that are among the first [n] of
    their group, in the order of the frame; a row with a missing key is
    in no group ([dropna=True]) and is not returned. *)
Fixpoint groupby_head_from (notna : A -> bool) (same : A -> A -> bool)
  (n : nat) (before l : list A) : list A :=
  match l with
  | [] => []
  | x :: l' =>
      let rest := groupby_head_from notna same n (x :: before) l' in
      if notna x && (count (same x) before <? n) then x :: rest else rest
  end.

Definition groupby_head (notna : A -> bool) (same : A -> A -> bool)
  (n : nat) (l : list A) : list A :=
  groupby_head_from notna same n [] l.

End Rows.

Section Keyed.

Variables A K : Type.

(** [groupby(keys).size().reset_index(name=...)]: one row per group
    key, in ascending key order ([sort=True]), with the number of rows
    of the group; rows with a missing key form no group
    ([dropna=True]). *)
Definition groupby_size (notna : K -> bool) (keqb kle : K -> K -> bool)
  (key : A -> K) (l : list A) : list (K * nat) :=
  let keys := filter notna (map key l) in
  map (fun k => (k, count (keqb k) keys))
    (sort_values kle (drop_duplicates keqb keys)).

End Keyed.

Section Merge.

Variables L R : Type.

(** The rows one row [g] of the left frame gives in a left join: one
    for each row of [right] with the same key, in the order of
    [right], and one with no right row when there is none. *)
Definition left_rows (on : L -> R -> bool) (right : list R) (g : L)
  : list (L * option R) :=
  match filter (on g) right with
  | [] => [(g, None)]
  | ms => map (fun r => (g, Some r)) ms
  end.

(** [left.merge(right, left_on=..., right_on=..., how="left")]: the
    rows of every row of [left], in the order of [left]. Missing keys
    match each other, as they do in pandas. *)
Definition merge_left (on : L -> R -> bool) (left : list L)
  (right : list R) : list (L * option R) :=
  flat_map (left_rows on right) left.

End Merge.

End DF.

(** ** The tables of [main.py] *)

Module Main.

(** A cell of a column that [read_csv] did not type as text throughout:
    a float64 value (NaN when the field is empty) or a text. *)
Inductive cell :=
| Num (f : float)
| Str (s : Py.str).

(** A row of the results file as [read_csv] returns it; a text column
    holds [None] where the field is missing. *)
Record raw_row := mk_raw_row {
  raw_state : option Py.str;
  raw_year : cell;
  raw_party : option Py.str;
  raw_Pc_name : option Py.str;
  raw_candidate_name : option Py.str;
  raw_Turnout : cell;
  raw_margin : cell;
  raw_votes : cell;
  raw_electors : cell
}.

(** A row of [df_hist]; a text column holds [None] where the value is
    missing. [margin_color] is [None] until the column is assigned, and
    where the category is missing. *)
Record row := mk_row {
  state : option Py.str;
  year : float;
  party : option Py.str;
  Pc_name : option Py.str;
  candidate_name : option Py.str;
  Turnout : float;
  margin : float;
  votes : float;
  electors : float;
  margin_color : option Py.str
}.

Definition set_Turnout (v : float) (r : row) : row :=
  mk_row (state r) (year r) (party r) (Pc_name r) (candidate_name r)
    v (margin r) (votes r) (electors r) (margin_color r).

Definition set_Pc_name (v : option Py.str) (r : row) : row :=
  mk_row (state r) (year r) (party r) v (candidate_name r)
    (Turnout r) (margin r) (votes r) (electors r) (margin_color r).

Definition set_margin_color (v : option Py.str) (r : row) : row :=
  mk_row (state r) (year r) (party r) (Pc_name r) (candidate_name r)
    (Turnout r) (margin r) (votes r) (electors r) v.

Definition set_raw_Turnout (c : cell) (r : raw_row) : raw_row :=
  mk_raw_row (raw_state r) (raw_year r) (raw_party r) (raw_Pc_name r)
    (raw_candidate_name r) c (raw_margin r) (raw_votes r) (raw_electors r).

(** A feature of the boundary file: its name and its geometry (an
    opaque value). *)
Record geo_row := mk_geo_row {
  pc_name : option Py.str;
  geometry : N
}.

(** *** Clean and preprocess *)

Definition party_map : list (Py.str * Py.str) :=
  [ (Py.lit "Bharatiya Janata Party", Py.lit "BJP");
    (Py.lit "Indian National Congress", Py.lit "INC");
    (Py.lit "Bahujan Samaj Party", Py.lit "BSP");
    (Py.lit "Aam Aadmi Party", Py.lit "AAP");
    (Py.lit "Communist Party Of India (Marxist)", Py.lit "CPM");
    (Py.lit "All India Trinamool Congress", Py.lit "TMC");
    (Py.lit "Janata Dal (United)", Py.lit "JDU");
    (Py.lit "Samajwadi Party", Py.lit "SP") ].

(** [Series.replace(dict)]: a value equal to a key becomes its entry. *)
Fixpoint replace (m : list (Py.str * Py.str)) (s : Py.str) : Py.str :=
  match m with
  | [] => s
  | (k, v) :: m' => if Py.eqb s k then v else replace m' s
  end.

(** The pandas that runs the program. Under pandas 2 a text column
    of [read_csv] is a column of Python objects; under pandas 3 it has
    the string dtype, on Python storage. Under both, the methods of
    [.str] are those of Python's [str]. *)
Inductive pandas := pandas_2 | pandas_3.

(** [astype(str)] on a text column: on a column of objects a missing
    value becomes the text ["nan"]; on a string column it stays
    missing. *)
Definition astype_str (version : pandas) (c : option Py.str)
  : option Py.str :=
  match c with
  | Some s => Some s
  | None =>
      match version with
      | pandas_2 => Some (Py.lit "nan")
      | pandas_3 => None
      end
  end.

(** [.str.strip().str.title()]: a missing value stays missing. *)
Definition strip_title (c : option Py.str) : option Py.str :=
  option_map (fun s => Py.title (Py.strip s)) c.

(** Lines 16 and 29; [replace] leaves a missing value missing. *)
Definition clean_party (version : pandas) (c : option Py.str)
  : option Py.str :=
  option_map (replace party_map) (strip_title (astype_str version c)).

Definition percent_sign : Py.codepoint := 37%N.
Definition comma : Py.codepoint := 44%N.

Section Load.

Variable version : pandas.

(** [pd.to_numeric(..., errors="coerce")] on one text: the number
    it reads, NaN when it reads none. *)
Variable to_numeric : Py.str -> float.

Definition to_numeric_cell (c : cell) : float :=
  match c with
  | Num f => f
  | Str s => to_numeric s
  end.

(** [pd.to_numeric(col.astype(str).str.replace(ch, "", regex=False),
    errors="coerce")]: a float64 cell is printed and read back
    unchanged, a text is read without [ch]. *)
Definition to_numeric_without (ch : Py.codepoint) (c : cell) : float :=
  match c with
  | Num f => f
  | Str s => to_numeric (Py.remove_char ch s)
  end.

(** Lines 16 to 45, on one row. *)
Definition coerce (r : raw_row) : row :=
  {| state := raw_state r;
     year := to_numeric_cell (raw_year r);
     party := clean_party version (raw_party r);
     Pc_name := raw_Pc_name r;
     candidate_name := raw_candidate_name r;
     Turnout := to_numeric_without percent_sign (raw_Turnout r);
     margin := to_numeric_without percent_sign (raw_margin r);
     votes := to_numeric_without comma (raw_votes r);
     electors := to_numeric_without comma (raw_electors r);
     margin_color := None |}.

Definition df_loaded (raw : list raw_row) : list row := map coerce raw.

End Load.

(** [dropna(subset=["Turnout", "votes", "electors"])]. *)
Definition survives (r : row) : bool :=
  F64.notna (Turnout r) && F64.notna (votes r) && F64.notna (electors r).

(** [df_hist["Turnout"] = (df_hist["votes"] / df_hist["electors"]) * 100]. *)
Definition recompute_Turnout (r : row) : row :=
  set_Turnout (votes r / electors r * 100)%float r.

(** [df_hist] after line 48. *)
Definition clean (loaded : list row) : list row :=
  map recompute_Turnout (filter survives loaded).

(** *** Regional dominance *)

Definition notna_str (c : option Py.str) : bool :=
  match c with
  | Some _ => true
  | None => false
  end.

Definition opt_eqb (a b : option Py.str) : bool :=
  match a, b with
  | Some x, Some y => Py.eqb x y
  | None, None => true
  | _, _ => false
  end.

(** Ascending order of a text column, missing values last. *)
Definition opt_asc_le (a b : option Py.str) : bool :=
  match b with
  | None => true
  | Some y =>
      match a with
      | None => false
      | Some x => Py.leb x y
      end
  end.

(** [dropna(subset=["state", "party", "year"])]. *)
Definition df_dom (df : list row) : list row :=
  filter
    (fun r =>
       notna_str (state r) && notna_str (party r) && F64.notna (year r))
    df.

Record seats_row := mk_seats_row {
  s_state : option Py.str;
  s_year : float;
  s_party : Py.str;
  seats : nat
}.

(** The key of a group of [groupby(["state", "year", "party"])]: its
    party is a text, since a row with a missing key is in no group
    ([dropna=True]). *)
Definition key3 : Type := option Py.str * float * Py.str.

(** The keys a row gives: none when its party is missing. *)
Definition state_year_party (r : row) : list key3 :=
  match party r with
  | Some p => [(state r, year r, p)]
  | None => []
  end.

Definition key3_notna (k : key3) : bool :=
  let '(s, y, _) := k in notna_str s && F64.notna y.

Definition key3_eqb (a b : key3) : bool :=
  let '(s1, y1, p1) := a in
  let '(s2, y2, p2) := b in
  opt_eqb s1 s2 && F64.key_eqb y1 y2 && Py.eqb p1 p2.

Definition key3_le : key3 -> key3 -> bool :=
  DF.lex (fun a b => opt_asc_le (fst (fst a)) (fst (fst b)))
    (DF.lex (fun a b => F64.asc_le (snd (fst a)) (snd (fst b)))
       (fun a b => Py.leb (snd a) (snd b))).

(** [df_dom.groupby(["state", "year", "party"]).size()
    .reset_index(name="seats")]. *)
Definition seat_counts (dom : list row) : list seats_row :=
  map (fun kn : key3 * nat =>
         let '(s, y, p, n) := kn in mk_seats_row s y p n)
    (DF.groupby_size key3_notna key3_eqb key3_le (fun k => k)
       (flat_map state_year_party dom)).

(** [sort_values(["state", "year", "seats"],
    ascending=[True, True, False])]. *)
Definition by_state_year_seats : seats_row -> seats_row -> bool :=
  DF.lex (fun a b => opt_asc_le (s_state a) (s_state b))
    (DF.lex (fun a b => F64.asc_le (s_year a) (s_year b))
       (fun a b => seats b <=? seats a)).

Definition same_state_year (a b : seats_row) : bool :=
  opt_eqb (s_state a) (s_state b) && F64.dup_eqb (s_year a) (s_year b).

Definition dominant (df : list row) : list seats_row :=
  DF.drop_duplicates same_state_year
    (DF.sort_values by_state_year_seats (seat_counts (df_dom df))).

(** The number of constituencies party [p] won in state [s] in year
    [y]: the rows of the results table with these three values. *)
Definition seats_won (df : list row) (s : option Py.str) (y : float)
  (p : Py.str) : nat :=
  DF.count
    (fun r =>
       opt_eqb s (state r) && F64.key_eqb y (year r)
       && opt_eqb (Some p) (party r))
    df.

Record dominance_row := mk_dominance_row {
  dm_state : option Py.str;
  dm_party : Py.str;
  times_dominated : nat
}.

Definition key2 : Type := option Py.str * Py.str.

Definition key2_notna (k : key2) : bool := notna_str (fst k).

Definition key2_eqb (a b : key2) : bool :=
  opt_eqb (fst a) (fst b) && Py.eqb (snd a) (snd b).

Definition key2_le : key2 -> key2 -> bool :=
  DF.lex (fun a b => opt_asc_le (fst a) (fst b))
    (fun a b => Py.leb (snd a) (snd b)).

(** [dominant.groupby(["state", "party"]).size()
    .reset_index(name="times_dominated")]. *)
Definition state_party_dominance (df : list row) : list dominance_row :=
  map (fun kn : key2 * nat =>
         let '(s, p, n) := kn in mk_dominance_row s p n)
    (DF.groupby_size key2_notna key2_eqb key2_le
       (fun d => (s_state d, s_party d)) (dominant df)).

(** *** Constituency names *)

(** [df_hist["Pc_name"] = df_hist["Pc_name"].str.strip().str.title()]
    and the same on [geo["pc_name"]]. *)
Definition normalize_Pc_name (r : row) : row :=
  set_Pc_name (strip_title (Pc_name r)) r.

Definition normalize_pc_name (g : geo_row) : geo_row :=
  {| pc_name := strip_title (pc_name g); geometry := geometry g |}.

(** *** Turnout heatmap data *)

(** [sort_values(["state", "year", "Turnout"],
    ascending=[True, True, False])]. *)
Definition by_state_year_Turnout : row -> row -> bool :=
  DF.lex (fun a b => opt_asc_le (state a) (state b))
    (DF.lex (fun a b => F64.asc_le (year a) (year b))
       (fun a b => F64.desc_le (Turnout a) (Turnout b))).

Definition has_state_year (r : row) : bool :=
  notna_str (state r) && F64.notna (year r).

Definition same_group (a b : row) : bool :=
  opt_eqb (state a) (state b) && F64.key_eqb (year a) (year b).

Definition turnout_top (df : list row) : list row :=
  DF.groupby_head has_state_year same_group 10
    (DF.sort_values by_state_year_Turnout df).

(** The rows of state [s] and year [y]. *)
Definition in_group (s : Py.str) (y : float) (r : row) : bool :=
  opt_eqb (state r) (Some s) && F64.key_eqb (year r) y.

(** *** Margin buckets *)

Definition bins : list float :=
  [0; 1; 5; 10; 15; 20; 30; 40; 50; 100]%float.

Definition labels : list Py.str :=
  map Py.lit
    [ "0-1"; "1-5"; "5-10"; "10-15"; "15-20"; "20-30"; "30-40"; "40-50";
      "50-100" ]%string.

Definition gray : Py.str := Py.lit "gray".

(** [bins.searchsorted(x, side="left")] on the ascending [bins]: the
    number of edges below [x]; NaN sorts after every edge. *)
Definition searchsorted_left (edges : list float) (x : float) : nat :=
  if F64.isna x then length edges
  else DF.count (fun b => (b <? x)%float) edges.

(** [pd.cut(x, bins=bins, labels=labels, include_lowest=True,
    right=True)] on one value; [None] is the missing category. *)
Definition cut (x : float) : option Py.str :=
  let ids :=
    if (x =? hd 0%float bins)%float then 1
    else searchsorted_left bins x in
  if F64.isna x || (ids =? length bins) || (ids =? 0) then None
  else nth_error labels (ids - 1).

(** A margin between 0 and 100, both included. *)
Definition in_range (x : float) : bool :=
  ((0 <=? x) && (x <=? 100))%float.

Definition edge (i : nat) : float := nth i bins nan.

(** Bin [i] of [bins], closed on the right: [(edge i, edge (i+1)]]; the
    lowest bin holds its left edge as well. *)
Definition in_bin (i : nat) (x : float) : bool :=
  ((edge i <? x)%float || ((i =? 0) && (x =? edge 0)%float))
  && (x <=? edge (S i))%float.

(** [fillna("gray")], once ["gray"] is a category. *)
Definition fillna_gray (c : option Py.str) : option Py.str :=
  match c with
  | Some l => Some l
  | None => Some gray
  end.

Definition add_margin_color (r : row) : row :=
  set_margin_color (fillna_gray (cut (margin r))) r.

(** [df_hist] as the callbacks and the sunburst data see it. *)
Definition df_hist (loaded : list row) : list row :=
  map add_margin_color (map normalize_Pc_name (clean loaded)).

(** [turnout_top] is computed at line 72, before [margin_color] exists. *)
Definition turnout_top_of (loaded : list row) : list row :=
  turnout_top (map normalize_Pc_name (clean loaded)).

(** *** Repeat winners *)

(** The keys a row gives to [groupby(["candidate_name", "party"])]:
    none when its party is missing. *)
Definition candidate_party (r : row) : list key2 :=
  match party r with
  | Some p => [(candidate_name r, p)]
  | None => []
  end.

Record wins_row := mk_wins_row {
  w_party : Py.str;
  w_candidate_name : option Py.str;
  wins : nat
}.

(** [df_hist.groupby(["candidate_name", "party"]).size()
    .reset_index(name="wins")]. *)
Definition candidate_wins (df : list row) : list wins_row :=
  map (fun kn : key2 * nat =>
         let '(c, p, n) := kn in mk_wins_row p c n)
    (DF.groupby_size key2_notna key2_eqb key2_le (fun k => k)
       (flat_map candidate_party df)).

(** The number of rows of candidate [c] for party [p]. *)
Definition times_won (df : list row) (c p : Py.str) : nat :=
  DF.count
    (fun r => opt_eqb (Some c) (candidate_name r)
              && opt_eqb (Some p) (party r))
    df.

(** [candidate_wins[candidate_wins["wins"] > 5]], with the columns in
    the order [party], [candidate_name], [wins]. *)
Definition sunburst_data (df : list row) : list wins_row :=
  filter (fun w => 5 <? wins w) (candidate_wins df).

(** *** The tables of the map callbacks *)

(** A row of [df_year] in [plot_map]. *)
Record year_row := mk_year_row {
  y_Pc_name : option Py.str;
  y_party : option Py.str;
  y_candidate_name : option Py.str
}.

(** A row of [merged_map] in [plot_map]; the columns of the results
    are missing on a region without a result, and [party] is missing as
    well on a result without a party. *)
Record map_row := mk_map_row {
  m_pc_name : option Py.str;
  m_geometry : N;
  m_Pc_name : option Py.str;
  m_party : option Py.str;
  m_candidate_name : option Py.str
}.

(** [df_hist["year"] == selected_year]; the dropdown value is a year
    or [None], and nothing equals [None]. *)
Definition year_is (selected_year : option float) (r : row) : bool :=
  match selected_year with
  | Some y => (year r =? y)%float
  | None => false
  end.

Definition same_year_row (a b : year_row) : bool :=
  opt_eqb (y_Pc_name a) (y_Pc_name b) && opt_eqb (y_party a) (y_party b)
  && opt_eqb (y_candidate_name a) (y_candidate_name b).

(** [df_hist[df_hist["year"] == selected_year]
    [["Pc_name", "party", "candidate_name"]].drop_duplicates()]. *)
Definition df_year (selected_year : option float) (df : list row)
  : list year_row :=
  DF.drop_duplicates same_year_row
    (map (fun r => mk_year_row (Pc_name r) (party r) (candidate_name r))
       (filter (year_is selected_year) df)).

(** The join condition of [left_on="pc_name", right_on="Pc_name"]. *)
Definition on_pc_name (g : geo_row) (y : year_row) : bool :=
  opt_eqb (pc_name g) (y_Pc_name y).

Definition map_row_of (p : geo_row * option year_row) : map_row :=
  match p with
  | (g, Some y) =>
      mk_map_row (pc_name g) (geometry g) (y_Pc_name y) (y_party y)
        (y_candidate_name y)
  | (g, None) => mk_map_row (pc_name g) (geometry g) None None None
  end.

(** [geo.merge(df_year, left_on="pc_name", right_on="Pc_name",
    how="left")]. *)
Definition merge_map (geo : list geo_row) (ys : list year_row)
  : list map_row :=
  map map_row_of (DF.merge_left on_pc_name geo ys).

Definition OTHER : Py.str := Py.lit "OTHER".

(** [merged_map["party"] = merged_map["party"].fillna("OTHER")]. *)
Definition fillna_party (m : map_row) : map_row :=
  mk_map_row (m_pc_name m) (m_geometry m) (m_Pc_name m)
    (Some (match m_party m with Some p => p | None => OTHER end))
    (m_candidate_name m).

(** The table [plot_map] colors, for a selected year. *)
Definition party_map_table (geo : list geo_row) (df : list row)
  (selected_year : option float) : list map_row :=
  map fillna_party (merge_map geo (df_year selected_year df)).

(** The rows of a merged table that come from region [g], and the
    regions equal to [g]. *)
Definition of_region (g : geo_row) (m : map_row) : bool :=
  opt_eqb (m_pc_name m) (pc_name g) && (m_geometry m =? geometry g)%N.

Definition same_region (g g' : geo_row) : bool :=
  opt_eqb (pc_name g') (pc_name g) && (geometry g' =? geometry g)%N.

(** A row of [df_year] in [plot_margin_map]. *)
Record margin_row := mk_margin_row {
  g_Pc_name : option Py.str;
  g_margin : float;
  g_margin_color : option Py.str;
  g_party : option Py.str
}.

Record margin_map_row := mk_margin_map_row {
  mm_pc_name : option Py.str;
  mm_geometry : N;
  mm_Pc_name : option Py.str;
  mm_margin : float;
  mm_margin_color : option Py.str;
  mm_party : option Py.str
}.

Definition same_margin_row (a b : margin_row) : bool :=
  opt_eqb (g_Pc_name a) (g_Pc_name b)
  && F64.dup_eqb (g_margin a) (g_margin b)
  && opt_eqb (g_margin_color a) (g_margin_color b)
  && opt_eqb (g_party a) (g_party b).

(** [df_hist[df_hist["year"] == selected_year]
    [["Pc_name", "margin%", "margin_color", "party"]]
    .drop_duplicates()]. *)
Definition df_year_margin (selected_year : option float) (df : list row)
  : list margin_row :=
  DF.drop_duplicates same_margin_row
    (map (fun r =>
            mk_margin_row (Pc_name r) (margin r) (margin_color r) (party r))
       (filter (year_is selected_year) df)).

Definition margin_map_row_of (p : geo_row * option margin_row)
  : margin_map_row :=
  match p with
  | (g, Some y) =>
      mk_margin_map_row (pc_name g) (geometry g) (g_Pc_name y)
        (g_margin y) (g_margin_color y) (g_party y)
  | (g, None) =>
      mk_margin_map_row (pc_name g) (geometry g) None nan None None
  end.

Definition merge_margin_map (geo : list geo_row) (ys : list margin_row)
  : list margin_map_row :=
  map margin_map_row_of
    (DF.merge_left (fun g y => opt_eqb (pc_name g) (g_Pc_name y)) geo ys).

(** [merged_map["margin_color"] =
    merged_map["margin_color"].fillna("gray")]. *)
Definition fillna_margin_color (m : margin_map_row) : margin_map_row :=
  mk_margin_map_row (mm_pc_name m) (mm_geometry m) (mm_Pc_name m)
    (mm_margin m) (fillna_gray (mm_margin_color m)) (mm_party m).

(** [turnout_top["state"] == state]. *)
Definition state_is (st : option Py.str) (r : row) : bool :=
  match st with
  | Some s => opt_eqb (state r) (Some s)
  | None => false
  end.

(** [int(selected_year)] raises on [None], on NaN and on an
    infinity. *)
Definition int_defined (selected_year : option float) : bool :=
  match selected_year with
  | Some y => is_finite y
  | None => false
  end.

(** The table [plot_margin_map] colors, for a selected year. *)
Definition margin_map_table (geo : list geo_row) (df : list row)
  (selected_year : option float) : list margin_map_row :=
  map fillna_margin_color
    (merge_margin_map geo (df_year_margin selected_year df)).

Definition on_Pc_name_margin (g : geo_row) (y : margin_row) : bool :=
  opt_eqb (pc_name g) (g_Pc_name y).

Definition of_margin_region (g : geo_row) (m : margin_map_row) : bool :=
  opt_eqb (mm_pc_name m) (pc_name g) && (mm_geometry m =? geometry g)%N.

(** [color_discrete_map] of [plot_margin_map]. *)
Definition color_discrete_map : list (Py.str * Py.str) :=
  map (fun kv : String.string * String.string =>
         (Py.lit (fst kv), Py.lit (snd kv)))
    [ ("0-1", "maroon"); ("1-5", "red"); ("5-10", "orange");
      ("10-15", "yellow"); ("15-20", "lime"); ("20-30", "lightgreen");
      ("30-40", "darkgreen"); ("40-50", "skyblue");
      ("50-100", "darkblue"); ("gray", "gray") ]%string.

(** *** The options of the dropdowns *)

(** [Series.dropna()] on a text column. *)
Definition dropna_str (col : list (option Py.str)) : list Py.str :=
  flat_map (fun c => match c with Some s => [s] | None => [] end) col.

(** [sorted(df_hist["year"].dropna().unique())]. *)
Definition available_years (df : list row) : list float :=
  DF.sort_values F64.asc_le
    (DF.drop_duplicates F64.key_eqb (filter F64.notna (map year df))).

(** [sorted(df_hist["state"].dropna().unique())]. *)
Definition states (df : list row) : list Py.str :=
  DF.sort_values Py.leb
    (DF.drop_duplicates Py.eqb (dropna_str (map state df))).

(** [l[-1]] and [l[0]]; [None] is the [IndexError] of an empty list. *)
Definition item_last {A : Type} (l : list A) : option A :=
  nth_error l (length l - 1).

Definition item_first {A : Type} (l : list A) : option A :=
  nth_error l 0.

(** [value=available_years[-1]] of the two year dropdowns and
    [value=states[0]] of the state dropdown. *)
Definition default_year (df : list row) : option float :=
  item_last (available_years df).

Definition default_state (df : list row) : option Py.str :=
  item_first (states df).

(** *** The parties of the history chart *)

Definition major_parties : list Py.str :=
  map Py.lit
    [ "BJP"; "INC"; "BSP"; "AAP"; "CPM"; "TMC"; "JDU"; "SP" ]%string.

(** [Series.isin(values)] on one value; a missing value is in no list
    of texts. *)
Definition isin (values : list Py.str) (p : option Py.str) : bool :=
  match p with
  | Some s => existsb (Py.eqb s) values
  | None => false
  end.

(** *** The table of the turnout heat map *)

(** The table [data] that [plot_heatmap] draws: the constituencies,
    the years and, for every constituency, its value in every year. *)
Record heat_data := mk_heat_data {
  h_index : list Py.str;
  h_columns : list float;
  h_values : list (list float)
}.

Section Pivot.

(** The mean of a list of values none of which is NaN and that is
    not empty, as the groupby kernel of pandas computes it. *)
Variable mean : list float -> float.

(** numpy's [argsort(kind="quicksort")] on the entries of a Series:
    the entries in ascending order of their values; the order of
    entries with equal values is the sort's. *)
Variable quicksort : list (Py.str * float) -> list (Py.str * float).

(** [mean] of one group: NaN values are skipped, and the mean of a
    group with no other value is NaN. *)
Definition group_mean (vals : list float) : float :=
  match filter F64.notna vals with
  | [] => nan
  | v :: vs => mean (v :: vs)
  end.

(** The index of [groupby("Pc_name")] and the years of
    [groupby(["Pc_name", "year"])]: the values that are not missing,
    once each, in ascending order. *)
Definition names (df : list row) : list Py.str :=
  DF.sort_values Py.leb
    (DF.drop_duplicates Py.eqb (dropna_str (map Pc_name df))).

Definition years (df : list row) : list float :=
  DF.sort_values F64.asc_le
    (DF.drop_duplicates F64.key_eqb (filter F64.notna (map year df))).

Definition has_Pc_name (n : Py.str) (r : row) : bool :=
  opt_eqb (Pc_name r) (Some n).

(** The mean turnout of constituency [n] in year [y]: NaN when no row
    has both. *)
Definition mean_in_year (df : list row) (n : Py.str) (y : float)
  : float :=
  group_mean
    (map Turnout
       (filter (fun r => has_Pc_name n r && F64.key_eqb (year r) y) df)).

(** [df.pivot_table(index="Pc_name", columns="year",
    values="Turnout", aggfunc="mean", fill_value=0)]. The groups whose
    mean is NaN are dropped before the table is laid out
    ([dropna=True]); a constituency is in the index, and a year among
    the columns, when a group of it is left; the cells of the groups
    that are not there are filled with 0. *)
Definition pivot_index (df : list row) : list Py.str :=
  filter
    (fun n => existsb (fun y => F64.notna (mean_in_year df n y))
                (years df))
    (names df).

Definition pivot_columns (df : list row) : list float :=
  filter
    (fun y => existsb (fun n => F64.notna (mean_in_year df n y))
                (names df))
    (years df).

Definition pivot_cell (df : list row) (n : Py.str) (y : float)
  : float :=
  if F64.isna (mean_in_year df n y) then 0%float
  else mean_in_year df n y.

(** [df.groupby("Pc_name")["Turnout"].mean()]. *)
Definition mean_Turnout (df : list row) : list (Py.str * float) :=
  map (fun n => (n, group_mean (map Turnout (filter (has_Pc_name n) df))))
    (names df).

(** [Series.sort_values(ascending=False)]: the entries that are not
    NaN are reversed, sorted in ascending order and reversed again;
    the NaN entries follow in the order they had. *)
Definition sort_values_descending (ser : list (Py.str * float))
  : list (Py.str * float) :=
  rev (quicksort (rev (filter (fun e => F64.notna (snd e)) ser)))
    ++ filter (fun e => F64.isna (snd e)) ser.

(** [....sort_values(ascending=False).head(10).index]. *)
Definition top_10 (df : list row) : list Py.str :=
  map fst (firstn 10 (sort_values_descending (mean_Turnout df))).

(** [pivot.loc[top_10]]: the rows of the labels, in their order; a
    label that is not in the index of [pivot] raises [KeyError]
    ([None]). *)
Definition pivot_loc (df : list row) (labels : list Py.str)
  : option heat_data :=
  if forallb (fun n => existsb (Py.eqb n) (pivot_index df)) labels
  then
    Some
      (mk_heat_data labels (pivot_columns df)
         (map (fun n => map (pivot_cell df n) (pivot_columns df))
            labels))
  else None.

(** [data] of [plot_heatmap], from the rows of the selected state. *)
Definition heatmap_data (df : list row) : option heat_data :=
  pivot_loc df (top_10 df).

End Pivot.

End Main.

(** ** The tables in memory and the render callbacks

    The tables [main.py] computes at start-up are objects that its
    callbacks share. An object is a cell of the heap; a name is bound to
    a reference. A pandas call that returns a new frame allocates a new
    cell; an assignment to a column writes the cell of the frame it is
    applied to. *)

Module App.

Import Main.

Inductive frame :=
| ResultsFrame (rows : list row)
| GeoFrame (rows : list geo_row)
| DominanceFrame (rows : list dominance_row)
| WinsFrame (rows : list wins_row)
| MapFrame (rows : list map_row)
| MarginMapFrame (rows : list margin_map_row).

Definition ref := nat.
Definition heap := list frame.

Definition results_of (f : frame) : list row :=
  match f with ResultsFrame rows => rows | _ => [] end.
Definition regions_of (f : frame) : list geo_row :=
  match f with GeoFrame rows => rows | _ => [] end.
Definition dominance_of (f : frame) : list dominance_row :=
  match f with DominanceFrame rows => rows | _ => [] end.
Definition wins_of (f : frame) : list wins_row :=
  match f with WinsFrame rows => rows | _ => [] end.
Definition map_rows_of (f : frame) : list map_row :=
  match f with MapFrame rows => rows | _ => [] end.
Definition margin_map_rows_of (f : frame) : list margin_map_row :=
  match f with MarginMapFrame rows => rows | _ => [] end.

(** Computations on the heap. *)
Definition M (A : Type) : Type := heap -> A * heap.

Definition ret {A : Type} (a : A) : M A := fun h => (a, h).

Definition bind {A B : Type} (m : M A) (k : A -> M B) : M B :=
  fun h => let (a, h') := m h in k a h'.

Declare Scope heap_scope.
Delimit Scope heap_scope with heap.
Notation "x <- m ;; k" := (bind m (fun x => k))
  (at level 61, m at next level, right associativity) : heap_scope.
Notation "m ;; k" := (bind m (fun _ => k))
  (at level 61, right associativity) : heap_scope.

Fixpoint update (r : ref) (f : frame) (h : heap) : heap :=
  match h, r with
  | [], _ => []
  | _ :: h', 0 => f :: h'
  | x :: h', S r' => x :: update r' f h'
  end.

(** A new frame object. *)
Definition new_frame (f : frame) : M ref :=
  fun h => (length h, h ++ [f]).

(** The frame a reference points to. *)
Definition load (r : ref) : M frame :=
  fun h => (nth r h (ResultsFrame []), h).

(** An assignment into the frame a reference points to. *)
Definition store (r : ref) (f : frame) : M unit :=
  fun h => (tt, update r f h).

(** The module-level names of the precomputed tables. *)
Record globals := mk_globals {
  df_hist_ref : ref;
  geo_ref : ref;
  turnout_top_ref : ref;
  state_party_dominance_ref : ref;
  sunburst_data_ref : ref
}.

(** Start-up: the five tables, from the loaded results and regions. *)
Definition startup (loaded : list row) (regions : list geo_row)
  : M globals :=
  (hist <- new_frame (ResultsFrame (df_hist loaded)) ;;
   geo <- new_frame (GeoFrame (map normalize_pc_name regions)) ;;
   top <- new_frame (ResultsFrame (turnout_top_of loaded)) ;;
   spd <- new_frame (DominanceFrame (state_party_dominance (clean loaded))) ;;
   sun <- new_frame (WinsFrame (sunburst_data (df_hist loaded))) ;;
   ret (mk_globals hist geo top spd sun))%heap.

Section Callbacks.

(** The figures, and plotly's figure builders together with the
    read-only aggregations that feed them; a builder reads the rows
    it is given and returns a new figure. [mean] and [quicksort] are
    the two kernels of [Main.heatmap_data]; [heatmap] is [px.imshow],
    which returns a figure or raises ([None]). *)
Variable Figure : Type.
Variable choropleth_party : option float -> list map_row -> Figure.
Variable choropleth_margin :
  option float -> list margin_map_row -> Figure.
Variable sunburst : list wins_row -> Figure.
Variable history : list row -> Figure.
Variable mean : list float -> float.
Variable quicksort : list (Py.str * float) -> list (Py.str * float).
Variable heatmap : option Py.str -> heat_data -> option Figure.
Variable no_data : Figure.
Variable bar : list dominance_row -> Figure.

Variable G : globals.

(** A callback returns a figure, or raises ([None]): [plot_map] and
    [plot_margin_map] at [int(selected_year)], [plot_heatmap] at
    [pivot.loc[top_10]] or in [px.imshow]. *)
Definition plot_map (selected_year : option float) : M (option Figure) :=
  (hist <- load (df_hist_ref G) ;;
   geo <- load (geo_ref G) ;;
   let ys := df_year selected_year (results_of hist) in
   merged_map <- new_frame (MapFrame (merge_map (regions_of geo) ys)) ;;
   m <- load merged_map ;;
   store merged_map (MapFrame (map fillna_party (map_rows_of m))) ;;
   m' <- load merged_map ;;
   ret (if int_defined selected_year
        then Some (choropleth_party selected_year (map_rows_of m'))
        else None))%heap.

Definition plot_margin_map (selected_year : option float)
  : M (option Figure) :=
  (hist <- load (df_hist_ref G) ;;
   geo <- load (geo_ref G) ;;
   let ys := df_year_margin selected_year (results_of hist) in
   merged_map <-
     new_frame (MarginMapFrame (merge_margin_map (regions_of geo) ys)) ;;
   m <- load merged_map ;;
   store merged_map
     (MarginMapFrame (map fillna_margin_color (margin_map_rows_of m))) ;;
   m' <- load merged_map ;;
   ret (if int_defined selected_year
        then Some (choropleth_margin selected_year
                     (margin_map_rows_of m'))
        else None))%heap.

Definition plot_sunburst (_ : Py.str) : M (option Figure) :=
  (data <- load (sunburst_data_ref G) ;;
   ret (Some (sunburst (wins_of data))))%heap.

Definition plot_history (_ : Py.str) : M (option Figure) :=
  (hist <- load (df_hist_ref G) ;;
   ret (Some (history (results_of hist))))%heap.

Definition plot_heatmap (st : option Py.str) : M (option Figure) :=
  (top <- load (turnout_top_ref G) ;;
   df <- new_frame (ResultsFrame (filter (state_is st) (results_of top))) ;;
   d <- load df ;;
   match results_of d with
   | [] => ret (Some no_data)
   | _ :: _ =>
       store df (ResultsFrame (map normalize_Pc_name (results_of d))) ;;
       d' <- load df ;;
       match heatmap_data mean quicksort (results_of d') with
       | Some data => ret (heatmap st data)
       | None => ret None
       end
   end)%heap.

Definition plot_dom_graph (_ : Py.str) : M (option Figure) :=
  (spd <- load (state_party_dominance_ref G) ;;
   ret (Some (bar (dominance_of spd))))%heap.

End Callbacks.

(** The five precomputed tables, as the heap holds them. *)
Definition tables (G : globals) (h : heap) : list (option frame) :=
  map (nth_error h)
    [ df_hist_ref G; geo_ref G; turnout_top_ref G;
      state_party_dominance_ref G; sunburst_data_ref G ].

(** The names of the five tables are bound to objects of the heap. *)
Definition allocated (G : globals) (h : heap) : Prop :=
  Forall (fun r => r < length h)
    [ df_hist_ref G; geo_ref G; turnout_top_ref G;
      state_party_dominance_ref G; sunburst_data_ref G ].

(** [keeps base m Q]: run on a heap of at least [base] objects, [m]
    leaves the first [base] objects as they are, removes none, and
    returns a value that satisfies [Q]. *)
Definition keeps (base : nat) {A : Type} (m : M A) (Q : A -> Prop) : Prop :=
  forall h, base <= length h ->
    length h <= length (snd (m h))
    /\ (forall r, r < base -> nth_error (snd (m h)) r = nth_error h r)
    /\ Q (fst (m h)).

(** The input of a callback, as its [@app.callback] decorator names
    it, with the value the browser sends. *)
Inductive input :=
| year_dropdown (value : option float)
| margin_year_dropdown (value : option float)
| sunburst_chart (id : Py.str)
| hist_graph (id : Py.str)
| state_dropdown (value : option Py.str)
| dominance_graph (id : Py.str).

Section Session.

Variable Figure : Type.
Variable choropleth_party : option float -> list map_row -> Figure.
Variable choropleth_margin :
  option float -> list margin_map_row -> Figure.
Variable sunburst : list wins_row -> Figure.
Variable history : list row -> Figure.
Variable mean : list float -> float.
Variable quicksort : list (Py.str * float) -> list (Py.str * float).
Variable heatmap : option Py.str -> heat_data -> option Figure.
Variable no_data : Figure.
Variable bar : list dominance_row -> Figure.

Variable G : globals.

(** The callback registered for an input. *)
Definition callback (i : input) : M (option Figure) :=
  match i with
  | year_dropdown v => plot_map choropleth_party G v
  | margin_year_dropdown v => plot_margin_map choropleth_margin G v
  | sunburst_chart x => plot_sunburst sunburst G x
  | hist_graph x => plot_history history G x
  | state_dropdown v => plot_heatmap mean quicksort heatmap no_data G v
  | dominance_graph x => plot_dom_graph bar G x
  end.

(** The callbacks of a session, one input after the other. *)
Fixpoint session (inputs : list input) : M (list (option Figure)) :=
  match inputs with
  | [] => ret []
  | i :: rest =>
      (f <- callback i ;;
       fs <- session rest ;;
       ret (f :: fs))%heap
  end.

End Session.

End App.

(** ** Sample tables *)

Module Sample.

Import Main.

Fixpoint digits_value (acc : N) (s : Py.str) : option N :=
  match s with
  | [] => Some acc
  | c :: s' =>
      if ((48 <=? c) && (c <=? 57))%N
      then digits_value (10 * acc + (c - 48))%N s'
      else None
  end.

(** [pd.to_numeric] on the texts of the sample tables: a run of decimal
    digits is read as the integer it writes (below [2^63], rounded to
    float64 as pandas does); the texts that are no number, of which the
    samples use the empty text and ["n/a"], are coerced to NaN. Texts
    in other number formats do not occur in the samples. *)
Definition to_numeric (s : Py.str) : float :=
  match s with
  | [] => nan
  | _ :: _ =>
      match digits_value 0 s with
      | Some n =>
          if (n <? 2 ^ 63)%N then of_uint63 (Uint63.of_Z (Z.of_N n))
          else nan
      | None => nan
      end
  end.

Definition text (s : String.string) : option Py.str := Some (Py.lit s).

Definition num (s : String.string) : cell := Str (Py.lit s).

Open Scope string_scope.

(** Three constituencies of one state in one year. *)
Definition raw_agra : raw_row :=
  mk_raw_row (text "Uttar Pradesh") (Num 2019)
    (text "Bharatiya Janata Party") (text " agra ") (text "S P Singh")
    (num "59%") (num "20%") (num "1,180") (num "2,000").

Definition raw_aligarh : raw_row :=
  mk_raw_row (text "Uttar Pradesh") (Num 2019)
    (text "Bharatiya Janata Party") (text "ALIGARH") (text "Satish")
    (num "61%") (num "21%") (num "1,220") (num "2,000").

Definition raw_rae_bareli : raw_row :=
  mk_raw_row (text "Uttar Pradesh") (Num 2019)
    (text "indian national congress") (text "Rae Bareli")
    (text "Sonia Gandhi") (num "56%") (num "17%") (num "560")
    (num "1,000").

Definition raw_UP_2019 : list raw_row :=
  [raw_agra; raw_aligarh; raw_rae_bareli].

Definition row_agra : row := recompute_Turnout (coerce pandas_2 to_numeric raw_agra).

Definition df_UP_2019 : list row :=
  clean (df_loaded pandas_2 to_numeric raw_UP_2019).

(** The same table and row as the callbacks see them. *)
Definition df_hist_UP_2019 : list row :=
  df_hist (df_loaded pandas_2 to_numeric raw_UP_2019).

Definition hist_agra : row :=
  add_margin_color (normalize_Pc_name row_agra).

(** Three regions of the boundary file. *)
Definition region_agra : geo_row := mk_geo_row (text "AGRA") 1.

Definition regions : list geo_row :=
  [ region_agra; mk_geo_row (text " aligarh") 2;
    mk_geo_row (text "Varanasi") 3 ].

Definition geo : list geo_row := map normalize_pc_name regions.

Definition geo_agra : geo_row := normalize_pc_name region_agra.

(** The heap and the names after start-up on the sample tables. *)
Definition started : App.globals * App.heap :=
  App.startup (df_loaded pandas_2 to_numeric raw_UP_2019) regions [].

Definition dominant_UP_2019 : seats_row :=
  mk_seats_row (text "Uttar Pradesh") 2019 (Py.lit "BJP") 2.

(** Twelve constituencies of one state in one year; one of them has no
    votes and no electors on record. *)
Definition raw_kerala (pc v e : String.string) : raw_row :=
  mk_raw_row (text "Kerala") (Num 2019)
    (text "Communist Party of India (Marxist)") (text pc) (text pc)
    (num "70%") (num "5%") (num v) (num e).

Definition raw_kerala_2019 : list raw_row :=
  [ raw_kerala "Kasaragod" "810" "1,000";
    raw_kerala "Kannur" "800" "1,000";
    raw_kerala "Vadakara" "790" "1,000";
    raw_kerala "Wayanad" "0" "0";
    raw_kerala "Kozhikode" "780" "1,000";
    raw_kerala "Malappuram" "770" "1,000";
    raw_kerala "Ponnani" "760" "1,000";
    raw_kerala "Palakkad" "750" "1,000";
    raw_kerala "Alathur" "740" "1,000";
    raw_kerala "Thrissur" "730" "1,000";
    raw_kerala "Chalakudy" "720" "1,000";
    raw_kerala "Ernakulam" "710" "1,000" ].

(** [df_hist] at line 72, where [turnout_top] is computed. *)
Definition df_kerala_2019 : list row :=
  map normalize_Pc_name (clean (df_loaded pandas_2 to_numeric raw_kerala_2019)).

Definition row_kerala (pc v e : String.string) : row :=
  normalize_Pc_name
    (recompute_Turnout (coerce pandas_2 to_numeric (raw_kerala pc v e))).

Definition row_kasaragod : row := row_kerala "Kasaragod" "810" "1,000".
Definition row_wayanad : row := row_kerala "Wayanad" "0" "0".
Definition row_ernakulam : row := row_kerala "Ernakulam" "710" "1,000".

Definition Kerala : Py.str := Py.lit "Kerala".

(** A constituency with votes on record and no electors. *)
Definition raw_idukki : raw_row := raw_kerala "Idukki" "500" "0".

Definition row_idukki : row :=
  recompute_Turnout (coerce pandas_2 to_numeric raw_idukki).

(** The row of Agra with an empty [Turnout] field. *)
Definition raw_agra_no_Turnout : raw_row :=
  set_raw_Turnout (Num nan) raw_agra.

(** The row of Agra with an empty [party] field. *)
Definition raw_agra_no_party : raw_row :=
  mk_raw_row (text "Uttar Pradesh") (Num 2019) None (text " agra ")
    (text "S P Singh") (num "59%") (num "20%") (num "1,180")
    (num "2,000").

(** A second result for Agra in 2019, with another candidate. *)
Definition raw_agra_second : raw_row :=
  mk_raw_row (text "Uttar Pradesh") (Num 2019)
    (text "Bahujan Samaj Party") (text "Agra") (text "Manoj Soni")
    (num "59%") (num "18%") (num "820") (num "2,000").

Definition raw_UP_2019_twice : list raw_row :=
  raw_UP_2019 ++ [raw_agra_second].

Definition df_hist_UP_2019_twice : list row :=
  df_hist (df_loaded pandas_2 to_numeric raw_UP_2019_twice).

(** For the sample runs of [plot_heatmap]: the mean by summation from
    the left, and a sort in ascending order of the values. *)
Definition mean (l : list float) : float :=
  (fold_left add l 0
   / of_uint63 (Uint63.of_Z (Z.of_nat (length l))))%float.

Definition quicksort (l : list (Py.str * float))
  : list (Py.str * float) :=
  DF.sort_values (fun a b => (snd a <=? snd b)%float) l.

(** Two constituencies of one state in one year, one of them with no
    votes and no electors on record, and the heap after start-up on
    them. *)
Definition raw_kerala_two : list raw_row :=
  [ raw_kerala "Kasaragod" "810" "1,000"; raw_kerala "Wayanad" "0" "0" ].

Definition started_kerala_two : App.globals * App.heap :=
  App.startup (df_loaded pandas_2 to_numeric raw_kerala_two) regions [].

Close Scope string_scope.

End Sample.

(** * Properties *)

Unset Implicit Arguments.

Module F64Facts.

Import F64.

Ltac cmp_cases :=
  repeat match goal with
  | |- context [Z.compare ?a ?b] => destruct (Z.compare_spec a b)
  | |- context [Pos.compare_cont Eq ?a ?b] =>
      change (Pos.compare_cont Eq a b) with (Pos.compare a b)
  | |- context [Pos.compare ?a ?b] => destruct (Pos.compare_spec a b)
  end.

Lemma SFcompare_antisym x y :
  SFcompare y x = option_map CompOpp (SFcompare x y).
Proof.
  destruct x as [sx|sx| |sx mx ex], y as [sy|sy| |sy my ey]; simpl;
    try reflexivity;
    try (destruct sx; reflexivity); try (destruct sy; reflexivity);
    try (destruct sx, sy; reflexivity).
  destruct sx, sy; simpl; try reflexivity; f_equal;
    cmp_cases; simpl; try reflexivity; try lia.
Qed.

Lemma SFcompare_trans x y z c :
  SFcompare x y = Some c -> SFcompare y z = Some c -> SFcompare x z = Some c.
Proof.
  destruct x as [sx|sx| |sx mx ex], y as [sy|sy| |sy my ey],
    z as [sz|sz| |sz mz ez];
    simpl; try discriminate; try congruence;
    try (destruct sx; try destruct sy; try destruct sz; simpl; congruence).
  destruct sx, sy, sz; simpl; try congruence;
    intros H1 H2; injection H1 as H1; injection H2 as H2; f_equal;
    revert H1 H2; cmp_cases; simpl; subst; try congruence; try lia.
Qed.

Lemma SFcompare_eq_l x y z :
  SFcompare x y = Some Eq -> SFcompare x z = SFcompare y z.
Proof.
  destruct x as [sx|sx| |sx mx ex], y as [sy|sy| |sy my ey],
    z as [sz|sz| |sz mz ez];
    simpl; try discriminate; try congruence;
    try (destruct sx; try destruct sy; try destruct sz; simpl; congruence).
  destruct sx, sy, sz; simpl; try congruence;
    intros H1; injection H1 as H1; f_equal;
    revert H1; cmp_cases; simpl; subst; try congruence; try lia.
Qed.

Lemma SFcompare_refl x : x <> S754_nan -> SFcompare x x = Some Eq.
Proof.
  destruct x as [s|s| |s m e]; simpl; try congruence; intros _.
  - destruct s; reflexivity.
  - destruct s; rewrite Z.compare_refl;
      change (Pos.compare_cont Eq m m) with (Pos.compare m m);
      rewrite Pos.compare_refl; reflexivity.
Qed.

Lemma SFcompare_none x y :
  SFcompare x y = None <-> x = S754_nan \/ y = S754_nan.
Proof.
  destruct x as [sx|sx| |sx mx ex], y as [sy|sy| |sy my ey]; simpl;
    split; intros H; try discriminate; auto;
    try (destruct H; discriminate).
Qed.

Lemma leb_cmp x y :
  (x <=? y)%float =
  match cmp x y with Some (Lt | Eq) => true | _ => false end.
Proof. rewrite FloatAxioms.leb_spec. reflexivity. Qed.

Lemma ltb_cmp x y :
  (x <? y)%float = match cmp x y with Some Lt => true | _ => false end.
Proof. rewrite FloatAxioms.ltb_spec. reflexivity. Qed.

Lemma eqb_cmp x y :
  (x =? y)%float = match cmp x y with Some Eq => true | _ => false end.
Proof. rewrite FloatAxioms.eqb_spec. reflexivity. Qed.

Lemma isna_spec x : isna x = true <-> Prim2SF x = S754_nan.
Proof.
  unfold isna, is_nan. rewrite eqb_cmp. unfold cmp. split.
  - intros H. destruct (Prim2SF x) eqn:E; try reflexivity;
      rewrite SFcompare_refl in H by congruence; discriminate.
  - intros ->. reflexivity.
Qed.

Lemma isna_false x : isna x = false <-> Prim2SF x <> S754_nan.
Proof.
  rewrite <- isna_spec. destruct (isna x); split; congruence.
Qed.

Lemma cmp_antisym x y : cmp y x = option_map CompOpp (cmp x y).
Proof. apply SFcompare_antisym. Qed.

Lemma cmp_some x y :
  isna x = false -> isna y = false -> exists c, cmp x y = Some c.
Proof.
  rewrite !isna_false. intros Hx Hy. unfold cmp.
  destruct (SFcompare (Prim2SF x) (Prim2SF y)) eqn:E; eauto.
  apply SFcompare_none in E. tauto.
Qed.

Lemma cmp_notna x y c :
  cmp x y = Some c -> isna x = false /\ isna y = false.
Proof.
  intros H. rewrite !isna_false. unfold cmp in H.
  split; intros E; rewrite E in H; simpl in H;
    try discriminate; destruct (Prim2SF x); discriminate.
Qed.

Lemma cmp_refl x : isna x = false -> cmp x x = Some Eq.
Proof. rewrite isna_false. apply SFcompare_refl. Qed.

Lemma cmp_eq_l x y z : cmp x y = Some Eq -> cmp x z = cmp y z.
Proof. apply SFcompare_eq_l. Qed.

Lemma cmp_eq_r x y z : cmp x y = Some Eq -> cmp z x = cmp z y.
Proof.
  intros H. rewrite (cmp_antisym x z), (cmp_antisym y z).
  f_equal. now apply cmp_eq_l.
Qed.

Lemma cmp_trans x y z c :
  cmp x y = Some c -> cmp y z = Some c -> cmp x z = Some c.
Proof. apply SFcompare_trans. Qed.

Lemma leb_notna x y :
  (x <=? y)%float = true -> isna x = false /\ isna y = false.
Proof.
  rewrite leb_cmp. destruct (cmp x y) as [c|] eqn:E; [|discriminate].
  intros _. eapply cmp_notna; eauto.
Qed.

Lemma leb_refl x : isna x = false -> (x <=? x)%float = true.
Proof. intros H. rewrite leb_cmp, cmp_refl; auto. Qed.

Lemma leb_trans x y z :
  (x <=? y)%float = true -> (y <=? z)%float = true ->
  (x <=? z)%float = true.
Proof.
  rewrite !leb_cmp.
  destruct (cmp x y) as [[]|] eqn:E1; try discriminate;
    destruct (cmp y z) as [[]|] eqn:E2; try discriminate; intros _ _.
  - rewrite (cmp_eq_l _ _ z E1), E2. reflexivity.
  - rewrite (cmp_eq_l _ _ z E1), E2. reflexivity.
  - rewrite <- (cmp_eq_r _ _ x E2), E1. reflexivity.
  - rewrite (cmp_trans _ _ _ _ E1 E2). reflexivity.
Qed.

Lemma leb_total x y :
  isna x = false -> isna y = false ->
  (x <=? y)%float = true \/ (y <=? x)%float = true.
Proof.
  intros Hx Hy. rewrite !leb_cmp, (cmp_antisym x y).
  destruct (cmp_some _ _ Hx Hy) as [c ->]. destruct c; simpl; auto.
Qed.

Lemma ltb_leb x y :
  isna x = false -> isna y = false ->
  (x <? y)%float = negb (y <=? x)%float.
Proof.
  intros Hx Hy. rewrite ltb_cmp, leb_cmp, (cmp_antisym x y).
  destruct (cmp_some _ _ Hx Hy) as [c ->]. destruct c; reflexivity.
Qed.

Lemma ltb_notna x y :
  (x <? y)%float = true -> isna x = false /\ isna y = false.
Proof.
  rewrite ltb_cmp. destruct (cmp x y) as [c|] eqn:E; [|discriminate].
  intros _. eapply cmp_notna; eauto.
Qed.

Lemma ltb_trans x y z :
  (x <? y)%float = true -> (y <? z)%float = true -> (x <? z)%float = true.
Proof.
  rewrite !ltb_cmp.
  destruct (cmp x y) as [[]|] eqn:E1; try discriminate;
    destruct (cmp y z) as [[]|] eqn:E2; try discriminate; intros _ _.
  rewrite (cmp_trans _ _ _ _ E1 E2). reflexivity.
Qed.

Lemma ltb_leb_trans x y z :
  (x <? y)%float = true -> (y <=? z)%float = true -> (x <? z)%float = true.
Proof.
  rewrite !ltb_cmp, leb_cmp.
  destruct (cmp x y) as [[]|] eqn:E1; try discriminate;
    destruct (cmp y z) as [[]|] eqn:E2; try discriminate; intros _ _.
  - rewrite <- (cmp_eq_r _ _ x E2), E1. reflexivity.
  - rewrite (cmp_trans _ _ _ _ E1 E2). reflexivity.
Qed.

Lemma key_eqb_notna x y :
  key_eqb x y = true -> isna x = false /\ isna y = false.
Proof.
  unfold key_eqb. rewrite eqb_cmp.
  destruct (cmp x y) as [c|] eqn:E; [|discriminate].
  intros _. eapply cmp_notna; eauto.
Qed.

Lemma key_eqb_refl x : isna x = false -> key_eqb x x = true.
Proof. intros H. unfold key_eqb. rewrite eqb_cmp, cmp_refl; auto. Qed.

Lemma key_eqb_sym x y : key_eqb x y = key_eqb y x.
Proof.
  unfold key_eqb. rewrite !eqb_cmp, (cmp_antisym x y).
  destruct (cmp x y) as [[]|]; reflexivity.
Qed.

Lemma key_eqb_cmp x y : key_eqb x y = true <-> cmp x y = Some Eq.
Proof.
  unfold key_eqb. rewrite eqb_cmp.
  destruct (cmp x y) as [[]|]; split; congruence.
Qed.

Lemma key_eqb_trans x y z :
  key_eqb x y = true -> key_eqb y z = true -> key_eqb x z = true.
Proof. rewrite !key_eqb_cmp. apply cmp_trans. Qed.

Lemma key_eqb_leb x y : key_eqb x y = true -> (x <=? y)%float = true.
Proof. rewrite key_eqb_cmp, leb_cmp. now intros ->. Qed.

Lemma asc_le_total x y : asc_le x y = true \/ asc_le y x = true.
Proof.
  unfold asc_le. destruct (isna y) eqn:Hy; auto.
  destruct (isna x) eqn:Hx; auto. now apply leb_total.
Qed.

Lemma asc_le_trans x y z :
  asc_le x y = true -> asc_le y z = true -> asc_le x z = true.
Proof.
  unfold asc_le. destruct (isna z) eqn:Hz; auto.
  destruct (isna y) eqn:Hy; [discriminate|].
  destruct (isna x) eqn:Hx; [discriminate|]. apply leb_trans.
Qed.

Lemma desc_le_total x y : desc_le x y = true \/ desc_le y x = true.
Proof.
  unfold desc_le. destruct (isna y) eqn:Hy; auto.
  destruct (isna x) eqn:Hx; auto.
  destruct (leb_total _ _ Hx Hy); auto.
Qed.

Lemma desc_le_trans x y z :
  desc_le x y = true -> desc_le y z = true -> desc_le x z = true.
Proof.
  unfold desc_le. destruct (isna z) eqn:Hz; auto.
  destruct (isna y) eqn:Hy; [discriminate|].
  destruct (isna x) eqn:Hx; [discriminate|].
  intros H1 H2. eapply leb_trans; eauto.
Qed.

Lemma key_eqb_asc_le x y : key_eqb x y = true -> asc_le x y = true.
Proof.
  intros H. destruct (key_eqb_notna _ _ H) as [Hx Hy].
  unfold asc_le. rewrite Hx, Hy. now apply key_eqb_leb.
Qed.

End F64Facts.

Module DFFacts.

Import DF.

Section Count.

Variable A : Type.

Lemma count_cons (p : A -> bool) x l :
  count p (x :: l) = (if p x then 1 else 0) + count p l.
Proof. unfold count. simpl. destruct (p x); reflexivity. Qed.

Lemma count_ext_in (p q : A -> bool) l :
  (forall x, In x l -> p x = q x) -> count p l = count q l.
Proof.
  intros H. unfold count. f_equal. now apply filter_ext_in.
Qed.

Lemma count_pos (p : A -> bool) l :
  0 < count p l <-> exists x, In x l /\ p x = true.
Proof.
  unfold count. split.
  - destruct (filter p l) as [|x f] eqn:E; simpl; [lia|].
    intros _. exists x. apply filter_In. rewrite E. now left.
  - intros (x & Hx & Hp).
    assert (H : In x (filter p l)) by (apply filter_In; auto).
    destruct (filter p l); [easy | simpl; lia].
Qed.

Lemma count_filter (p q : A -> bool) l :
  (forall x, In x l -> p x = true -> q x = true) ->
  count p (filter q l) = count p l.
Proof.
  intros H. induction l as [|a l IH]; [reflexivity|].
  simpl. assert (IH' := IH (fun x Hx => H x (or_intror Hx))).
  destruct (q a) eqn:Hq.
  - rewrite !count_cons, IH'. reflexivity.
  - rewrite count_cons, IH'.
    destruct (p a) eqn:Hp; [|reflexivity].
    rewrite (H a (or_introl eq_refl) Hp) in Hq. discriminate.
Qed.

Lemma existsb_false (p : A -> bool) l :
  existsb p l = false <-> forall x, In x l -> p x = false.
Proof.
  induction l as [|a l IH]; simpl.
  - split; [intros _ x [] | reflexivity].
  - rewrite orb_false_iff, IH. split.
    + intros [Ha H] x [<-|Hx]; auto.
    + intros H. split; [apply H; now left | intros x Hx; apply H; now right].
Qed.

End Count.

Lemma count_map (A B : Type) (f : A -> B) (p : B -> bool) l :
  count p (map f l) = count (fun x => p (f x)) l.
Proof.
  induction l as [|a l IH]; [reflexivity|].
  simpl. rewrite !count_cons, IH. reflexivity.
Qed.

Section Sorting.

Variable A : Type.
Variable le : A -> A -> bool.
Hypothesis le_total : forall a b, le a b = true \/ le b a = true.
Hypothesis le_trans :
  forall a b c, le a b = true -> le b c = true -> le a c = true.

Let R (a b : A) : Prop := le a b = true.

Lemma insert_perm x l : Permutation (x :: l) (insert le x l).
Proof.
  induction l as [|y l IH]; simpl; [reflexivity|].
  destruct (le x y); [reflexivity|].
  rewrite perm_swap. now apply perm_skip.
Qed.

Lemma sort_values_perm l : Permutation l (sort_values le l).
Proof.
  induction l as [|x l IH]; simpl; [reflexivity|].
  rewrite <- insert_perm. now apply perm_skip.
Qed.

Lemma sort_values_In x l : In x (sort_values le l) <-> In x l.
Proof.
  split; apply Permutation_in;
    [symmetry|]; apply sort_values_perm.
Qed.

Lemma insert_sorted x l :
  StronglySorted R l -> StronglySorted R (insert le x l).
Proof.
  induction 1 as [|y l Hs IH Hy]; simpl.
  - repeat constructor.
  - destruct (le x y) eqn:E.
    + constructor; [now constructor|].
      constructor; [exact E|].
      eapply Forall_impl; [|exact Hy].
      intros z Hz. unfold R in *. eauto.
    + constructor; [exact IH|].
      eapply Permutation_Forall; [apply insert_perm|].
      constructor; [|exact Hy].
      unfold R. destruct (le_total x y); congruence.
Qed.

Lemma sort_values_sorted l : StronglySorted R (sort_values le l).
Proof.
  induction l as [|x l IH]; simpl; [constructor|].
  now apply insert_sorted.
Qed.

Lemma sorted_app_le l1 l2 x y :
  StronglySorted R (l1 ++ l2) -> In x l1 -> In y l2 -> le x y = true.
Proof.
  induction l1 as [|a l1 IH]; simpl; [easy|].
  intros Hs [<-|Hx] Hy.
  - apply StronglySorted_inv in Hs. destruct Hs as [_ Hall].
    rewrite Forall_forall in Hall. apply Hall, in_or_app. now right.
  - apply StronglySorted_inv in Hs. destruct Hs as [Hs _].
    now apply IH.
Qed.

Lemma sorted_filter (p : A -> bool) l :
  StronglySorted R l -> StronglySorted R (filter p l).
Proof.
  induction 1 as [|y l Hs IH Hy]; simpl; [constructor|].
  destruct (p y); [|exact IH].
  constructor; [exact IH|].
  rewrite Forall_forall in *. intros z Hz.
  apply filter_In in Hz. now apply Hy.
Qed.

End Sorting.

Section Lex.

Variable A : Type.
Variables le1 le2 : A -> A -> bool.

Lemma lex_total :
  (forall a b, le1 a b = true \/ le1 b a = true) ->
  (forall a b, le2 a b = true \/ le2 b a = true) ->
  forall a b, lex le1 le2 a b = true \/ lex le1 le2 b a = true.
Proof.
  intros T1 T2 a b. unfold lex.
  destruct (T1 a b) as [H|H], (T2 a b) as [H'|H']; rewrite ?H, ?H';
    destruct (le1 a b), (le1 b a); simpl; auto; discriminate.
Qed.

Lemma lex_trans :
  (forall a b c, le1 a b = true -> le1 b c = true -> le1 a c = true) ->
  (forall a b c, le2 a b = true -> le2 b c = true -> le2 a c = true) ->
  forall a b c,
    lex le1 le2 a b = true -> lex le1 le2 b c = true ->
    lex le1 le2 a c = true.
Proof.
  intros T1 T2 a b c. unfold lex.
  rewrite !andb_true_iff, !orb_true_iff, !negb_true_iff.
  intros [Hab Hab'] [Hbc Hbc']. split; [eauto|].
  destruct (le1 c a) eqn:Hca; [right|now left].
  assert (Hcb : le1 c b = true) by eauto.
  assert (Hba : le1 b a = true) by eauto.
  destruct Hab' as [?|Hab'], Hbc' as [?|Hbc']; try congruence. eauto.
Qed.

Lemma lex_tie a b :
  lex le1 le2 a b = true -> le1 b a = true -> le2 a b = true.
Proof.
  unfold lex. intros H Hba. rewrite Hba in H.
  apply andb_true_iff in H. destruct H as [_ H]. exact H.
Qed.

End Lex.

Section Duplicates.

Variable A : Type.
Variable same : A -> A -> bool.

Lemma drop_duplicates_from_split x before l :
  In x (drop_duplicates_from same before l) ->
  exists l1 l2, l = l1 ++ x :: l2 /\
    forall y, In y l1 \/ In y before -> same x y = false.
Proof.
  revert before. induction l as [|a l IH]; simpl; [easy|].
  intros before Hin.
  assert (Hrest :
    In x (drop_duplicates_from same (a :: before) l) ->
    exists l1 l2, a :: l = l1 ++ x :: l2 /\
      forall y, In y l1 \/ In y before -> same x y = false).
  { intros H. destruct (IH _ H) as (l1 & l2 & -> & Hno).
    exists (a :: l1), l2. split; [reflexivity|].
    intros y [[<-|Hy]|Hy]; apply Hno; simpl; auto. }
  destruct (existsb (same a) before) eqn:E; [auto|].
  destruct Hin as [<-|Hin]; [|auto].
  exists [], l. split; [reflexivity|].
  intros y [[]|Hy]. eapply existsb_false in E; eauto.
Qed.

Lemma drop_duplicates_In x l :
  In x (drop_duplicates same l) -> In x l.
Proof.
  intros H. apply drop_duplicates_from_split in H.
  destruct H as (l1 & l2 & -> & _). apply in_or_app. simpl. auto.
Qed.

Hypothesis same_sym : forall a b, same a b = same b a.
Hypothesis same_trans :
  forall a b c, same a b = true -> same b c = true -> same a c = true.

Lemma existsb_same_trans x a l :
  same x a = true -> existsb (same x) l = existsb (same a) l.
Proof.
  intros H. induction l as [|y l IH]; simpl; [reflexivity|].
  rewrite IH. f_equal.
  destruct (same x y) eqn:E1, (same a y) eqn:E2; try reflexivity.
  - rewrite same_sym in H. rewrite (same_trans _ _ _ H E1) in E2.
    discriminate.
  - rewrite (same_trans _ _ _ H E2) in E1. discriminate.
Qed.

Lemma count_drop_duplicates_from x before l :
  count (same x) (drop_duplicates_from same before l) =
  if existsb (same x) before then 0
  else if existsb (same x) l then 1 else 0.
Proof.
  revert before. induction l as [|a l IH]; intros before; simpl.
  - destruct (existsb (same x) before); reflexivity.
  - destruct (same x a) eqn:Hxa.
    + rewrite <- (existsb_same_trans _ _ before Hxa).
      destruct (existsb (same x) before) eqn:Hb.
      * rewrite IH. simpl. rewrite Hxa. reflexivity.
      * rewrite count_cons, Hxa, IH. simpl. rewrite Hxa. reflexivity.
    + simpl.
      destruct (existsb (same a) before) eqn:Hb.
      * rewrite IH. simpl. rewrite Hxa. reflexivity.
      * rewrite count_cons, Hxa, IH. simpl. rewrite Hxa. reflexivity.
Qed.

Lemma count_drop_duplicates x l :
  existsb (same x) l = true ->
  count (same x) (drop_duplicates same l) = 1.
Proof.
  intros H. unfold drop_duplicates.
  rewrite count_drop_duplicates_from. simpl. now rewrite H.
Qed.

Lemma drop_duplicates_complete x l :
  In x l -> same x x = true ->
  exists d, In d (drop_duplicates same l) /\ same x d = true.
Proof.
  intros Hin Hrefl.
  assert (H : existsb (same x) l = true)
    by (apply existsb_exists; eauto).
  apply count_drop_duplicates in H.
  assert (Hp : 0 < count (same x) (drop_duplicates same l)) by lia.
  apply count_pos in Hp. exact Hp.
Qed.

(** The first [n] rows of each group. *)
Lemma filter_groupby_head_from notna k n before l :
  (forall x, same k x = true -> notna x = true) ->
  filter (same k) (groupby_head_from notna same n before l) =
  firstn (n - count (same k) before) (filter (same k) l).
Proof.
  intros Hna. revert before.
  induction l as [|a l IH]; intros before; simpl.
  - now rewrite firstn_nil.
  - destruct (same k a) eqn:Hka.
    + rewrite (Hna _ Hka). simpl.
      assert (Hc : count (same a) before = count (same k) before).
      { apply count_ext_in. intros y _.
        destruct (same a y) eqn:E1, (same k y) eqn:E2; try reflexivity.
        - rewrite (same_trans _ _ _ Hka E1) in E2. discriminate.
        - rewrite same_sym in Hka.
          rewrite (same_trans _ _ _ Hka E2) in E1. discriminate. }
      rewrite Hc.
      destruct (count (same k) before <? n) eqn:Hlt.
      * apply Nat.ltb_lt in Hlt. simpl. rewrite Hka, IH, count_cons, Hka.
        replace (n - count (same k) before)
          with (S (n - (1 + count (same k) before))) by lia.
        reflexivity.
      * apply Nat.ltb_ge in Hlt. rewrite IH, count_cons, Hka.
        replace (n - count (same k) before) with 0 by lia.
        replace (n - (1 + count (same k) before)) with 0 by lia.
        reflexivity.
    + assert (Hrest :
        filter (same k) (groupby_head_from notna same n (a :: before) l)
        = firstn (n - count (same k) before) (filter (same k) l)).
      { rewrite IH, count_cons, Hka. reflexivity. }
      destruct (notna a && (count (same a) before <? n)); simpl;
        rewrite ?Hka; exact Hrest.
Qed.

Lemma filter_groupby_head notna k n l :
  (forall x, same k x = true -> notna x = true) ->
  filter (same k) (groupby_head notna same n l) =
  firstn n (filter (same k) l).
Proof.
  intros Hna. unfold groupby_head.
  rewrite filter_groupby_head_from by exact Hna.
  unfold count. simpl. now rewrite Nat.sub_0_r.
Qed.

Lemma groupby_head_from_In notna n x before l :
  In x (groupby_head_from notna same n before l) ->
  In x l /\ notna x = true.
Proof.
  revert before. induction l as [|a l IH]; simpl; [easy|].
  intros before H.
  destruct (notna a) eqn:Hn; simpl in H;
    [destruct (count (same a) before <? n); [destruct H as [<-|H]|]|];
    try (apply IH in H; tauto); auto.
Qed.

End Duplicates.

End DFFacts.

Module PyFacts.

Lemma eqb_eq a b : Py.eqb a b = true <-> a = b.
Proof.
  revert b. induction a as [|x a IH]; intros [|y b]; simpl;
    try (split; [discriminate|congruence]); [tauto|].
  rewrite andb_true_iff, N.eqb_eq, IH. split.
  - intros [-> ->]. reflexivity.
  - intros H. injection H as -> ->. auto.
Qed.

Lemma eqb_refl a : Py.eqb a a = true.
Proof. now apply eqb_eq. Qed.

Lemma str_eqb_sym a b : Py.eqb a b = Py.eqb b a.
Proof.
  destruct (Py.eqb a b) eqn:E1, (Py.eqb b a) eqn:E2; try reflexivity.
  - apply eqb_eq in E1. subst. now rewrite eqb_refl in E2.
  - apply eqb_eq in E2. subst. now rewrite eqb_refl in E1.
Qed.

Lemma str_leb_refl a : Py.leb a a = true.
Proof.
  induction a as [|x a IH]; simpl; [reflexivity|].
  now rewrite N.ltb_irrefl.
Qed.

Lemma str_leb_total a b : Py.leb a b = true \/ Py.leb b a = true.
Proof.
  revert b. induction a as [|x a IH]; intros [|y b]; simpl; auto.
  destruct (N.ltb_spec x y), (N.ltb_spec y x); auto; lia.
Qed.

Lemma str_leb_trans a b c :
  Py.leb a b = true -> Py.leb b c = true -> Py.leb a c = true.
Proof.
  revert b c. induction a as [|x a IH]; intros [|y b] [|z c]; simpl;
    try congruence.
  destruct (N.ltb_spec x y), (N.ltb_spec y x), (N.ltb_spec y z),
    (N.ltb_spec z y), (N.ltb_spec x z), (N.ltb_spec z x);
    try congruence; try lia; eauto.
Qed.

End PyFacts.

Module KeyFacts.

Import Main.

Lemma opt_eqb_eq a b : opt_eqb a b = true <-> a = b.
Proof.
  destruct a as [x|], b as [y|]; simpl;
    try (split; [discriminate|congruence]); [|tauto].
  rewrite PyFacts.eqb_eq. split; congruence.
Qed.

Lemma opt_eqb_refl a : opt_eqb a a = true.
Proof. now apply opt_eqb_eq. Qed.

Lemma opt_eqb_sym a b : opt_eqb a b = opt_eqb b a.
Proof.
  destruct a, b; simpl; auto using PyFacts.str_eqb_sym.
Qed.

Lemma opt_asc_le_total a b :
  opt_asc_le a b = true \/ opt_asc_le b a = true.
Proof.
  destruct a, b; simpl; auto using PyFacts.str_leb_total.
Qed.

Lemma opt_asc_le_trans a b c :
  opt_asc_le a b = true -> opt_asc_le b c = true -> opt_asc_le a c = true.
Proof.
  destruct a, b, c; simpl; try congruence. apply PyFacts.str_leb_trans.
Qed.

Lemma opt_asc_le_refl a : opt_asc_le a a = true.
Proof. destruct a; simpl; auto using PyFacts.str_leb_refl. Qed.

(** Equality of missing-aware float keys. *)
Lemma dup_eqb_sym x y : F64.dup_eqb x y = F64.dup_eqb y x.
Proof.
  unfold F64.dup_eqb. fold (F64.key_eqb x y). fold (F64.key_eqb y x).
  rewrite F64Facts.key_eqb_sym. f_equal. apply andb_comm.
Qed.

Lemma dup_eqb_key x y :
  F64.isna x = false -> F64.dup_eqb x y = F64.key_eqb x y.
Proof.
  intros H. unfold F64.dup_eqb. rewrite H. simpl.
  now rewrite orb_false_r.
Qed.

Lemma dup_eqb_trans x y z :
  F64.dup_eqb x y = true -> F64.dup_eqb y z = true ->
  F64.dup_eqb x z = true.
Proof.
  unfold F64.dup_eqb.
  fold (F64.key_eqb x y) (F64.key_eqb y z) (F64.key_eqb x z).
  rewrite !orb_true_iff, !andb_true_iff.
  intros [H1|[H1 H1']] [H2|[H2 H2']].
  - left. eapply F64Facts.key_eqb_trans; eauto.
  - apply F64Facts.key_eqb_notna in H1. destruct H1. congruence.
  - apply F64Facts.key_eqb_notna in H2. destruct H2. congruence.
  - auto.
Qed.

Lemma key3_eqb_sym a b : key3_eqb a b = key3_eqb b a.
Proof.
  destruct a as [[s1 y1] p1], b as [[s2 y2] p2]. simpl.
  now rewrite opt_eqb_sym, F64Facts.key_eqb_sym, PyFacts.str_eqb_sym.
Qed.

Lemma key3_eqb_trans a b c :
  key3_eqb a b = true -> key3_eqb b c = true -> key3_eqb a c = true.
Proof.
  destruct a as [[s1 y1] p1], b as [[s2 y2] p2], c as [[s3 y3] p3]. simpl.
  rewrite !andb_true_iff, !opt_eqb_eq, !PyFacts.eqb_eq.
  intros [[-> H1] ->] [[-> H2] ->]. repeat split.
  eapply F64Facts.key_eqb_trans; eauto.
Qed.

Lemma key3_eqb_refl a : key3_notna a = true -> key3_eqb a a = true.
Proof.
  destruct a as [[s y] p]. simpl. rewrite !andb_true_iff.
  intros [_ Hy]. unfold F64.notna in Hy. apply negb_true_iff in Hy.
  rewrite opt_eqb_refl, PyFacts.eqb_refl, F64Facts.key_eqb_refl; auto.
Qed.

Lemma key3_eqb_notna a b :
  key3_notna a = true -> key3_eqb a b = true -> key3_notna b = true.
Proof.
  destruct a as [[s1 y1] p1], b as [[s2 y2] p2]. simpl.
  rewrite !andb_true_iff, !opt_eqb_eq.
  intros [Hs _] [[-> Hy] _]. split; [exact Hs|].
  apply F64Facts.key_eqb_notna in Hy. unfold F64.notna.
  destruct Hy as [_ ->]. reflexivity.
Qed.

Lemma key2_eqb_eq a b : key2_eqb a b = true <-> a = b.
Proof.
  destruct a as [s1 p1], b as [s2 p2]. unfold key2_eqb. simpl.
  rewrite andb_true_iff, opt_eqb_eq, PyFacts.eqb_eq.
  split; [intros [-> ->]; reflexivity | intros H; injection H; auto].
Qed.

Lemma key2_eqb_sym a b : key2_eqb a b = key2_eqb b a.
Proof.
  unfold key2_eqb. now rewrite opt_eqb_sym, PyFacts.str_eqb_sym.
Qed.

Lemma key2_eqb_trans a b c :
  key2_eqb a b = true -> key2_eqb b c = true -> key2_eqb a c = true.
Proof. rewrite !key2_eqb_eq. congruence. Qed.

End KeyFacts.

Module TitleFacts.

Local Arguments Py.lookup : simpl never.
Local Arguments Py.in_ranges : simpl never.

(** *** Stripping *)

Lemma lstrip_fix s : Py.no_leading_space s = true -> Py.lstrip s = s.
Proof.
  destruct s as [|c s]; simpl; [reflexivity|].
  intros H. apply negb_true_iff in H. now rewrite H.
Qed.

Lemma lstrip_no_leading_space s :
  Py.no_leading_space (Py.lstrip s) = true.
Proof.
  induction s as [|c s IH]; simpl; [reflexivity|].
  destruct (Py.isspace c) eqn:E; [exact IH|]. simpl. now rewrite E.
Qed.

Lemma lstrip_suffix s : exists w, s = w ++ Py.lstrip s.
Proof.
  induction s as [|c s [w IH]]; simpl; [now exists []|].
  destruct (Py.isspace c).
  - exists (c :: w). simpl. now f_equal.
  - now exists [].
Qed.

Lemma strip_stripped s : Py.stripped (Py.strip s) = true.
Proof.
  unfold Py.stripped, Py.strip, Py.rstrip.
  rewrite rev_involutive, lstrip_no_leading_space, andb_true_r.
  pose proof (lstrip_no_leading_space s) as Hu.
  set (u := Py.lstrip s) in *.
  destruct (lstrip_suffix (rev u)) as [w Hw].
  set (v := Py.lstrip (rev u)) in *.
  assert (Hu' : u = rev v ++ rev w).
  { rewrite <- rev_app_distr, <- Hw. symmetry. apply rev_involutive. }
  destruct (rev v) as [|a z]; [reflexivity|].
  rewrite Hu' in Hu. exact Hu.
Qed.

Lemma stripped_strip s : Py.stripped s = true -> Py.strip s = s.
Proof.
  unfold Py.stripped, Py.strip, Py.rstrip. rewrite andb_true_iff.
  intros [H1 H2]. rewrite (lstrip_fix s H1), (lstrip_fix _ H2).
  apply rev_involutive.
Qed.

Lemma lstrip_In c s : In c (Py.lstrip s) -> In c s.
Proof.
  induction s as [|d s IH]; simpl; [tauto|].
  destruct (Py.isspace d); [auto|]. tauto.
Qed.

Lemma strip_In c s : In c (Py.strip s) -> In c s.
Proof.
  unfold Py.strip, Py.rstrip. intros H.
  apply in_rev in H. apply lstrip_In in H. apply in_rev in H.
  now apply lstrip_In.
Qed.

(** *** The case tables *)

Lemma ascii_cases (P : N -> Prop) :
  Forall P (map N.of_nat (seq 0 128)) ->
  forall c, Py.ascii_cp c = true -> P c.
Proof.
  intros H c Hc. unfold Py.ascii_cp in Hc. apply N.ltb_lt in Hc.
  rewrite Forall_forall in H. apply H.
  rewrite <- (N2Nat.id c). apply in_map. apply in_seq. lia.
Qed.

Lemma ascii_check (p : N -> bool) :
  forallb p (map N.of_nat (seq 0 128)) = true ->
  forall c, Py.ascii_cp c = true -> p c = true.
Proof.
  intros H. apply ascii_cases. apply Forall_forall.
  now apply forallb_forall.
Qed.

Lemma upper_ascii_cp c : Py.is_upper_ascii c = true -> Py.ascii_cp c = true.
Proof.
  unfold Py.is_upper_ascii, Py.ascii_cp.
  rewrite andb_true_iff, !N.leb_le, N.ltb_lt. lia.
Qed.

Lemma lookup_In t c m : Py.lookup t c = Some m -> In (c, m) t.
Proof.
  induction t as [|[k v] t IH]; [discriminate|].
  unfold Py.lookup; fold Py.lookup.
  destruct (c <? k)%N; [discriminate|].
  destruct (c =? k)%N eqn:E.
  - intros H. injection H as ->. apply N.eqb_eq in E. subst k. now left.
  - intros H. right. now apply IH.
Qed.

(** The search in a table stops at the first entry above the code
    point; the tables are in ascending order, so that it finds every
    entry. *)
Lemma ranges_below lo hi rs :
  forallb (fun r => (fst r <=? snd r)%N) ((lo, hi) :: rs) = true ->
  forallb (fun p => (snd (fst p) <? fst (snd p))%N)
    (combine ((lo, hi) :: rs) rs) = true ->
  forall lo' hi', In (lo', hi') rs -> (hi < lo')%N.
Proof.
  revert lo hi. induction rs as [|[l1 h1] rs IH]; intros lo hi H1 H2;
    [intros ? ? []|].
  simpl in H1, H2.
  apply andb_true_iff in H1. destruct H1 as [_ H1].
  apply andb_true_iff in H2. destruct H2 as [Hadj H2].
  apply N.ltb_lt in Hadj.
  intros lo' hi' [E|Hin].
  - injection E as <- <-. exact Hadj.
  - pose proof (IH l1 h1 H1 H2 lo' hi' Hin) as Hlt.
    simpl in H1. apply andb_true_iff in H1. destruct H1 as [Hle _].
    apply N.leb_le in Hle. lia.
Qed.

Lemma in_ranges_spec rs c :
  forallb (fun r => (fst r <=? snd r)%N) rs = true ->
  forallb (fun p => (snd (fst p) <? fst (snd p))%N) (combine rs (tl rs))
  = true ->
  (Py.in_ranges rs c = true <->
   exists lo hi, In (lo, hi) rs /\ (lo <= c <= hi)%N).
Proof.
  induction rs as [|[lo hi] rs IH]; intros H1 H2.
  - split; [discriminate|]. intros (lo & hi & [] & _).
  - pose proof (ranges_below lo hi rs H1 H2) as Hbelow.
    assert (IH' : Py.in_ranges rs c = true <->
                  exists lo hi, In (lo, hi) rs /\ (lo <= c <= hi)%N).
    { apply IH.
      - simpl in H1. apply andb_true_iff in H1. tauto.
      - destruct rs as [|[l1 h1] rs']; [reflexivity|].
        simpl in H2. apply andb_true_iff in H2. tauto. }
    unfold Py.in_ranges; fold Py.in_ranges.
    destruct (N.ltb_spec c lo) as [Hlt|Hge].
    + split; [discriminate|].
      intros (lo' & hi' & [E|Hin] & Hc).
      * injection E as <- <-. lia.
      * pose proof (Hbelow lo' hi' Hin).
        simpl in H1. apply andb_true_iff in H1. destruct H1 as [Hle _].
        apply N.leb_le in Hle. simpl in Hle. lia.
    + destruct (N.leb_spec c hi) as [Hle|Hgt].
      * split; [|reflexivity]. intros _. exists lo, hi.
        split; [now left|lia].
      * rewrite IH'. split.
        -- intros (lo' & hi' & Hin & Hc). exists lo', hi'.
           split; [now right|exact Hc].
        -- intros (lo' & hi' & [E|Hin] & Hc).
           ++ injection E as <- <-. lia.
           ++ eauto.
Qed.

Lemma is_cased_spec c :
  Py.is_cased c = true <->
  exists lo hi, In (lo, hi) Py.cased_ranges /\ (lo <= c <= hi)%N.
Proof.
  apply in_ranges_spec; vm_compute; reflexivity.
Qed.

Lemma is_case_ignorable_spec c :
  Py.is_case_ignorable c = true <->
  exists lo hi, In (lo, hi) Py.case_ignorable_ranges /\ (lo <= c <= hi)%N.
Proof.
  apply in_ranges_spec; vm_compute; reflexivity.
Qed.

Lemma lookup_title_full_table k m :
  In (k, m) Py.title_full_table ->
  Py.lookup Py.title_full_table k = Some m.
Proof.
  intros H.
  assert (E := proj1 (forallb_forall
                        (fun e => match Py.lookup Py.title_full_table
                                          (fst e) with
                                  | Some v => Py.eqb v (snd e)
                                  | None => false
                                  end) Py.title_full_table)
                 ltac:(vm_compute; reflexivity) (k, m) H).
  simpl in E. destruct (Py.lookup Py.title_full_table k) as [v|];
    [|discriminate].
  apply PyFacts.eqb_eq in E. now subst.
Qed.

Lemma lookup_lower_full_table k m :
  In (k, m) Py.lower_full_table ->
  Py.lookup Py.lower_full_table k = Some m.
Proof.
  intros H.
  assert (E := proj1 (forallb_forall
                        (fun e => match Py.lookup Py.lower_full_table
                                          (fst e) with
                                  | Some v => Py.eqb v (snd e)
                                  | None => false
                                  end) Py.lower_full_table)
                 ltac:(vm_compute; reflexivity) (k, m) H).
  simpl in E. destruct (Py.lookup Py.lower_full_table k) as [v|];
    [|discriminate].
  apply PyFacts.eqb_eq in E. now subst.
Qed.

(** What holds of every entry of a table, and of a code point mapped
    to itself, holds of the mapping. *)
Lemma to_title_full_check (p : N -> Py.str -> bool) c :
  forallb (fun e => p (fst e) (snd e)) Py.title_full_table = true ->
  (Py.lookup Py.title_full_table c = None -> p c [c] = true) ->
  p c (Py.to_title_full c) = true.
Proof.
  intros Ht Hn. unfold Py.to_title_full.
  destruct (Py.lookup Py.title_full_table c) as [m|] eqn:E; [|auto].
  apply lookup_In in E.
  exact (proj1 (forallb_forall _ _) Ht (c, m) E).
Qed.

Lemma to_lower_full_check (p : N -> Py.str -> bool) c :
  forallb (fun e => p (fst e) (snd e)) Py.lower_full_table = true ->
  (Py.lookup Py.lower_full_table c = None -> p c [c] = true) ->
  p c (Py.to_lower_full c) = true.
Proof.
  intros Ht Hn. unfold Py.to_lower_full.
  destruct (Py.lookup Py.lower_full_table c) as [m|] eqn:E; [|auto].
  apply lookup_In in E.
  exact (proj1 (forallb_forall _ _) Ht (c, m) E).
Qed.

Lemma to_title_full_unmapped c :
  Py.lookup Py.title_full_table c = None -> Py.to_title_full c = [c].
Proof. unfold Py.to_title_full. now intros ->. Qed.

Lemma to_lower_full_unmapped c :
  Py.lookup Py.lower_full_table c = None -> Py.to_lower_full c = [c].
Proof. unfold Py.to_lower_full. now intros ->. Qed.

(** The text [do_title] gives for one code point. *)
Lemma lower_ucs4_cases before c rest :
  (c = Py.capital_sigma /\
   (Py.lower_ucs4 before c rest = [Py.small_final_sigma] \/
    Py.lower_ucs4 before c rest = [Py.small_sigma]))
  \/ (c <> Py.capital_sigma /\
      Py.lower_ucs4 before c rest = Py.to_lower_full c).
Proof.
  unfold Py.lower_ucs4. destruct (c =? Py.capital_sigma)%N eqn:E.
  - apply N.eqb_eq in E. left. split; [exact E|].
    unfold Py.handle_capital_sigma.
    match goal with |- context [if ?b then _ else _] => destruct b end;
      auto.
  - apply N.eqb_neq in E. right. auto.
Qed.

(** *** Reading a title back *)

Lemma reads_back_title c :
  existsb (N.eqb c) Py.title_unstable = false ->
  Py.reads_back false (Py.to_title_full c) = Some (Py.is_cased c).
Proof.
  intros Hc.
  assert (H := to_title_full_check (fun k m =>
                 existsb (N.eqb k) Py.title_unstable
                 || match Py.reads_back false m with
                    | Some f => Bool.eqb f (Py.is_cased k)
                    | None => false
                    end) c
                ltac:(vm_compute; reflexivity)).
  cbv beta in H. lapply H; [clear H; intros H|].
  2:{
    intros E. apply orb_true_iff. right.
    unfold Py.reads_back. rewrite (to_title_full_unmapped c E).
    rewrite PyFacts.eqb_refl. simpl. apply eqb_reflx. }
  rewrite Hc, orb_false_l in H.
  destruct (Py.reads_back false (Py.to_title_full c)) as [f|];
    [|discriminate].
  apply eqb_prop in H. now subst f.
Qed.

Lemma reads_back_lower c :
  existsb (N.eqb c) Py.title_unstable = false ->
  c <> Py.capital_sigma ->
  Py.reads_back true (Py.to_lower_full c) = Some (Py.is_cased c).
Proof.
  intros Hc Hs.
  assert (H := to_lower_full_check (fun k m =>
                 existsb (N.eqb k) Py.title_unstable
                 || (k =? Py.capital_sigma)%N
                 || match Py.reads_back true m with
                    | Some f => Bool.eqb f (Py.is_cased k)
                    | None => false
                    end) c
                ltac:(vm_compute; reflexivity)).
  cbv beta in H. lapply H; [clear H; intros H|].
  2:{
    intros E. apply orb_true_iff. right.
    unfold Py.reads_back. rewrite (to_lower_full_unmapped c E).
    apply N.eqb_neq in Hs. rewrite Hs.
    rewrite PyFacts.eqb_refl. simpl. apply eqb_reflx. }
  rewrite Hc in H. apply N.eqb_neq in Hs. rewrite Hs in H.
  rewrite !orb_false_l in H.
  destruct (Py.reads_back true (Py.to_lower_full c)) as [f|];
    [|discriminate].
  apply eqb_prop in H. now subst f.
Qed.

(** The text [do_title] gives for a code point outside
    [title_unstable] reads back. *)
Lemma reads_back_chunk (b : bool) before c rest :
  existsb (N.eqb c) Py.title_unstable = false ->
  Py.reads_back b
    (if b then Py.lower_ucs4 before c rest else Py.to_title_full c)
  = Some (Py.is_cased c).
Proof.
  intros Hc. destruct b; [|now apply reads_back_title].
  destruct (lower_ucs4_cases before c rest) as [[-> [E|E]]|[Hs E]];
    rewrite E.
  - vm_compute. reflexivity.
  - vm_compute. reflexivity.
  - now apply reads_back_lower.
Qed.

Lemma do_title_reads_back m :
  forall b f before rest,
    Py.reads_back b m = Some f ->
    Py.do_title before b (m ++ rest)
    = m ++ Py.do_title (rev m ++ before) f rest.
Proof.
  induction m as [|d m IH]; intros b f before rest H.
  - simpl in H. injection H as ->. reflexivity.
  - unfold Py.reads_back in H; fold Py.reads_back in H.
    destruct (b && (d =? Py.capital_sigma)%N) eqn:Es; [discriminate|].
    destruct (Py.eqb _ [d]) eqn:Ed; [|discriminate].
    apply PyFacts.eqb_eq in Ed.
    change ((d :: m) ++ rest) with (d :: (m ++ rest)).
    unfold Py.do_title; fold Py.do_title.
    assert (Ec : (if b then Py.lower_ucs4 before d (m ++ rest)
                  else Py.to_title_full d) = [d]).
    { destruct b; [|exact Ed]. simpl in Es. unfold Py.lower_ucs4.
      rewrite Es. exact Ed. }
    rewrite Ec. rewrite (IH _ _ (d :: before) rest H).
    simpl. now rewrite <- app_assoc.
Qed.

(** [do_title] leaves its result as it is, on a text with no code
    point of [title_unstable]. *)
Lemma do_title_twice s :
  (forall c, In c s -> existsb (N.eqb c) Py.title_unstable = false) ->
  forall before before' b,
    Py.do_title before' b (Py.do_title before b s)
    = Py.do_title before b s.
Proof.
  induction s as [|c s IH]; intros Hs before before' b; [reflexivity|].
  unfold Py.do_title at 2 3; fold Py.do_title.
  rewrite (do_title_reads_back _ b (Py.is_cased c) before');
    [|apply reads_back_chunk; apply Hs; now left].
  f_equal. apply IH. intros d Hd. apply Hs. now right.
Qed.

Lemma title_twice s :
  (forall c, In c s -> existsb (N.eqb c) Py.title_unstable = false) ->
  Py.title (Py.title s) = Py.title s.
Proof. intros H. unfold Py.title. now apply do_title_twice. Qed.

(** *** Title case and spaces *)

(** The text for one code point is not empty, and has no space unless
    the code point is one. *)
Lemma title_chunk_no_space c :
  Py.to_title_full c <> []
  /\ (Py.isspace c = false ->
      forallb (fun d => negb (Py.isspace d)) (Py.to_title_full c) = true).
Proof.
  assert (H := to_title_full_check (fun (k : N) (m : Py.str) =>
                 match m with [] => false | _ :: _ => true end
                 && (Py.isspace k
                     || forallb (fun d => negb (Py.isspace d)) m)) c
                ltac:(vm_compute; reflexivity)).
  cbv beta in H. lapply H; [clear H; intros H|].
  2:{
    intros _. simpl. destruct (Py.isspace c); reflexivity. }
  simpl in H. apply andb_true_iff in H. destruct H as [H1 H2].
  split.
  - intros E. rewrite E in H1. discriminate.
  - intros E. now rewrite E in H2.
Qed.

Lemma lower_chunk_no_space before c rest :
  Py.lower_ucs4 before c rest <> []
  /\ (Py.isspace c = false ->
      forallb (fun d => negb (Py.isspace d)) (Py.lower_ucs4 before c rest)
      = true).
Proof.
  destruct (lower_ucs4_cases before c rest) as [[-> [E|E]]|[Hs E]];
    rewrite E; try (split; [discriminate|reflexivity]).
  assert (H := to_lower_full_check (fun (k : N) (m : Py.str) =>
                 match m with [] => false | _ :: _ => true end
                 && (Py.isspace k
                     || forallb (fun d => negb (Py.isspace d)) m)) c
                ltac:(vm_compute; reflexivity)).
  cbv beta in H. lapply H; [clear H; intros H|].
  2:{
    intros _. simpl. destruct (Py.isspace c); reflexivity. }
  simpl in H. apply andb_true_iff in H. destruct H as [H1 H2].
  split.
  - intros E'. rewrite E' in H1. discriminate.
  - intros E'. now rewrite E' in H2.
Qed.

Lemma chunk_no_space (b : bool) before c rest :
  (if b then Py.lower_ucs4 before c rest else Py.to_title_full c) <> []
  /\ (Py.isspace c = false ->
      forallb (fun d => negb (Py.isspace d))
        (if b then Py.lower_ucs4 before c rest else Py.to_title_full c)
      = true).
Proof.
  destruct b; [apply lower_chunk_no_space|apply title_chunk_no_space].
Qed.

Lemma do_title_nil before b s : Py.do_title before b s = [] -> s = [].
Proof.
  destruct s as [|c s]; [reflexivity|]. simpl. intros E.
  apply app_eq_nil in E. destruct E as [E _].
  now apply (proj1 (chunk_no_space b before c s)) in E.
Qed.

Lemma do_title_no_leading_space before b s :
  Py.no_leading_space s = true ->
  Py.no_leading_space (Py.do_title before b s) = true.
Proof.
  destruct s as [|c s]; [reflexivity|]. simpl. intros Hc.
  apply negb_true_iff in Hc.
  destruct (chunk_no_space b before c s) as [Hne Hsp].
  specialize (Hsp Hc).
  destruct (if b then Py.lower_ucs4 before c s else Py.to_title_full c)
    as [|d m]; [congruence|].
  simpl in Hsp. apply andb_true_iff in Hsp. simpl. exact (proj1 Hsp).
Qed.

Lemma no_leading_space_app s t :
  s <> [] -> Py.no_leading_space (s ++ t) = Py.no_leading_space s.
Proof. destruct s; [congruence|reflexivity]. Qed.

Lemma no_trailing_space_chunk m :
  m <> [] -> forallb (fun d => negb (Py.isspace d)) m = true ->
  Py.no_leading_space (rev m) = true.
Proof.
  intros Hne H. destruct (rev m) as [|d r] eqn:E.
  - reflexivity.
  - simpl. rewrite forallb_forall in H. apply H. apply in_rev.
    rewrite E. now left.
Qed.

Lemma do_title_no_trailing_space s :
  forall before b,
    Py.no_leading_space (rev s) = true ->
    Py.no_leading_space (rev (Py.do_title before b s)) = true.
Proof.
  induction s as [|c s IH]; intros before b H; [reflexivity|].
  unfold Py.do_title; fold Py.do_title. rewrite rev_app_distr.
  destruct (chunk_no_space b before c s) as [Hne Hsp].
  destruct s as [|c' s'].
  - simpl Py.do_title. simpl app. simpl in H.
    apply negb_true_iff in H. now apply no_trailing_space_chunk; auto.
  - rewrite no_leading_space_app.
    + apply IH. simpl rev in H. simpl rev.
      rewrite no_leading_space_app in H; [exact H|].
      intros E. apply app_eq_nil in E. destruct E as [_ E].
      discriminate E.
    + intros E. apply (f_equal (@rev _)) in E.
      rewrite rev_involutive in E. change (rev []) with (@nil N) in E.
      apply do_title_nil in E. discriminate E.
Qed.

Lemma title_stripped s :
  Py.stripped s = true -> Py.stripped (Py.title s) = true.
Proof.
  unfold Py.stripped, Py.title. rewrite !andb_true_iff. intros [H1 H2].
  split; [now apply do_title_no_leading_space|].
  now apply do_title_no_trailing_space.
Qed.

(** Strip, then title case, is idempotent on a text with no code point
    of [title_unstable]. *)
Lemma title_strip_idempotent s :
  (forall c, In c s -> existsb (N.eqb c) Py.title_unstable = false) ->
  Py.title (Py.strip (Py.title (Py.strip s))) = Py.title (Py.strip s).
Proof.
  intros H. rewrite (stripped_strip (Py.title (Py.strip s))).
  - apply title_twice. intros c Hc. apply H. now apply strip_In.
  - apply title_stripped. apply strip_stripped.
Qed.

Lemma ascii_stable c :
  Py.ascii_cp c = true -> existsb (N.eqb c) Py.title_unstable = false.
Proof.
  intros H.
  apply (ascii_check
           (fun c => negb (existsb (N.eqb c) Py.title_unstable)))
    in H; [|vm_compute; reflexivity].
  now apply negb_true_iff in H.
Qed.

Lemma is_ascii_stable s :
  Py.is_ascii s = true ->
  forall c, In c s -> existsb (N.eqb c) Py.title_unstable = false.
Proof.
  intros H c Hc. apply ascii_stable.
  unfold Py.is_ascii in H. rewrite forallb_forall in H. now apply H.
Qed.

(** *** Capitals *)

Lemma upper_is_cased c :
  Py.is_upper_ascii c = true -> Py.is_cased c = true.
Proof.
  intros H. pose proof (upper_ascii_cp c H) as Ha.
  apply (ascii_check
           (fun c => implb (Py.is_upper_ascii c) (Py.is_cased c)))
    in Ha; [|vm_compute; reflexivity].
  now rewrite H in Ha.
Qed.

Lemma upper_has_lower c :
  Py.is_upper_ascii c = true -> Py.lookup Py.lower_full_table c <> None.
Proof.
  intros H. pose proof (upper_ascii_cp c H) as Ha.
  apply (ascii_check
           (fun c => implb (Py.is_upper_ascii c)
                       match Py.lookup Py.lower_full_table c with
                       | Some _ => true
                       | None => false
                       end))
    in Ha; [|vm_compute; reflexivity].
  rewrite H in Ha. simpl in Ha.
  destruct (Py.lookup Py.lower_full_table c); [discriminate|discriminate].
Qed.

(** A title-case form does not start with two ASCII capitals, and one
    that is an ASCII capital belongs to a cased code point. *)
Lemma title_chunk_capitals c :
  match Py.to_title_full c with
  | [d] => Py.is_upper_ascii d = true -> Py.is_cased c = true
  | d1 :: d2 :: _ =>
      Py.is_upper_ascii d1 = true -> Py.is_upper_ascii d2 = false
  | [] => True
  end.
Proof.
  assert (H := to_title_full_check (fun (k : N) (m : Py.str) =>
                 match m with
                 | [d] =>
                     implb (Py.is_upper_ascii d)
                       (Py.is_cased k || (d =? k)%N)
                 | d1 :: d2 :: _ =>
                     negb (Py.is_upper_ascii d1 && Py.is_upper_ascii d2)
                 | [] => true
                 end) c
                ltac:(vm_compute; reflexivity)).
  cbv beta in H. lapply H; [clear H; intros H|].
  2:{
    intros _. rewrite N.eqb_refl, orb_true_r.
    now destruct (Py.is_upper_ascii c). }
  simpl in H.
  destruct (Py.to_title_full c) as [|d1 [|d2 m]]; [exact I| |].
  - intros Hd. rewrite Hd in H. simpl in H.
    apply orb_true_iff in H. destruct H as [H|H]; [exact H|].
    apply N.eqb_eq in H. subst d1. now apply upper_is_cased.
  - intros Hd. rewrite Hd in H. simpl in H.
    now apply negb_true_iff in H.
Qed.

(** A lower-case form does not start with an ASCII capital. *)
Lemma lower_chunk_not_capital before c rest d m :
  Py.lower_ucs4 before c rest = d :: m -> Py.is_upper_ascii d = false.
Proof.
  destruct (lower_ucs4_cases before c rest) as [[-> [E|E]]|[Hs E]];
    rewrite E; try (intros H; injection H as <- _; reflexivity).
  assert (H := to_lower_full_check (fun (k : N) (m : Py.str) =>
                 match m with
                 | d :: _ => negb (Py.is_upper_ascii d) || (d =? k)%N
                 | [] => true
                 end) c
                ltac:(vm_compute; reflexivity)).
  cbv beta in H. lapply H; [clear H; intros H|].
  2:{
    intros _. rewrite N.eqb_refl. apply orb_true_r. }
  simpl in H. intros E'. rewrite E' in H.
  apply orb_true_iff in H. destruct H as [H|H].
  - now apply negb_true_iff in H.
  - apply N.eqb_eq in H. subst d.
    destruct (Py.is_upper_ascii c) eqn:U; [|reflexivity].
    exfalso. apply (upper_has_lower c U).
    unfold Py.to_lower_full in E'.
    destruct (Py.lookup Py.lower_full_table c) as [v|] eqn:L;
      [|reflexivity].
    exfalso.
    assert (Hv : (fun (k : N) (m : Py.str) =>
                    match m with
                    | d :: _ => negb (d =? k)%N
                    | [] => true
                    end) c v = true).
    { apply lookup_In in L.
      exact (proj1 (forallb_forall
                      (fun e => match snd e with
                                | d :: _ => negb (d =? fst e)%N
                                | [] => true
                                end) Py.lower_full_table)
               ltac:(vm_compute; reflexivity) (c, v) L). }
    simpl in Hv. rewrite E' in Hv. now rewrite N.eqb_refl in Hv.
Qed.

(** [str.title] never gives two ASCII capitals at the start: the code
    point after a cased one is mapped to lower case. *)
Lemma title_second_not_upper s d1 d2 rest :
  Py.title s = d1 :: d2 :: rest ->
  Py.is_upper_ascii d1 = true -> Py.is_upper_ascii d2 = false.
Proof.
  unfold Py.title. destruct s as [|c1 s]; [discriminate|].
  unfold Py.do_title; fold Py.do_title.
  pose proof (title_chunk_capitals c1) as Hc.
  pose proof (proj1 (title_chunk_no_space c1)) as Hne.
  destruct (Py.to_title_full c1) as [|e1 [|e2 m]]; [congruence| |].
  - simpl. intros H Hd1. injection H as <- H.
    rewrite (Hc Hd1) in H. destruct s as [|c2 s]; [discriminate|].
    unfold Py.do_title in H; fold Py.do_title in H.
    pose proof (proj1 (lower_chunk_no_space [c1] c2 s)) as Hne2.
    destruct (Py.lower_ucs4 [c1] c2 s) as [|d m] eqn:E; [congruence|].
    simpl in H. injection H as <- _.
    exact (lower_chunk_not_capital _ _ _ _ _ E).
  - simpl. intros H Hd1. injection H as <- <- _. now apply Hc.
Qed.

Lemma title_not_capitals s d1 d2 rest :
  Py.is_upper_ascii d1 = true -> Py.is_upper_ascii d2 = true ->
  Py.title s <> d1 :: d2 :: rest.
Proof.
  intros H1 H2 E. rewrite (title_second_not_upper _ _ _ _ E H1) in H2.
  discriminate.
Qed.

End TitleFacts.

Module GroupFacts.

Import DF DFFacts.

Lemma count_perm (A : Type) (p : A -> bool) l l' :
  Permutation l l' -> count p l = count p l'.
Proof.
  induction 1; rewrite ?count_cons; lia.
Qed.

Section Size.

Variables A K : Type.
Variable notna : K -> bool.
Variables keqb kle : K -> K -> bool.
Variable key : A -> K.

Hypothesis keqb_sym : forall a b, keqb a b = keqb b a.
Hypothesis keqb_trans :
  forall a b c, keqb a b = true -> keqb b c = true -> keqb a c = true.
Hypothesis keqb_refl : forall a, notna a = true -> keqb a a = true.
Hypothesis keqb_notna :
  forall a b, notna a = true -> keqb a b = true -> notna b = true.

Lemma groupby_size_In k n l :
  In (k, n) (groupby_size notna keqb kle key l) ->
  notna k = true /\ (exists r, In r l /\ key r = k) /\
  n = count (fun r => keqb k (key r)) l.
Proof.
  unfold groupby_size. intros H.
  apply in_map_iff in H. destruct H as (k' & E & H).
  injection E as -> <-.
  apply sort_values_In, drop_duplicates_In, filter_In in H.
  destruct H as [H Hk]. apply in_map_iff in H.
  destruct H as (r & <- & Hr).
  split; [exact Hk|]. split; [eauto|].
  rewrite count_filter by eauto.
  apply count_map.
Qed.

Lemma groupby_size_complete r l :
  In r l -> notna (key r) = true ->
  exists k,
    In (k, count (fun x => keqb k (key x)) l)
      (groupby_size notna keqb kle key l)
    /\ keqb (key r) k = true /\ notna k = true.
Proof.
  intros Hr Hn. unfold groupby_size.
  set (keys := filter notna (map key l)).
  assert (Hk : In (key r) keys).
  { apply filter_In. split; [now apply in_map|exact Hn]. }
  destruct (drop_duplicates_complete _ keqb keqb_sym keqb_trans _ _ Hk
              (keqb_refl _ Hn)) as (d & Hd & Hs).
  exists d. split; [|split; [exact Hs | eauto]].
  apply in_map_iff. exists d. split.
  - f_equal. unfold keys. rewrite count_filter by eauto.
    apply count_map.
  - now apply sort_values_In.
Qed.

Lemma count_keqb_ext k k' l :
  keqb k k' = true ->
  count (fun r => keqb k (key r)) l = count (fun r => keqb k' (key r)) l.
Proof.
  intros H. apply count_ext_in. intros x _.
  destruct (keqb k (key x)) eqn:E1, (keqb k' (key x)) eqn:E2;
    try reflexivity.
  - rewrite keqb_sym in H. rewrite (keqb_trans _ _ _ H E1) in E2.
    discriminate.
  - rewrite (keqb_trans _ _ _ H E2) in E1. discriminate.
Qed.

End Size.

End GroupFacts.

Module DominanceFacts.

Import Main DF DFFacts GroupFacts KeyFacts.

Lemma by_state_year_seats_total a b :
  by_state_year_seats a b = true \/ by_state_year_seats b a = true.
Proof.
  apply lex_total; [intros; apply opt_asc_le_total|].
  apply lex_total; [intros; apply F64Facts.asc_le_total|].
  intros x y. rewrite !Nat.leb_le. lia.
Qed.

Lemma by_state_year_seats_trans a b c :
  by_state_year_seats a b = true -> by_state_year_seats b c = true ->
  by_state_year_seats a c = true.
Proof.
  apply lex_trans; [intros ? ? ?; apply opt_asc_le_trans|].
  apply lex_trans; [intros ? ? ?; apply F64Facts.asc_le_trans|].
  intros x y z. rewrite !Nat.leb_le. lia.
Qed.

Lemma same_state_year_sym a b : same_state_year a b = same_state_year b a.
Proof.
  unfold same_state_year. now rewrite opt_eqb_sym, dup_eqb_sym.
Qed.

Lemma same_state_year_trans a b c :
  same_state_year a b = true -> same_state_year b c = true ->
  same_state_year a c = true.
Proof.
  unfold same_state_year. rewrite !andb_true_iff, !opt_eqb_eq.
  intros [-> H1] [-> H2]. split; [reflexivity|].
  eapply dup_eqb_trans; eauto.
Qed.

Lemma df_dom_In r df :
  In r (df_dom df) <->
  In r df /\
  notna_str (state r) && notna_str (party r) && F64.notna (year r) = true.
Proof. unfold df_dom. rewrite filter_In. reflexivity. Qed.

(** The keys of the rows, counted on the rows. *)
Lemma count_state_year_party (p : key3 -> bool) l :
  count p (flat_map state_year_party l)
  = count (fun r => existsb p (state_year_party r)) l.
Proof.
  induction l as [|r l IH]; [reflexivity|].
  rewrite count_cons, <- IH.
  change (flat_map state_year_party (r :: l))
    with (state_year_party r ++ flat_map state_year_party l).
  destruct (state_year_party r) as [|k [|k' ks]] eqn:E.
  - reflexivity.
  - simpl app. rewrite count_cons. simpl. now rewrite orb_false_r.
  - unfold state_year_party in E. destruct (party r); discriminate E.
Qed.

Lemma state_year_party_In k r :
  In k (state_year_party r) <->
  exists q, party r = Some q /\ k = (state r, year r, q).
Proof.
  unfold state_year_party. destruct (party r) as [q|]; simpl.
  - split.
    + intros [<-|[]]. eauto.
    + intros (q' & E & ->). injection E as ->. now left.
  - split; [tauto|]. intros (q' & E & _). discriminate.
Qed.

(** The rows [seats_won] counts are the rows with the key. *)
Lemma seats_won_keys df s y p :
  seats_won df s y p
  = count (fun r => existsb (key3_eqb (s, y, p)) (state_year_party r)) df.
Proof.
  unfold seats_won. apply count_ext_in. intros r _.
  unfold state_year_party. destruct (party r) as [q|]; simpl.
  - now rewrite orb_false_r.
  - now rewrite andb_false_r.
Qed.

(** The rows of [seat_counts]: one for each state, year and party of a
    row of the table, with the number of rows it stands for. *)
Lemma seat_counts_In d df :
  In d (seat_counts (df_dom df)) ->
  key3_notna (s_state d, s_year d, s_party d) = true /\
  seats d = seats_won df (s_state d) (s_year d) (s_party d).
Proof.
  unfold seat_counts. intros H. apply in_map_iff in H.
  destruct H as ([[[s y] p] n] & <- & H). simpl.
  apply (groupby_size_In _ _ _ _ _ _ key3_eqb_notna) in H.
  destruct H as (Hk & _ & ->). split; [exact Hk|].
  rewrite seats_won_keys.
  rewrite (count_state_year_party (fun k => key3_eqb (s, y, p) k)).
  unfold df_dom. apply count_filter.
  intros x _ Hx. apply existsb_exists in Hx. destruct Hx as (k & Hin & Hx).
  apply state_year_party_In in Hin. destruct Hin as (q & Hq & ->).
  pose proof (key3_eqb_notna _ _ Hk Hx) as Hn. simpl in Hn.
  rewrite Hq. simpl. apply andb_true_iff in Hn. destruct Hn as [-> ->].
  reflexivity.
Qed.

Lemma seat_counts_complete r q df :
  In r df -> party r = Some q ->
  key3_notna (state r, year r, q) = true ->
  exists d, In d (seat_counts (df_dom df)) /\
    key3_eqb (state r, year r, q) (s_state d, s_year d, s_party d) = true.
Proof.
  intros Hr Hq Hn.
  destruct (groupby_size_complete _ _ key3_notna key3_eqb key3_le
              (fun k : key3 => k)
              key3_eqb_sym key3_eqb_trans key3_eqb_refl key3_eqb_notna
              (state r, year r, q)
              (flat_map state_year_party (df_dom df)))
    as (k & Hk & He & _).
  { apply in_flat_map. exists r. split.
    - apply df_dom_In. split; [exact Hr|].
      simpl in Hn. apply andb_true_iff in Hn. destruct Hn as [-> ->].
      now rewrite Hq.
    - apply state_year_party_In. eauto. }
  { exact Hn. }
  destruct k as [[s y] p].
  eexists (mk_seats_row s y p _). split; [|exact He].
  unfold seat_counts. apply in_map_iff.
  eexists. split; [|exact Hk]. reflexivity.
Qed.

Lemma seats_won_ext df s y p s' y' p' :
  key3_eqb (s, y, p) (s', y', p') = true ->
  seats_won df s y p = seats_won df s' y' p'.
Proof.
  intros H. rewrite !seats_won_keys.
  apply count_ext_in. intros r _.
  unfold state_year_party. destruct (party r) as [q|]; [|reflexivity].
  cbn [existsb]. rewrite !orb_false_r.
  destruct (key3_eqb (s, y, p) (state r, year r, q)) eqn:E1,
    (key3_eqb (s', y', p') (state r, year r, q)) eqn:E2; try reflexivity.
  - rewrite key3_eqb_sym in H. rewrite (key3_eqb_trans _ _ _ H E1) in E2.
    discriminate.
  - rewrite (key3_eqb_trans _ _ _ H E2) in E1. discriminate.
Qed.

Lemma dominant_split d df :
  In d (dominant df) ->
  exists l1 l2,
    sort_values by_state_year_seats (seat_counts (df_dom df))
    = l1 ++ d :: l2 /\
    forall g, In g l1 -> same_state_year d g = false.
Proof.
  intros H. apply drop_duplicates_from_split in H.
  destruct H as (l1 & l2 & E & Hno). exists l1, l2. split; auto.
Qed.

(** A row of [dominant] stands before every row of its state and year
    in the sorted seat counts, so it has at least as many seats. *)
Lemma dominant_most d g df :
  In d (dominant df) -> In g (seat_counts (df_dom df)) ->
  same_state_year d g = true ->
  s_state g <> None -> F64.isna (s_year g) = false ->
  seats g <= seats d.
Proof.
  intros Hd Hg Hsame Hs Hy.
  destruct (dominant_split _ _ Hd) as (l1 & l2 & E & Hno).
  assert (Hg' : In g (l1 ++ d :: l2)).
  { rewrite <- E. now apply sort_values_In. }
  apply in_app_or in Hg'. destruct Hg' as [Hg'|[<-|Hg']].
  - rewrite (Hno _ Hg') in Hsame. discriminate.
  - lia.
  - assert (Hle : by_state_year_seats d g = true).
    { apply (sorted_app_le _ by_state_year_seats (l1 ++ [d]) l2).
      - rewrite <- app_assoc. simpl. rewrite <- E.
        apply sort_values_sorted.
        + apply by_state_year_seats_total.
        + apply by_state_year_seats_trans.
      - apply in_or_app. right. now left.
      - exact Hg'. }
    unfold same_state_year in Hsame. apply andb_true_iff in Hsame.
    destruct Hsame as [H1 H2]. apply opt_eqb_eq in H1.
    rewrite dup_eqb_sym, dup_eqb_key in H2 by exact Hy.
    assert (T1 : opt_asc_le (s_state g) (s_state d) = true)
      by (rewrite H1; apply opt_asc_le_refl).
    assert (T2 : F64.asc_le (s_year g) (s_year d) = true)
      by now apply F64Facts.key_eqb_asc_le.
    unfold by_state_year_seats, lex in Hle. rewrite T1, T2 in Hle.
    simpl in Hle. rewrite !andb_true_iff in Hle.
    destruct Hle as (_ & _ & Hle).
    now apply Nat.leb_le.
Qed.

End DominanceFacts.

Module Dominance.

Import Main DF DFFacts GroupFacts KeyFacts DominanceFacts.

(** C1. Every row that [dominant] retains carries the number of
    constituencies its party won in its state and year, and no party
    won more constituencies in that state and year. *)
Theorem dominant_has_most_seats (df : list row) (d : seats_row) :
  In d (dominant df) ->
  seats d = seats_won df (s_state d) (s_year d) (s_party d) /\
  forall q : Py.str, seats_won df (s_state d) (s_year d) q <= seats d.
Proof.
  intros Hd.
  assert (Hsc : In d (seat_counts (df_dom df))).
  { unfold dominant in Hd. apply drop_duplicates_In in Hd.
    now apply sort_values_In in Hd. }
  destruct (seat_counts_In _ _ Hsc) as [Hna Hseats].
  split; [exact Hseats|]. intros q.
  destruct (seats_won df (s_state d) (s_year d) q) eqn:Hq; [lia|].
  rewrite <- Hq.
  assert (Hpos : 0 < seats_won df (s_state d) (s_year d) q) by lia.
  apply count_pos in Hpos. destruct Hpos as (r & Hr & Hkey).
  assert (Hnaq : key3_notna (s_state d, s_year d, q) = true)
    by exact Hna.
  assert (Hpr : party r = Some q).
  { apply andb_true_iff in Hkey. destruct Hkey as [_ Hkey].
    apply opt_eqb_eq in Hkey. now symmetry. }
  assert (Hkey' : key3_eqb (s_state d, s_year d, q)
                    (state r, year r, q) = true).
  { simpl. apply andb_true_iff in Hkey. destruct Hkey as [-> _].
    apply PyFacts.eqb_refl. }
  clear Hkey. rename Hkey' into Hkey.
  pose proof (key3_eqb_notna _ _ Hnaq Hkey) as Hnar.
  destruct (seat_counts_complete _ _ _ Hr Hpr Hnar) as (g & Hg & Hrg).
  pose proof (key3_eqb_trans _ _ _ Hkey Hrg) as Hdg.
  destruct (seat_counts_In _ _ Hg) as [Hnag Hsg].
  rewrite (seats_won_ext df _ _ _ _ _ _ Hdg), <- Hsg.
  simpl in Hdg, Hnag. rewrite !andb_true_iff in Hdg.
  rewrite !andb_true_iff in Hnag.
  destruct Hdg as [[Hs Hy] _]. destruct Hnag as [Hgs Hgy].
  apply (dominant_most d g df Hd Hg).
  - unfold same_state_year. rewrite Hs. simpl.
    unfold F64.dup_eqb. fold (F64.key_eqb (s_year d) (s_year g)).
    now rewrite Hy.
  - destruct (s_state g); [discriminate|discriminate].
  - unfold F64.notna in Hgy. now apply negb_true_iff in Hgy.
Qed.

Lemma dominant_has_most_seats_witness :
  In Sample.dominant_UP_2019 (dominant Sample.df_UP_2019) /\
  (seats Sample.dominant_UP_2019 =
     seats_won Sample.df_UP_2019 (s_state Sample.dominant_UP_2019)
       (s_year Sample.dominant_UP_2019) (s_party Sample.dominant_UP_2019)
   /\ forall q : Py.str,
       seats_won Sample.df_UP_2019 (s_state Sample.dominant_UP_2019)
         (s_year Sample.dominant_UP_2019) q
       <= seats Sample.dominant_UP_2019).
Proof.
  split.
  - vm_compute. left. reflexivity.
  - apply (dominant_has_most_seats Sample.df_UP_2019
             Sample.dominant_UP_2019).
    vm_compute. left. reflexivity.
Defined.

Lemma same_state_year_refl g :
  F64.isna (s_year g) = false -> same_state_year g g = true.
Proof.
  intros H. unfold same_state_year.
  rewrite opt_eqb_refl, dup_eqb_key by exact H.
  now apply F64Facts.key_eqb_refl.
Qed.

(** C10. [dominant] has (state, year) as a key: a state and year of
    a row with a state, a party and a year has exactly one row in
    [dominant], whatever the ties between parties; and
    [times_dominated] of a state and party is the number of rows of
    [dominant] with that state and party, so a state and year is
    counted once. *)
Theorem dominant_one_row_per_state_year (df : list row) (r : row) :
  In r df -> notna_str (state r) = true ->
  notna_str (party r) = true -> F64.notna (year r) = true ->
  count (fun d => opt_eqb (s_state d) (state r)
                  && F64.key_eqb (s_year d) (year r)) (dominant df) = 1
  /\ forall m, In m (state_party_dominance df) ->
       times_dominated m =
       count (fun d => key2_eqb (dm_state m, dm_party m)
                         (s_state d, s_party d)) (dominant df).
Proof.
  intros Hr Hs Hp Hy. split.
  - destruct (party r) as [q|] eqn:Hq; [|discriminate Hp].
    assert (Hn : key3_notna (state r, year r, q) = true).
    { simpl. now rewrite Hs, Hy. }
    destruct (seat_counts_complete _ _ _ Hr Hq Hn) as (g & Hg & Hrg).
    destruct (seat_counts_In _ _ Hg) as [Hnag _].
    simpl in Hnag, Hrg. rewrite !andb_true_iff in Hnag.
    rewrite !andb_true_iff in Hrg.
    destruct Hnag as [_ Hgy]. destruct Hrg as [[Hs' Hy'] _].
    unfold F64.notna in Hgy. apply negb_true_iff in Hgy.
    apply opt_eqb_eq in Hs'.
    rewrite (count_ext_in _ _ (same_state_year g)).
    + unfold dominant. apply count_drop_duplicates.
      * apply same_state_year_sym.
      * apply same_state_year_trans.
      * apply existsb_exists. exists g. split.
        -- now apply sort_values_In.
        -- now apply same_state_year_refl.
    + intros d _. unfold same_state_year.
      rewrite dup_eqb_key by exact Hgy.
      rewrite Hs', (opt_eqb_sym (s_state d)). f_equal.
      rewrite (F64Facts.key_eqb_sym (s_year d)).
      destruct (F64.key_eqb (year r) (s_year d)) eqn:E1,
        (F64.key_eqb (s_year g) (s_year d)) eqn:E2; try reflexivity.
      -- rewrite F64Facts.key_eqb_sym in Hy'.
         rewrite (F64Facts.key_eqb_trans _ _ _ Hy' E1) in E2.
         discriminate.
      -- rewrite (F64Facts.key_eqb_trans _ _ _ Hy' E2) in E1.
         discriminate.
  - intros m Hm. unfold state_party_dominance in Hm.
    apply in_map_iff in Hm. destruct Hm as ([[s p] n] & <- & Hm).
    simpl.
    apply (groupby_size_In _ _ key2_notna key2_eqb key2_le) in Hm.
    + destruct Hm as (_ & _ & ->). reflexivity.
    + intros a b Ha Hab. apply key2_eqb_eq in Hab. now subst.
Qed.

Lemma dominant_one_row_per_state_year_witness :
  In Sample.row_agra Sample.df_UP_2019 /\
  notna_str (state Sample.row_agra) = true /\
  notna_str (party Sample.row_agra) = true /\
  F64.notna (year Sample.row_agra) = true /\
  (count (fun d => opt_eqb (s_state d) (state Sample.row_agra)
                   && F64.key_eqb (s_year d) (year Sample.row_agra))
     (dominant Sample.df_UP_2019) = 1
   /\ forall m, In m (state_party_dominance Sample.df_UP_2019) ->
        times_dominated m =
        count (fun d => key2_eqb (dm_state m, dm_party m)
                          (s_state d, s_party d))
          (dominant Sample.df_UP_2019)).
Proof.
  assert (Hin : In Sample.row_agra Sample.df_UP_2019)
    by (vm_compute; left; reflexivity).
  assert (Hs : notna_str (state Sample.row_agra) = true) by reflexivity.
  assert (Hp : notna_str (party Sample.row_agra) = true) by reflexivity.
  assert (Hy : F64.notna (year Sample.row_agra) = true) by reflexivity.
  repeat split; try assumption;
    now apply (dominant_one_row_per_state_year Sample.df_UP_2019
                 Sample.row_agra).
Defined.

(** Under pandas 3 a state and year whose only result has no party
    in the file has no row in [dominant]; under pandas 2 the party of
    that result is the text ["Nan"]. *)
Example dominant_without_party :
  dominant (clean (df_loaded pandas_3 Sample.to_numeric
                     [Sample.raw_agra_no_party])) = []
  /\ dominant (clean (df_loaded pandas_2 Sample.to_numeric
                        [Sample.raw_agra_no_party]))
     = [mk_seats_row (Sample.text "Uttar Pradesh") 2019 (Py.lit "Nan") 1].
Proof. split; vm_compute; reflexivity. Qed.

End Dominance.

Module Sunburst.

Import Main DF DFFacts GroupFacts KeyFacts.

Lemma key2_eqb_refl a : key2_eqb a a = true.
Proof. now apply key2_eqb_eq. Qed.

Lemma key2_eqb_notna a b :
  key2_notna a = true -> key2_eqb a b = true -> key2_notna b = true.
Proof. intros Ha Hab. apply key2_eqb_eq in Hab. now subst. Qed.

(** The keys of the rows, counted on the rows. *)
Lemma count_candidate_party (p : key2 -> bool) l :
  count p (flat_map candidate_party l)
  = count (fun r => existsb p (candidate_party r)) l.
Proof.
  induction l as [|r l IH]; [reflexivity|].
  rewrite count_cons, <- IH.
  change (flat_map candidate_party (r :: l))
    with (candidate_party r ++ flat_map candidate_party l).
  destruct (candidate_party r) as [|k [|k' ks]] eqn:E.
  - reflexivity.
  - simpl app. rewrite count_cons. simpl. now rewrite orb_false_r.
  - unfold candidate_party in E. destruct (party r); discriminate E.
Qed.

Lemma times_won_keys df c p :
  times_won df c p
  = count (key2_eqb (Some c, p)) (flat_map candidate_party df).
Proof.
  rewrite count_candidate_party. unfold times_won.
  apply count_ext_in. intros r _.
  unfold candidate_party. destruct (party r) as [q|]; simpl.
  - now rewrite orb_false_r.
  - now rewrite andb_false_r.
Qed.

Lemma candidate_wins_In w df :
  In w (candidate_wins df) <->
  exists c, w_candidate_name w = Some c /\
    wins w = times_won df c (w_party w) /\ 0 < wins w.
Proof.
  unfold candidate_wins. rewrite in_map_iff. split.
  - intros ([[c p] n] & <- & H). simpl.
    apply (groupby_size_In _ _ _ _ _ _ key2_eqb_notna) in H.
    destruct H as (Hna & (r & Hr & Hk) & ->).
    destruct c as [c|]; [|discriminate].
    exists c. rewrite times_won_keys.
    split; [reflexivity|]. split; [reflexivity|].
    apply count_pos. exists r. split; [exact Hr|].
    rewrite Hk. apply key2_eqb_refl.
  - intros (c & Hc & Hw & Hpos). destruct w as [p c' n].
    simpl in *. subst c'. rewrite Hw in Hpos.
    rewrite times_won_keys in Hw, Hpos.
    apply count_pos in Hpos. destruct Hpos as (r & Hr & Hk).
    apply key2_eqb_eq in Hk.
    destruct (groupby_size_complete _ _ key2_notna key2_eqb key2_le
                (fun k : key2 => k) key2_eqb_sym key2_eqb_trans
                (fun a _ => key2_eqb_refl a) key2_eqb_notna r
                (flat_map candidate_party df) Hr)
      as (k & Hin & He & _).
    { now rewrite <- Hk. }
    apply key2_eqb_eq in He. rewrite <- Hk in He. subst k.
    exists (Some c, p, n). split; [reflexivity|].
    rewrite Hw. exact Hin.
Qed.

(** C8. [sunburst_data] holds exactly the pairs of a party and a
    candidate name that occur more than 5 times in the table, each
    with the number of its occurrences; a row without a candidate
    name, or without a party, belongs to no pair. *)
Theorem sunburst_data_more_than_5 (df : list row) :
  (forall p c n,
      In (mk_wins_row p (Some c) n) (sunburst_data df) <->
      n = times_won df c p /\ 5 < n)
  /\ (forall w, In w (sunburst_data df) -> w_candidate_name w <> None).
Proof.
  unfold sunburst_data. split.
  - intros p c n. rewrite filter_In, candidate_wins_In. simpl.
    rewrite Nat.ltb_lt. split.
    + intros [(c' & Hc & Hn & _) H5]. injection Hc as <-. auto.
    + intros [Hn H5]. split; [|exact H5].
      exists c. repeat split; [exact Hn | lia].
  - intros w Hw. apply filter_In in Hw. destruct Hw as [Hw _].
    apply candidate_wins_In in Hw. destruct Hw as (c & -> & _).
    discriminate.
Qed.

(** A candidate with six rows is in [sunburst_data], one with five is
    not. *)
Example sunburst_data_six_rows :
  let r (c : String.string) :=
    mk_row None nan (Sample.text "INC") None (Sample.text c) nan nan nan nan
      None
  in
  sunburst_data (repeat (r "A"%string) 6 ++ repeat (r "B"%string) 5)
  = [mk_wins_row (Py.lit "INC") (Sample.text "A") 6].
Proof. reflexivity. Qed.

End Sunburst.

Module TurnoutTop.

Import Main DF DFFacts GroupFacts KeyFacts.

Lemma by_state_year_Turnout_total a b :
  by_state_year_Turnout a b = true \/ by_state_year_Turnout b a = true.
Proof.
  apply lex_total; [intros; apply opt_asc_le_total|].
  apply lex_total; [intros; apply F64Facts.asc_le_total|].
  intros; apply F64Facts.desc_le_total.
Qed.

Lemma by_state_year_Turnout_trans a b c :
  by_state_year_Turnout a b = true -> by_state_year_Turnout b c = true ->
  by_state_year_Turnout a c = true.
Proof.
  apply lex_trans; [intros ? ? ?; apply opt_asc_le_trans|].
  apply lex_trans; [intros ? ? ?; apply F64Facts.asc_le_trans|].
  intros ? ? ?; apply F64Facts.desc_le_trans.
Qed.

Lemma same_group_sym a b : same_group a b = same_group b a.
Proof.
  unfold same_group. now rewrite opt_eqb_sym, F64Facts.key_eqb_sym.
Qed.

Lemma same_group_trans a b c :
  same_group a b = true -> same_group b c = true -> same_group a c = true.
Proof.
  unfold same_group. rewrite !andb_true_iff, !opt_eqb_eq.
  intros [-> H1] [-> H2]. split; [reflexivity|].
  eapply F64Facts.key_eqb_trans; eauto.
Qed.

(** The rows of state [s] and year [y] are the rows of the group of
    any row with that state and year. *)
Lemma in_group_same s y r :
  in_group s y r = same_group (mk_row (Some s) y None None None y y y y None) r.
Proof.
  unfold in_group, same_group. simpl.
  now rewrite opt_eqb_sym, F64Facts.key_eqb_sym.
Qed.

Lemma in_group_has_state_year s y r :
  in_group s y r = true -> has_state_year r = true.
Proof.
  unfold in_group, has_state_year. rewrite !andb_true_iff, opt_eqb_eq.
  intros [-> H]. split; [reflexivity|].
  apply F64Facts.key_eqb_notna in H. unfold F64.notna.
  destruct H as [-> _]. reflexivity.
Qed.

Lemma filter_in_group_turnout_top s y df :
  filter (in_group s y) (turnout_top df) =
  firstn 10
    (filter (in_group s y) (sort_values by_state_year_Turnout df)).
Proof.
  rewrite !(filter_ext _ _ (in_group_same s y)).
  unfold turnout_top. apply filter_groupby_head.
  - apply same_group_sym.
  - apply same_group_trans.
  - intros x Hx. rewrite <- in_group_same in Hx.
    now apply in_group_has_state_year in Hx.
Qed.

Lemma in_group_tie s y i e :
  in_group s y i = true -> in_group s y e = true ->
  by_state_year_Turnout i e = true ->
  F64.desc_le (Turnout i) (Turnout e) = true.
Proof.
  unfold in_group. rewrite !andb_true_iff, !opt_eqb_eq.
  intros [Hsi Hyi] [Hse Hye] Hle.
  assert (T1 : opt_asc_le (state e) (state i) = true)
    by (rewrite Hsi, Hse; apply opt_asc_le_refl).
  assert (T2 : F64.asc_le (year e) (year i) = true).
  { apply F64Facts.key_eqb_asc_le.
    rewrite F64Facts.key_eqb_sym in Hyi.
    eapply F64Facts.key_eqb_trans; eauto. }
  unfold by_state_year_Turnout, lex in Hle. rewrite T1, T2 in Hle.
  simpl in Hle. rewrite !andb_true_iff in Hle.
  destruct Hle as (_ & _ & Hle). exact Hle.
Qed.

(** C4, as the code has it. For every state and year, [turnout_top]
    holds min(10, group size) rows of the group, all of them rows of
    the table, and a row it holds has a turnout at least that of every
    row of the group it leaves out whose turnout is a number. (A
    turnout that is NaN, from 0 votes over 0 electors, sorts last.) *)
Theorem turnout_top_ten_per_group (df : list row) (s : Py.str) (y : float) :
  count (in_group s y) (turnout_top df)
  = Nat.min 10 (count (in_group s y) df)
  /\ (forall i, In i (turnout_top df) -> In i df)
  /\ (forall i e,
        In i (turnout_top df) -> in_group s y i = true ->
        In e df -> in_group s y e = true -> ~ In e (turnout_top df) ->
        F64.notna (Turnout e) = true ->
        (Turnout e <=? Turnout i)%float = true).
Proof.
  pose proof (filter_in_group_turnout_top s y df) as Htop.
  set (sorted := sort_values by_state_year_Turnout df) in *.
  set (L := filter (in_group s y) sorted) in *.
  split; [|split].
  - unfold count at 1. rewrite Htop, length_firstn. f_equal.
    symmetry. apply count_perm. apply sort_values_perm.
  - intros i Hi. unfold turnout_top, groupby_head in Hi.
    apply groupby_head_from_In in Hi. destruct Hi as [Hi _].
    now apply sort_values_In in Hi.
  - intros i e Hi Hgi He Hge Hout Hnum.
    assert (HiL : In i (firstn 10 L)).
    { rewrite <- Htop. apply filter_In. auto. }
    assert (HeL : In e (skipn 10 L)).
    { assert (H : In e L).
      { apply filter_In. split; [|exact Hge].
        now apply sort_values_In. }
      rewrite <- (firstn_skipn 10 L) in H. apply in_app_or in H.
      destruct H as [H|H]; [|exact H].
      exfalso. apply Hout. rewrite <- Htop in H.
      apply filter_In in H. tauto. }
    assert (Hle : by_state_year_Turnout i e = true).
    { apply (sorted_app_le _ by_state_year_Turnout
               (firstn 10 L) (skipn 10 L)); auto.
      rewrite firstn_skipn. apply sorted_filter.
      apply sort_values_sorted.
      - apply by_state_year_Turnout_total.
      - apply by_state_year_Turnout_trans. }
    pose proof (in_group_tie s y i e Hgi Hge Hle) as Hd.
    unfold F64.desc_le in Hd. unfold F64.notna in Hnum.
    apply negb_true_iff in Hnum. rewrite Hnum in Hd.
    destruct (F64.isna (Turnout i)); [discriminate|exact Hd].
Qed.

Lemma turnout_top_ten_per_group_witness :
  In Sample.row_kasaragod (turnout_top Sample.df_kerala_2019) /\
  in_group Sample.Kerala 2019 Sample.row_kasaragod = true /\
  In Sample.row_ernakulam Sample.df_kerala_2019 /\
  in_group Sample.Kerala 2019 Sample.row_ernakulam = true /\
  ~ In Sample.row_ernakulam (turnout_top Sample.df_kerala_2019) /\
  F64.notna (Turnout Sample.row_ernakulam) = true /\
  count (in_group Sample.Kerala 2019) (turnout_top Sample.df_kerala_2019)
  = Nat.min 10 (count (in_group Sample.Kerala 2019) Sample.df_kerala_2019)
  /\ (Turnout Sample.row_ernakulam <=? Turnout Sample.row_kasaragod)%float
     = true.
Proof.
  assert (Hi : In Sample.row_kasaragod (turnout_top Sample.df_kerala_2019))
    by (vm_compute; left; reflexivity).
  assert (He : In Sample.row_ernakulam Sample.df_kerala_2019)
    by (vm_compute; do 11 right; left; reflexivity).
  assert (Hout :
    ~ In Sample.row_ernakulam (turnout_top Sample.df_kerala_2019)).
  { intros H. vm_compute in H.
    repeat (destruct H as [H|H]; [discriminate H|]). exact H. }
  destruct (turnout_top_ten_per_group Sample.df_kerala_2019
              Sample.Kerala 2019) as (Hcount & _ & Hge).
  assert (Hgi : in_group Sample.Kerala 2019 Sample.row_kasaragod = true)
    by reflexivity.
  assert (Hge' : in_group Sample.Kerala 2019 Sample.row_ernakulam = true)
    by reflexivity.
  assert (Hnum : F64.notna (Turnout Sample.row_ernakulam) = true)
    by reflexivity.
  repeat (split; [assumption|]).
  exact (Hge _ _ Hi Hgi He Hge' Hout Hnum).
Defined.

(** C4, as it is stated, fails on a group with a turnout that is NaN:
    the row of Wayanad, with 0 votes and 0 electors, is left out of the
    ten rows of its group, and the turnout of a row that is kept is
    not greater than or equal to NaN. *)
Lemma turnout_top_leaves_out_nan :
  In Sample.row_kasaragod (turnout_top Sample.df_kerala_2019) /\
  in_group Sample.Kerala 2019 Sample.row_kasaragod = true /\
  In Sample.row_wayanad Sample.df_kerala_2019 /\
  in_group Sample.Kerala 2019 Sample.row_wayanad = true /\
  ~ In Sample.row_wayanad (turnout_top Sample.df_kerala_2019) /\
  (Turnout Sample.row_wayanad <=? Turnout Sample.row_kasaragod)%float
  = false.
Proof.
  repeat split.
  - vm_compute. left. reflexivity.
  - vm_compute. do 3 right. left. reflexivity.
  - intros H. vm_compute in H.
    repeat (destruct H as [H|H]; [discriminate H|]). exact H.
Qed.

End TurnoutTop.

Module MarginBuckets.

Import Main F64 F64Facts.

Lemma leb_ltb_eqb a b : (a <=? b)%float = (a <? b)%float || (a =? b)%float.
Proof.
  rewrite leb_cmp, ltb_cmp, eqb_cmp. destruct (cmp a b) as [[]|]; reflexivity.
Qed.

Lemma float_eqb_sym a b : (a =? b)%float = (b =? a)%float.
Proof. apply key_eqb_sym. Qed.

Lemma ltb_not_eqb a b : (a <? b)%float = true -> (b =? a)%float = false.
Proof.
  rewrite ltb_cmp, eqb_cmp, (cmp_antisym a b).
  destruct (cmp a b) as [[]|]; simpl; congruence.
Qed.

Lemma not_ltb_not_eqb a b :
  F64.isna a = false -> F64.isna b = false ->
  (a <? b)%float = false -> (b =? a)%float = false -> (b <? a)%float = true.
Proof.
  intros Ha Hb. rewrite !ltb_cmp, eqb_cmp, (cmp_antisym a b).
  destruct (cmp_some a b Ha Hb) as [c ->]. destruct c; simpl; congruence.
Qed.

Lemma isna_compare x a :
  F64.isna x = true ->
  (a <? x)%float = false /\ (x <? a)%float = false /\ (x <=? a)%float = false /\
  (a <=? x)%float = false /\ (x =? a)%float = false.
Proof.
  intros H. repeat split.
  - destruct (a <? x)%float eqn:E; [|reflexivity].
    apply ltb_notna in E. destruct E; congruence.
  - destruct (x <? a)%float eqn:E; [|reflexivity].
    apply ltb_notna in E. destruct E; congruence.
  - destruct (x <=? a)%float eqn:E; [|reflexivity].
    apply leb_notna in E. destruct E; congruence.
  - destruct (a <=? x)%float eqn:E; [|reflexivity].
    apply leb_notna in E. destruct E; congruence.
  - destruct (x =? a)%float eqn:E; [|reflexivity].
    apply key_eqb_notna in E. destruct E; congruence.
Qed.

Lemma leb_edge x e :
  F64.isna x = false -> F64.isna e = false ->
  (x <=? e)%float = negb (e <? x)%float.
Proof.
  intros Hx He. rewrite (ltb_leb e x He Hx). now rewrite negb_involutive.
Qed.

(** The edges of [bins] ascend, so the edges below a margin are the
    first [n] ones, for some [n]. *)
Lemma edges_below x :
  F64.isna x = false ->
  exists n, n <= 10 /\
    forall j, j < 10 -> (edge j <? x)%float = (j <? n)%nat.
Proof.
  intros Hna.
  assert (Hgoal : forall n,
    n <= 10 ->
    (forall j, j < 10 -> (j <? n)%nat = false -> (edge j <? x)%float = false) ->
    (n = 0 \/ (edge (pred n) <? x)%float = true) ->
    exists n, n <= 10 /\
      forall j, j < 10 -> (edge j <? x)%float = (j <? n)%nat).
  { intros n Hn Habove Hbelow. exists n. split; [exact Hn|].
    intros j Hj. destruct (j <? n)%nat eqn:E.
    - apply Nat.ltb_lt in E.
      destruct Hbelow as [->|Hbelow]; [lia|].
      destruct (Nat.eq_dec j (pred n)) as [->|Hne]; [exact Hbelow|].
      apply (ltb_trans _ (edge (pred n)) x); [|exact Hbelow].
      assert (Hlt : j < pred n) by lia. clear - Hlt Hn.
      do 10 (destruct j as [|j];
             [do 11 (destruct n as [|n]; [try lia; reflexivity|]); lia|]).
      lia.
    - now apply Habove. }
  unfold edge, bins in Hgoal. simpl nth in Hgoal.
  destruct (100 <? x)%float eqn:E9.
  { apply (Hgoal 10); [lia| |right; exact E9].
    intros j Hj Hf. apply Nat.ltb_ge in Hf. lia. }
  destruct (50 <? x)%float eqn:E8.
  { apply (Hgoal 9); [lia| |right; exact E8].
    intros j Hj Hf. apply Nat.ltb_ge in Hf.
    do 9 (destruct j as [|j]; [lia|]).
    destruct j; [assumption|lia]. }
  destruct (40 <? x)%float eqn:E7.
  { apply (Hgoal 8); [lia| |right; exact E7].
    intros j Hj Hf. apply Nat.ltb_ge in Hf.
    do 8 (destruct j as [|j]; [lia|]).
    do 2 (destruct j as [|j]; [assumption|]). lia. }
  destruct (30 <? x)%float eqn:E6.
  { apply (Hgoal 7); [lia| |right; exact E6].
    intros j Hj Hf. apply Nat.ltb_ge in Hf.
    do 7 (destruct j as [|j]; [lia|]).
    do 3 (destruct j as [|j]; [assumption|]). lia. }
  destruct (20 <? x)%float eqn:E5.
  { apply (Hgoal 6); [lia| |right; exact E5].
    intros j Hj Hf. apply Nat.ltb_ge in Hf.
    do 6 (destruct j as [|j]; [lia|]).
    do 4 (destruct j as [|j]; [assumption|]). lia. }
  destruct (15 <? x)%float eqn:E4.
  { apply (Hgoal 5); [lia| |right; exact E4].
    intros j Hj Hf. apply Nat.ltb_ge in Hf.
    do 5 (destruct j as [|j]; [lia|]).
    do 5 (destruct j as [|j]; [assumption|]). lia. }
  destruct (10 <? x)%float eqn:E3.
  { apply (Hgoal 4); [lia| |right; exact E3].
    intros j Hj Hf. apply Nat.ltb_ge in Hf.
    do 4 (destruct j as [|j]; [lia|]).
    do 6 (destruct j as [|j]; [assumption|]). lia. }
  destruct (5 <? x)%float eqn:E2.
  { apply (Hgoal 3); [lia| |right; exact E2].
    intros j Hj Hf. apply Nat.ltb_ge in Hf.
    do 3 (destruct j as [|j]; [lia|]).
    do 7 (destruct j as [|j]; [assumption|]). lia. }
  destruct (1 <? x)%float eqn:E1.
  { apply (Hgoal 2); [lia| |right; exact E1].
    intros j Hj Hf. apply Nat.ltb_ge in Hf.
    do 2 (destruct j as [|j]; [lia|]).
    do 8 (destruct j as [|j]; [assumption|]). lia. }
  destruct (0 <? x)%float eqn:E0.
  { apply (Hgoal 1); [lia| |right; exact E0].
    intros j Hj Hf. apply Nat.ltb_ge in Hf.
    do 1 (destruct j as [|j]; [lia|]).
    do 9 (destruct j as [|j]; [assumption|]). lia. }
  apply (Hgoal 0); [lia| |now left].
  intros j Hj _.
  do 10 (destruct j as [|j]; [assumption|]). lia.
Qed.

Ltac crunch Hna Hz Hq :=
  unfold in_range, cut, searchsorted_left, in_bin, edge, DF.count, bins,
    fillna_gray;
  cbn [hd nth filter];
  rewrite ?Hna, ?Hz, ?Hq;
  rewrite ?(leb_edge _ 1 Hna eq_refl), ?(leb_edge _ 5 Hna eq_refl),
    ?(leb_edge _ 10 Hna eq_refl), ?(leb_edge _ 15 Hna eq_refl),
    ?(leb_edge _ 20 Hna eq_refl), ?(leb_edge _ 30 Hna eq_refl),
    ?(leb_edge _ 40 Hna eq_refl), ?(leb_edge _ 50 Hna eq_refl),
    ?(leb_edge _ 100 Hna eq_refl);
  repeat match goal with
    | H : (_ <? _)%float = _ |- _ => rewrite !H
    end;
  cbn.

Ltac in_case k Hna Hz Hq :=
  cbn in *; split;
  [ intros _; exists k; split; [lia|]; split;
    [ crunch Hna Hz Hq; reflexivity
    | split;
      [ crunch Hna Hz Hq; reflexivity
      | intros j Hj;
        do 9 (destruct j as [|j];
              [crunch Hna Hz Hq; try reflexivity; discriminate|]);
        lia ] ]
  | crunch Hna Hz Hq; split; discriminate ].

(** The bucket of one margin: [pd.cut] and [fillna("gray")]. *)
Lemma bucket_of_margin x :
  (in_range x = true ->
   exists i, i < 9 /\ fillna_gray (cut x) = nth_error labels i /\
     in_bin i x = true /\
     forall j, j < 9 -> in_bin j x = true -> j = i)
  /\ (fillna_gray (cut x) = Some gray <-> in_range x = false).
Proof.
  destruct (F64.isna x) eqn:Hna.
  - destruct (isna_compare x 0 Hna) as (_ & _ & _ & H0 & _).
    assert (Hr : in_range x = false) by (unfold in_range; now rewrite H0).
    assert (Hc : cut x = None) by (unfold cut; rewrite Hna; reflexivity).
    rewrite Hr, Hc. split; [discriminate | split; reflexivity].
  - destruct (edges_below x Hna) as (n & Hn & H).
    pose proof (H 0 ltac:(lia)) as H0. pose proof (H 1 ltac:(lia)) as H1.
    pose proof (H 2 ltac:(lia)) as H2. pose proof (H 3 ltac:(lia)) as H3.
    pose proof (H 4 ltac:(lia)) as H4. pose proof (H 5 ltac:(lia)) as H5.
    pose proof (H 6 ltac:(lia)) as H6. pose proof (H 7 ltac:(lia)) as H7.
    pose proof (H 8 ltac:(lia)) as H8. pose proof (H 9 ltac:(lia)) as H9.
    clear H. unfold edge, bins in *. cbn [nth] in *.
    assert (Hz : (0 <=? x)%float = (0 <? x)%float || (x =? 0)%float)
      by (rewrite leb_ltb_eqb; f_equal; apply float_eqb_sym).
    destruct n as [|n].
    { cbn in *. destruct (x =? 0)%float eqn:Hq.
      - in_case 0 Hna Hz Hq.
      - split.
        + crunch Hna Hz Hq. discriminate.
        + crunch Hna Hz Hq. split; reflexivity. }
    assert (Hq : (x =? 0)%float = false)
      by (apply ltb_not_eqb; exact H0).
    destruct n as [|n]; [in_case 0 Hna Hz Hq|].
    destruct n as [|n]; [in_case 1 Hna Hz Hq|].
    destruct n as [|n]; [in_case 2 Hna Hz Hq|].
    destruct n as [|n]; [in_case 3 Hna Hz Hq|].
    destruct n as [|n]; [in_case 4 Hna Hz Hq|].
    destruct n as [|n]; [in_case 5 Hna Hz Hq|].
    destruct n as [|n]; [in_case 6 Hna Hz Hq|].
    destruct n as [|n]; [in_case 7 Hna Hz Hq|].
    destruct n as [|n]; [in_case 8 Hna Hz Hq|].
    destruct n as [|n]; [|lia].
    cbn in *. split.
    + crunch Hna Hz Hq. discriminate.
    + crunch Hna Hz Hq. split; reflexivity.
Qed.

Lemma out_of_range x :
  in_range x = false <->
  F64.isna x = true \/ (x <? 0)%float = true \/ (100 <? x)%float = true.
Proof.
  unfold in_range. destruct (F64.isna x) eqn:Hna.
  - destruct (isna_compare x 0 Hna) as (_ & _ & _ & -> & _).
    split; auto.
  - rewrite (leb_edge x 100 Hna eq_refl).
    rewrite (ltb_leb x 0 Hna eq_refl).
    destruct (0 <=? x)%float, (100 <? x)%float; simpl; split; auto;
      intros [H|[H|H]]; discriminate.
Qed.

Lemma df_hist_In r loaded :
  In r (df_hist loaded) ->
  margin_color r = fillna_gray (cut (margin r)).
Proof.
  unfold df_hist. intros H. apply in_map_iff in H.
  destruct H as (r' & <- & _). reflexivity.
Qed.

(** C3. On every row of the results table, [margin_color] is one of
    the nine labels when the margin lies in [0, 100], the label of the
    one right-closed bin that holds the margin (0 being in the lowest
    bin), and it is ["gray"] exactly when the margin is missing or
    lies outside [0, 100]. *)
Theorem margin_color_bucket (loaded : list row) (r : row) :
  In r (df_hist loaded) ->
  (in_range (margin r) = true ->
   exists i, i < 9 /\ margin_color r = nth_error labels i /\
     in_bin i (margin r) = true /\
     forall j, j < 9 -> in_bin j (margin r) = true -> j = i)
  /\ (margin_color r = Some gray <->
      F64.isna (margin r) = true \/ (margin r <? 0)%float = true
      \/ (100 <? margin r)%float = true).
Proof.
  intros Hr. rewrite (df_hist_In r loaded Hr), <- out_of_range.
  apply bucket_of_margin.
Qed.

Lemma margin_color_bucket_witness :
  In Sample.hist_agra Sample.df_hist_UP_2019 /\
  (in_range (margin Sample.hist_agra) = true ->
   exists i, i < 9 /\ margin_color Sample.hist_agra = nth_error labels i /\
     in_bin i (margin Sample.hist_agra) = true /\
     forall j, j < 9 -> in_bin j (margin Sample.hist_agra) = true -> j = i)
  /\ (margin_color Sample.hist_agra = Some gray <->
      F64.isna (margin Sample.hist_agra) = true
      \/ (margin Sample.hist_agra <? 0)%float = true
      \/ (100 <? margin Sample.hist_agra)%float = true).
Proof.
  assert (Hin : In Sample.hist_agra Sample.df_hist_UP_2019)
    by (vm_compute; left; reflexivity).
  split; [exact Hin|].
  exact (margin_color_bucket
           (Main.df_loaded pandas_2 Sample.to_numeric Sample.raw_UP_2019)
           Sample.hist_agra Hin).
Defined.

(** The bucket of the sample row, by evaluation: a margin of 20 is in
    the bin (15, 20]. *)
Example margin_color_agra :
  margin Sample.hist_agra = 20%float /\
  margin_color Sample.hist_agra = Some (Py.lit "15-20").
Proof. split; reflexivity. Qed.

End MarginBuckets.

Module Cleaning.

Import Main F64Facts.

Lemma clean_In r loaded :
  In r (clean loaded) <->
  exists x, In x loaded /\ survives x = true /\ r = recompute_Turnout x.
Proof.
  unfold clean. rewrite in_map_iff. split.
  - intros (x & <- & Hx). apply filter_In in Hx. destruct Hx. eauto.
  - intros (x & Hx & Hs & ->). exists x. split; [reflexivity|].
    apply filter_In. auto.
Qed.

Lemma df_hist_In_clean r loaded :
  In r (df_hist loaded) ->
  exists x, In x (clean loaded) /\
    Turnout r = Turnout x /\ votes r = votes x /\ electors r = electors x.
Proof.
  unfold df_hist. rewrite map_map. intros H. apply in_map_iff in H.
  destruct H as (x & <- & Hx). exists x. auto.
Qed.

(** C2, as the code has it. On every row of the results table the
    turnout is votes / electors * 100, and this value does not depend
    on the raw Turnout field; the raw field decides only whether the
    row is kept: the kept rows are those whose raw Turnout, votes and
    electors all read as numbers. *)
Theorem Turnout_recomputed (version : pandas)
  (to_numeric : Py.str -> float)
  (raw : list raw_row) :
  (forall r, In r (df_hist (df_loaded version to_numeric raw)) ->
     Turnout r = (votes r / electors r * 100)%float)
  /\ (forall x c,
        recompute_Turnout (coerce version to_numeric (set_raw_Turnout c x))
        = recompute_Turnout (coerce version to_numeric x))
  /\ (forall r, In r (clean (df_loaded version to_numeric raw)) <->
        exists x, In x raw /\
          F64.notna (to_numeric_without to_numeric percent_sign
                       (raw_Turnout x)) = true /\
          F64.notna (to_numeric_without to_numeric comma
                       (raw_votes x)) = true /\
          F64.notna (to_numeric_without to_numeric comma
                       (raw_electors x)) = true /\
          r = recompute_Turnout (coerce version to_numeric x)).
Proof.
  split; [|split].
  - intros r Hr. apply df_hist_In_clean in Hr.
    destruct Hr as (x & Hx & -> & -> & ->).
    apply clean_In in Hx. destruct Hx as (y & _ & _ & ->). reflexivity.
  - reflexivity.
  - intros r. rewrite clean_In. unfold df_loaded. split.
    + intros (y & Hy & Hs & ->). apply in_map_iff in Hy.
      destruct Hy as (x & <- & Hx). exists x.
      unfold survives in Hs. simpl in Hs.
      rewrite !andb_true_iff in Hs. tauto.
    + intros (x & Hx & H1 & H2 & H3 & ->).
      exists (coerce version to_numeric x). split; [now apply in_map|].
      split; [|reflexivity].
      unfold survives. simpl. now rewrite H1, H2, H3.
Qed.

Lemma Turnout_recomputed_witness :
  In Sample.hist_agra Sample.df_hist_UP_2019 /\
  Turnout Sample.hist_agra
  = (votes Sample.hist_agra / electors Sample.hist_agra * 100)%float.
Proof.
  assert (Hin : In Sample.hist_agra Sample.df_hist_UP_2019)
    by (vm_compute; left; reflexivity).
  split; [exact Hin|].
  exact (proj1 (Turnout_recomputed pandas_2 Sample.to_numeric
                  Sample.raw_UP_2019)
           Sample.hist_agra Hin).
Defined.

(** C2, as it is stated, fails: the raw Turnout field decides whether
    a row is kept. The row of Agra is kept; the same row with an empty
    Turnout field is dropped. *)
Lemma raw_Turnout_decides_survival :
  clean (df_loaded pandas_2 Sample.to_numeric [Sample.raw_agra])
  = [Sample.row_agra]
  /\ clean (df_loaded pandas_2 Sample.to_numeric [Sample.raw_agra_no_Turnout])
     = []
  /\ Sample.raw_agra_no_Turnout
     = set_raw_Turnout (Num nan) Sample.raw_agra.
Proof. repeat split. Qed.

(** A float whose specification is NaN or an infinity is not finite. *)
Lemma not_finite t :
  Prim2SF t = S754_nan \/ (exists s, Prim2SF t = S754_infinity s) ->
  is_finite t = false.
Proof.
  unfold is_finite, is_nan, is_infinity.
  rewrite !FloatAxioms.eqb_spec, abs_spec.
  intros [->|[s ->]]; [reflexivity|]. destruct s; reflexivity.
Qed.

Lemma eqb_zero e :
  (e =? 0)%float = true -> exists s, Prim2SF e = S754_zero s.
Proof.
  rewrite FloatAxioms.eqb_spec.
  change (Prim2SF 0) with (S754_zero false).
  destruct (Prim2SF e) as [s|s| |s m x]; simpl; try discriminate;
    try (destruct s; discriminate).
  eauto.
Qed.

(** Division by a zero, then the product by 100: an infinity or NaN. *)
Lemma div_zero_times_100 v e :
  (e =? 0)%float = true -> is_finite (v / e * 100)%float = false.
Proof.
  intros He. apply eqb_zero in He. destruct He as [s He].
  apply not_finite. rewrite mul_spec, div_spec, He.
  change (Prim2SF 100) with (S754_finite false 7036874417766400 (-46)).
  destruct (Prim2SF v) as [sv|sv| |sv mv ev]; simpl; eauto.
Qed.

Lemma eqb_zero_notna e : (e =? 0)%float = true -> F64.notna e = true.
Proof.
  intros H. unfold F64.notna.
  destruct (key_eqb_notna e 0%float H) as [-> _]. reflexivity.
Qed.

(** C9, as the code has it. The cleaning keeps exactly the rows whose
    Turnout, votes and electors are not missing, each once, with the
    turnout recomputed; it does not ask that the electors are not 0.
    The division is one of float64 columns, which does not fail: a row
    with 0 electors is kept when its three values are there, and its
    turnout is an infinity or NaN. *)
Theorem kept_rows_may_have_no_electors (loaded : list row) :
  (forall r, In r (clean loaded) <->
     exists x, In x loaded /\
       F64.notna (Turnout x) = true /\ F64.notna (votes x) = true /\
       F64.notna (electors x) = true /\ r = recompute_Turnout x)
  /\ length (clean loaded)
     = DF.count
         (fun x => F64.notna (Turnout x) && F64.notna (votes x)
                   && F64.notna (electors x))
         loaded
  /\ (forall r, In r (clean loaded) ->
        F64.notna (votes r) = true /\ F64.notna (electors r) = true /\
        Turnout r = (votes r / electors r * 100)%float /\
        ((electors r =? 0)%float = true -> is_finite (Turnout r) = false))
  /\ (forall x, In x loaded ->
        F64.notna (Turnout x) = true -> F64.notna (votes x) = true ->
        (electors x =? 0)%float = true ->
        In (recompute_Turnout x) (clean loaded)
        /\ is_finite (Turnout (recompute_Turnout x)) = false).
Proof.
  split; [|split; [|split]].
  - intros r. rewrite clean_In. unfold survives. split.
    + intros (x & Hx & Hs & ->). rewrite !andb_true_iff in Hs.
      exists x. tauto.
    + intros (x & Hx & H1 & H2 & H3 & ->). exists x.
      now rewrite H1, H2, H3.
  - unfold clean. rewrite length_map. reflexivity.
  - intros r Hr. apply clean_In in Hr. destruct Hr as (x & _ & Hs & ->).
    unfold survives in Hs. rewrite !andb_true_iff in Hs.
    destruct Hs as [[_ Hv] He]. simpl.
    repeat split; try assumption. apply div_zero_times_100.
  - intros x Hx H1 H2 H3. split.
    + apply clean_In. exists x. split; [exact Hx|]. split; [|reflexivity].
      unfold survives. now rewrite H1, H2, (eqb_zero_notna _ H3).
    + simpl. now apply div_zero_times_100.
Qed.

Lemma kept_rows_may_have_no_electors_witness :
  In (coerce pandas_2 Sample.to_numeric Sample.raw_idukki)
    (df_loaded pandas_2 Sample.to_numeric
       [Sample.raw_agra_no_Turnout; Sample.raw_idukki]) /\
  (electors (coerce pandas_2 Sample.to_numeric Sample.raw_idukki) =? 0)%float
  = true /\
  In Sample.row_idukki
    (clean (df_loaded pandas_2 Sample.to_numeric
              [Sample.raw_agra_no_Turnout; Sample.raw_idukki])) /\
  is_finite (Turnout Sample.row_idukki) = false /\
  length (clean (df_loaded pandas_2 Sample.to_numeric
                   [Sample.raw_agra_no_Turnout; Sample.raw_idukki])) = 1.
Proof.
  assert (Hin : In (coerce pandas_2 Sample.to_numeric Sample.raw_idukki)
                  (df_loaded pandas_2 Sample.to_numeric
                     [Sample.raw_agra_no_Turnout; Sample.raw_idukki]))
    by (right; left; reflexivity).
  assert (H0 : (electors (coerce pandas_2 Sample.to_numeric
                            Sample.raw_idukki) =? 0)%float = true)
    by reflexivity.
  split; [exact Hin|]. split; [exact H0|].
  destruct (kept_rows_may_have_no_electors
              (df_loaded pandas_2 Sample.to_numeric
                 [Sample.raw_agra_no_Turnout; Sample.raw_idukki]))
    as (_ & Hlen & _ & Hzero).
  destruct (Hzero _ Hin eq_refl eq_refl H0) as [Hk Hf].
  split; [exact Hk|]. split; [exact Hf|].
  rewrite Hlen. reflexivity.
Defined.

(** C9, as it is stated, fails: the row of Idukki, with 500 votes and
    0 electors, is kept, and its turnout is an infinity; the row of
    Wayanad, with 0 votes and 0 electors, is kept, and its turnout is
    NaN. *)
Lemma zero_electors_survive :
  clean (df_loaded pandas_2 Sample.to_numeric [Sample.raw_idukki])
  = [Sample.row_idukki]
  /\ (electors Sample.row_idukki =? 0)%float = true
  /\ Turnout Sample.row_idukki = infinity
  /\ is_finite (Turnout Sample.row_idukki) = false
  /\ In Sample.row_wayanad Sample.df_kerala_2019
  /\ (electors Sample.row_wayanad =? 0)%float = true
  /\ is_nan (Turnout Sample.row_wayanad) = true.
Proof.
  repeat split. vm_compute. do 3 right. left. reflexivity.
Qed.

End Cleaning.

Module Normalize.

Import Main KeyFacts TitleFacts.

Lemma not_unstable c :
  ~ In c Py.title_unstable ->
  existsb (N.eqb c) Py.title_unstable = false.
Proof.
  intros H. destruct (existsb (N.eqb c) Py.title_unstable) eqn:E;
    [|reflexivity].
  exfalso. apply H. apply existsb_exists in E.
  destruct E as (d & Hd & E). apply N.eqb_eq in E. now subst d.
Qed.

(** The normalization of a name that holds no code point of
    [title_unstable] is a fixed point of the normalization. *)
Lemma strip_title_idempotent s :
  (forall c, In c s -> ~ In c Py.title_unstable) ->
  strip_title (strip_title (Some s)) = strip_title (Some s).
Proof.
  intros H. simpl. f_equal. apply title_strip_idempotent.
  intros c Hc. apply not_unstable. now apply H.
Qed.

(** The name made of a code point of [title_unstable], three times,
    is changed by a second normalization. *)
Lemma strip_title_unstable c :
  In c Py.title_unstable ->
  strip_title (strip_title (Some [c; c; c])) <> strip_title (Some [c; c; c]).
Proof.
  intros H. unfold Py.title_unstable in H.
  repeat (destruct H as [<-|H]; [vm_compute; discriminate|]).
  destruct H.
Qed.

(** C5, as the code has it. Both sides of the join key go through the
    same normalization, strip then title case, which keeps a missing
    name missing. The normalization is idempotent on every name that
    holds none of the 28 code points of [title_unstable], as is every
    name in ASCII; for each of the 28 it is not idempotent on the name
    that repeats the code point three times. Two normalized keys match
    in the join exactly when they are equal. *)
Theorem normalization_idempotent_but_for_28_code_points :
  (forall r, Pc_name (normalize_Pc_name r) = strip_title (Pc_name r))
  /\ (forall g, pc_name (normalize_pc_name g) = strip_title (pc_name g))
  /\ strip_title None = None
  /\ (forall s, (forall c, In c s -> ~ In c Py.title_unstable) ->
        strip_title (strip_title (Some s)) = strip_title (Some s))
  /\ (forall s, Py.is_ascii s = true ->
        strip_title (strip_title (Some s)) = strip_title (Some s))
  /\ length Py.title_unstable = 28
  /\ (forall c, In c Py.title_unstable ->
        strip_title (strip_title (Some [c; c; c]))
        <> strip_title (Some [c; c; c]))
  /\ (forall a b,
        opt_eqb (strip_title a) (strip_title b) = true <->
        strip_title a = strip_title b).
Proof.
  split; [reflexivity|]. split; [reflexivity|]. split; [reflexivity|].
  split; [exact strip_title_idempotent|].
  split.
  { intros s Hs. simpl. f_equal. apply title_strip_idempotent.
    now apply is_ascii_stable. }
  split; [reflexivity|]. split; [exact strip_title_unstable|].
  intros a b. apply opt_eqb_eq.
Qed.

(** The name [" école "], which is not in ASCII. *)
Lemma normalization_idempotent_but_for_28_code_points_witness :
  (forall c, In c [32; 233; 99; 111; 108; 101; 32]%N ->
     ~ In c Py.title_unstable)
  /\ strip_title (Some [32; 233; 99; 111; 108; 101; 32]%N)
     = Some [201; 99; 111; 108; 101]%N
  /\ strip_title (strip_title (Some [32; 233; 99; 111; 108; 101; 32]%N))
     = strip_title (Some [32; 233; 99; 111; 108; 101; 32]%N).
Proof.
  assert (H : forall c, In c [32; 233; 99; 111; 108; 101; 32]%N ->
                ~ In c Py.title_unstable).
  { intros c Hc Hu.
    repeat (destruct Hc as [<-|Hc];
            [repeat (destruct Hu as [Hu|Hu]; [discriminate Hu|]);
             destruct Hu|]).
    destruct Hc. }
  split; [exact H|]. split; [vm_compute; reflexivity|].
  exact (proj1 (proj2 (proj2 (proj2
           normalization_idempotent_but_for_28_code_points))) _ H).
Defined.

(** C5, as it is stated, fails on U+01F0 followed by x: the
    normalization gives J, U+030C, x, and the normalization of that
    gives J, U+030C, X. *)
Lemma normalization_not_idempotent :
  strip_title (Some [496; 120]%N) = Some [74; 780; 120]%N
  /\ strip_title (strip_title (Some [496; 120]%N))
     = Some [74; 780; 88]%N
  /\ strip_title (strip_title (Some [496; 120]%N))
     <> strip_title (Some [496; 120]%N).
Proof.
  split; [vm_compute; reflexivity|]. split; [vm_compute; reflexivity|].
  vm_compute. discriminate.
Qed.

End Normalize.

Module AppFacts.

Import Main App.

Lemma length_update r f h : length (update r f h) = length h.
Proof.
  revert r. induction h as [|x h IH]; intros [|r]; simpl; auto.
Qed.

Lemma nth_error_update_other r r' f h :
  r' <> r -> nth_error (update r f h) r' = nth_error h r'.
Proof.
  revert r r'. induction h as [|x h IH]; intros [|r] [|r'] H; simpl;
    try reflexivity; try lia.
  apply IH. lia.
Qed.

Lemma nth_update_same r f h d :
  r < length h -> nth r (update r f h) d = f.
Proof.
  revert r. induction h as [|x h IH]; intros [|r] H; simpl in *;
    try lia; [reflexivity|]. apply IH. lia.
Qed.

Section Rules.

Variable base : nat.

Lemma keeps_ret (A : Type) (a : A) (Q : A -> Prop) :
  Q a -> keeps base (ret a) Q.
Proof. intros HQ h Hh. simpl. auto. Qed.

Lemma keeps_bind (A B : Type) (m : M A) (k : A -> M B)
  (Q : A -> Prop) (Q' : B -> Prop) :
  keeps base m Q -> (forall a, Q a -> keeps base (k a) Q') ->
  keeps base (bind m k) Q'.
Proof.
  intros Hm Hk h Hh. unfold bind.
  destruct (Hm h Hh) as (Hlen & Hsame & HQ).
  destruct (m h) as [a h1]. simpl in *.
  destruct (Hk a HQ h1 ltac:(lia)) as (Hlen' & Hsame' & HQ').
  split; [lia|]. split; [|exact HQ'].
  intros r Hr. rewrite Hsame' by exact Hr. now apply Hsame.
Qed.

Lemma keeps_load r : keeps base (load r) (fun _ => True).
Proof. intros h Hh. simpl. auto. Qed.

Lemma keeps_new_frame f : keeps base (new_frame f) (fun r => base <= r).
Proof.
  intros h Hh. simpl. rewrite length_app. simpl.
  split; [lia|]. split; [|exact Hh].
  intros r Hr. apply nth_error_app1. lia.
Qed.

Lemma keeps_store r f :
  base <= r -> keeps base (store r f) (fun _ => True).
Proof.
  intros Hr h Hh. simpl. rewrite length_update.
  split; [lia|]. split; [|exact I].
  intros r' Hr'. apply nth_error_update_other. lia.
Qed.

End Rules.

Ltac keeps_step :=
  first
    [ apply keeps_ret; exact I
    | eapply keeps_bind; [apply keeps_load | intros ? _]
    | eapply keeps_bind; [apply keeps_new_frame | intros ? ?]
    | eapply keeps_bind; [apply keeps_store; assumption | intros ? _] ].

Section Callbacks.

Variable Figure : Type.
Variable choropleth_party : option float -> list map_row -> Figure.
Variable choropleth_margin :
  option float -> list margin_map_row -> Figure.
Variable sunburst : list wins_row -> Figure.
Variable history : list row -> Figure.
Variable mean : list float -> float.
Variable quicksort : list (Py.str * float) -> list (Py.str * float).
Variable heatmap : option Py.str -> heat_data -> option Figure.
Variable no_data : Figure.
Variable bar : list dominance_row -> Figure.
Variable G : globals.
Variable base : nat.

Lemma plot_map_keeps y :
  keeps base (plot_map choropleth_party G y) (fun _ => True).
Proof. unfold plot_map. repeat keeps_step. Qed.

Lemma plot_margin_map_keeps y :
  keeps base (plot_margin_map choropleth_margin G y) (fun _ => True).
Proof. unfold plot_margin_map. repeat keeps_step. Qed.

Lemma plot_sunburst_keeps x :
  keeps base (plot_sunburst sunburst G x) (fun _ => True).
Proof. unfold plot_sunburst. repeat keeps_step. Qed.

Lemma plot_history_keeps x :
  keeps base (plot_history history G x) (fun _ => True).
Proof. unfold plot_history. repeat keeps_step. Qed.

Lemma plot_heatmap_keeps st :
  keeps base (plot_heatmap mean quicksort heatmap no_data G st)
    (fun _ => True).
Proof.
  unfold plot_heatmap. do 3 keeps_step.
  destruct (results_of _); repeat keeps_step.
  destruct (heatmap_data _ _ _); keeps_step.
Qed.

Lemma plot_dom_graph_keeps x :
  keeps base (plot_dom_graph bar G x) (fun _ => True).
Proof. unfold plot_dom_graph. repeat keeps_step. Qed.

End Callbacks.

Lemma keeps_tables (A : Type) (m : M A) G h :
  allocated G h -> keeps (length h) m (fun _ => True) ->
  tables G (snd (m h)) = tables G h.
Proof.
  intros Ha Hk. destruct (Hk h (le_n _)) as (_ & Hsame & _).
  unfold tables. apply map_ext_in. intros r Hr.
  apply Hsame. unfold allocated in Ha. rewrite Forall_forall in Ha.
  now apply Ha.
Qed.

(** C7. Every render callback leaves the five precomputed tables as
    they are, for every input value: the frames it assigns to are
    frames it has made itself. *)
Theorem callbacks_leave_tables_unchanged
  (Figure : Type)
  (choropleth_party : option float -> list map_row -> Figure)
  (choropleth_margin : option float -> list margin_map_row -> Figure)
  (sunburst : list wins_row -> Figure)
  (history : list row -> Figure)
  (mean : list float -> float)
  (quicksort : list (Py.str * float) -> list (Py.str * float))
  (heatmap : option Py.str -> heat_data -> option Figure)
  (no_data : Figure)
  (bar : list dominance_row -> Figure)
  (G : globals) (h : heap) :
  allocated G h ->
  (forall y, tables G (snd (plot_map choropleth_party G y h)) = tables G h)
  /\ (forall y,
        tables G (snd (plot_margin_map choropleth_margin G y h))
        = tables G h)
  /\ (forall x, tables G (snd (plot_sunburst sunburst G x h)) = tables G h)
  /\ (forall x, tables G (snd (plot_history history G x h)) = tables G h)
  /\ (forall st,
        tables G (snd (plot_heatmap mean quicksort heatmap no_data G st h))
        = tables G h)
  /\ (forall x, tables G (snd (plot_dom_graph bar G x h)) = tables G h).
Proof.
  intros Ha.
  split; [|split; [|split; [|split; [|split]]]]; intros;
    apply keeps_tables; try exact Ha.
  - apply plot_map_keeps.
  - apply plot_margin_map_keeps.
  - apply plot_sunburst_keeps.
  - apply plot_history_keeps.
  - apply plot_heatmap_keeps.
  - apply plot_dom_graph_keeps.
Qed.

Lemma callbacks_leave_tables_unchanged_witness :
  allocated (fst Sample.started) (snd Sample.started) /\
  (forall y,
      tables (fst Sample.started)
        (snd (plot_map (fun _ rows => length rows) (fst Sample.started) y
                (snd Sample.started)))
      = tables (fst Sample.started) (snd Sample.started))
  /\ (forall st,
        tables (fst Sample.started)
          (snd (plot_heatmap Sample.mean Sample.quicksort
                  (fun _ data => Some (length (h_index data))) 0
                  (fst Sample.started) st (snd Sample.started)))
        = tables (fst Sample.started) (snd Sample.started)).
Proof.
  assert (Ha : allocated (fst Sample.started) (snd Sample.started)).
  { unfold allocated. simpl. repeat constructor. }
  pose proof (callbacks_leave_tables_unchanged nat
                (fun _ rows => length rows) (fun _ rows => length rows)
                (fun rows => length rows) (fun rows => length rows)
                Sample.mean Sample.quicksort
                (fun _ data => Some (length (h_index data))) 0
                (fun rows => length rows)
                (fst Sample.started) (snd Sample.started) Ha)
    as (Hmap & _ & _ & _ & Hheat & _).
  split; [exact Ha|]. split; [exact Hmap|exact Hheat].
Defined.

(** An assignment is a change of the object it is applied to: the
    frame a reference points to after [store] is the frame stored. *)
Lemma load_after_store r f h :
  r < length h -> fst (load r (snd (store r f h))) = f.
Proof. intros H. unfold load, store. simpl. now apply nth_update_same. Qed.

End AppFacts.

Module PartyMap.

Import Main DF DFFacts KeyFacts App AppFacts.

Lemma count_app (A : Type) (p : A -> bool) l1 l2 :
  count p (l1 ++ l2) = count p l1 + count p l2.
Proof. unfold count. now rewrite filter_app, length_app. Qed.

Lemma count_all (A : Type) (p : A -> bool) l :
  (forall x, In x l -> p x = true) -> count p l = length l.
Proof.
  intros H. induction l as [|a l IH]; [reflexivity|].
  rewrite count_cons, (H a (or_introl eq_refl)), IH; [reflexivity|].
  intros x Hx. apply H. now right.
Qed.

Lemma count_none (A : Type) (p : A -> bool) l :
  (forall x, In x l -> p x = false) -> count p l = 0.
Proof.
  intros H. induction l as [|a l IH]; [reflexivity|].
  rewrite count_cons, (H a (or_introl eq_refl)), IH; [reflexivity|].
  intros x Hx. apply H. now right.
Qed.

Lemma merge_left_cons g geo ys :
  merge_left on_pc_name (g :: geo) ys
  = left_rows on_pc_name ys g ++ merge_left on_pc_name geo ys.
Proof. reflexivity. Qed.

Lemma left_rows_length ys g :
  length (left_rows on_pc_name ys g) = Nat.max 1 (count (on_pc_name g) ys).
Proof.
  unfold left_rows, count.
  destruct (filter (on_pc_name g) ys) as [|y l]; [reflexivity|].
  rewrite length_map. simpl. reflexivity.
Qed.

Lemma left_rows_fst ys g p : In p (left_rows on_pc_name ys g) -> fst p = g.
Proof.
  unfold left_rows.
  destruct (filter (on_pc_name g) ys) as [|y l].
  - intros [<-|[]]. reflexivity.
  - intros H. apply in_map_iff in H. destruct H as (r & <- & _).
    reflexivity.
Qed.

Lemma of_region_row g p :
  of_region g (fillna_party (map_row_of p)) = same_region g (fst p).
Proof. destruct p as [g' [y|]]; reflexivity. Qed.

Lemma same_region_on_pc_name g g' ys :
  same_region g g' = true ->
  count (on_pc_name g') ys = count (on_pc_name g) ys.
Proof.
  unfold same_region. rewrite andb_true_iff, opt_eqb_eq.
  intros [H _]. apply count_ext_in. intros y _.
  unfold on_pc_name. now rewrite H.
Qed.

Lemma count_of_region g geo ys :
  count (of_region g) (map fillna_party (merge_map geo ys))
  = count (same_region g) geo * Nat.max 1 (count (on_pc_name g) ys).
Proof.
  unfold merge_map. rewrite map_map.
  induction geo as [|g' geo IH]; [reflexivity|].
  rewrite merge_left_cons, map_app, count_app, IH, count_cons.
  destruct (same_region g g') eqn:E.
  - rewrite count_all.
    + rewrite length_map, left_rows_length.
      rewrite (same_region_on_pc_name g g' ys E). lia.
    + intros m Hm. apply in_map_iff in Hm. destruct Hm as (p & <- & Hp).
      rewrite of_region_row, (left_rows_fst ys g' p Hp). exact E.
  - rewrite count_none; [lia|].
    intros m Hm. apply in_map_iff in Hm. destruct Hm as (p & <- & Hp).
    rewrite of_region_row, (left_rows_fst ys g' p Hp). exact E.
Qed.

Lemma same_region_refl g : same_region g g = true.
Proof. unfold same_region. now rewrite opt_eqb_refl, N.eqb_refl. Qed.

Lemma merge_left_In p geo ys :
  In p (merge_left on_pc_name geo ys) ->
  In (fst p) geo /\ In p (left_rows on_pc_name ys (fst p)).
Proof.
  unfold merge_left. intros H. apply in_flat_map in H.
  destruct H as (g & Hg & Hp).
  change (In p (left_rows on_pc_name ys g)) in Hp.
  rewrite (left_rows_fst ys g p Hp). auto.
Qed.

Lemma same_year_row_eq (a b : year_row) :
  same_year_row a b = true <-> a = b.
Proof.
  unfold same_year_row. destruct a as [a1 a2 a3], b as [b1 b2 b3]. simpl.
  rewrite !andb_true_iff, !opt_eqb_eq.
  split; [intros [[-> ->] ->]; reflexivity|].
  intros E. injection E as -> -> ->. auto.
Qed.

Lemma same_year_row_sym (a b : year_row) :
  same_year_row a b = same_year_row b a.
Proof.
  unfold same_year_row.
  now rewrite (opt_eqb_sym (y_Pc_name a)), (opt_eqb_sym (y_party a)),
    (opt_eqb_sym (y_candidate_name a)).
Qed.

Lemma same_year_row_trans (a b c : year_row) :
  same_year_row a b = true -> same_year_row b c = true ->
  same_year_row a c = true.
Proof. rewrite !same_year_row_eq. congruence. Qed.

(** The rows of [df_year]: the three columns of the rows of the
    selected year. *)
Lemma df_year_In (selected_year : option float) (df : list row)
  (y : year_row) :
  In y (df_year selected_year df) <->
  exists r, In r df /\ year_is selected_year r = true /\
    y = mk_year_row (Pc_name r) (party r) (candidate_name r).
Proof.
  unfold df_year. split.
  - intros H. apply drop_duplicates_In in H.
    apply in_map_iff in H. destruct H as (r & <- & H).
    apply filter_In in H. destruct H as [H Hy]. eauto.
  - intros (r & Hr & Hy & ->).
    set (l := map _ _).
    assert (Hin : In (mk_year_row (Pc_name r) (party r) (candidate_name r))
                    l).
    { apply in_map_iff. exists r. split; [reflexivity|].
      apply filter_In. auto. }
    destruct (drop_duplicates_complete _ same_year_row same_year_row_sym
                same_year_row_trans _ l Hin
                (proj2 (same_year_row_eq _ _) eq_refl))
      as (d & Hd & Hs).
    apply same_year_row_eq in Hs. now rewrite Hs.
Qed.

(** No row of [df_year] stands in it twice. *)
Lemma df_year_distinct (selected_year : option float) (df : list row)
  (y : year_row) :
  count (same_year_row y) (df_year selected_year df) <= 1.
Proof.
  unfold df_year, drop_duplicates.
  rewrite (count_drop_duplicates_from _ same_year_row same_year_row_sym
             same_year_row_trans).
  simpl. destruct (existsb _ _); lia.
Qed.

(** The party shown for a result. *)
Lemma party_of_row geo ys m :
  In m (map fillna_party (merge_map geo ys)) ->
  (count (fun y => opt_eqb (m_pc_name m) (y_Pc_name y)) ys = 0 ->
   m_Pc_name m = None /\ m_party m = Some OTHER
   /\ m_candidate_name m = None)
  /\ (0 < count (fun y => opt_eqb (m_pc_name m) (y_Pc_name y)) ys ->
      exists y, In y ys /\ opt_eqb (m_pc_name m) (y_Pc_name y) = true
                /\ m_Pc_name m = y_Pc_name y
                /\ m_party m
                   = Some (match y_party y with
                           | Some p => p
                           | None => OTHER
                           end)
                /\ m_candidate_name m = y_candidate_name y).
Proof.
  unfold merge_map. rewrite map_map. intros H.
  apply in_map_iff in H. destruct H as ([g o] & <- & Hp).
  apply merge_left_In in Hp. destruct Hp as [_ Hp]. simpl in Hp.
  unfold left_rows in Hp.
  assert (Hpc : m_pc_name (fillna_party (map_row_of (g, o))) = pc_name g)
    by (destruct o; reflexivity).
  rewrite Hpc.
  change (fun y => opt_eqb (pc_name g) (y_Pc_name y)) with (on_pc_name g).
  unfold count.
  destruct (filter (on_pc_name g) ys) as [|y0 l] eqn:E.
  - destruct Hp as [Hp|[]]. injection Hp as <-. simpl.
    split; [auto|lia].
  - apply in_map_iff in Hp. destruct Hp as (y & Hy & Hin).
    injection Hy as <-. split; [simpl; lia|]. intros _.
    assert (Hf : In y (filter (on_pc_name g) ys)) by (rewrite E; exact Hin).
    apply filter_In in Hf. destruct Hf as [Hys Hon].
    exists y. repeat split; assumption.
Qed.

(** The results with the name of a row of the merged table, counted
    in [df_year] and found in the results table. *)
Lemma no_match_iff (selected_year : option float) (df : list row)
  (n : option Py.str) :
  count (fun y => opt_eqb n (y_Pc_name y)) (df_year selected_year df) = 0
  <-> (forall r, In r df -> year_is selected_year r = true ->
         Pc_name r <> n).
Proof.
  split.
  - intros H0 r Hr Hy E.
    assert (Hpos : 0 < count (fun y => opt_eqb n (y_Pc_name y))
                         (df_year selected_year df)).
    { apply count_pos.
      exists (mk_year_row (Pc_name r) (party r) (candidate_name r)).
      split; [apply df_year_In; eauto|].
      simpl. apply opt_eqb_eq. now symmetry. }
    lia.
  - intros Hno.
    destruct (count _ (df_year selected_year df)) eqn:En; [reflexivity|].
    exfalso.
    assert (Hpos : 0 < count (fun y => opt_eqb n (y_Pc_name y))
                         (df_year selected_year df)) by lia.
    apply count_pos in Hpos. destruct Hpos as (y & Hy & Hon).
    apply df_year_In in Hy. destruct Hy as (r & Hr & Hyr & ->).
    simpl in Hon. apply opt_eqb_eq in Hon.
    now apply (Hno r Hr Hyr).
Qed.

(** The figure of [plot_map] is drawn from [party_map_table] of the
    two tables in memory. *)
Lemma plot_map_figure (Figure : Type)
  (choropleth_party : option float -> list map_row -> Figure)
  (G : globals) (selected_year : option float) (h : heap) :
  fst (plot_map choropleth_party G selected_year h)
  = if int_defined selected_year
    then Some (choropleth_party selected_year
                 (party_map_table
                    (regions_of (nth (geo_ref G) h (ResultsFrame [])))
                    (results_of (nth (df_hist_ref G) h (ResultsFrame [])))
                    selected_year))
    else None.
Proof.
  unfold plot_map, bind, load, new_frame, store, ret. simpl.
  rewrite nth_update_same by (rewrite length_app; simpl; lia).
  rewrite nth_middle. reflexivity.
Qed.

(** C6. For every selected year the table of the winning-party map
    is the left join of the regions with the results of that year:
    the rows [df_year] joins are the distinct triples of name, party
    and candidate of the rows of the results table with that year; the
    table holds every region of the boundary table once for each of
    these results with the region's name, and once when there is none;
    a row of the table carries the name, party and candidate of a
    result of that year with its region's name, and when no result of
    that year has the name, the party ["OTHER"]. The figure of
    [plot_map] is drawn from this table. *)
Theorem left_join_keeps_every_region (geo : list geo_row) (df : list row)
  (selected_year : option float) :
  (forall y,
      In y (df_year selected_year df) <->
      exists r, In r df /\ year_is selected_year r = true /\
        y = mk_year_row (Pc_name r) (party r) (candidate_name r))
  /\ (forall y, count (same_year_row y) (df_year selected_year df) <= 1)
  /\ (forall g,
        count (of_region g) (party_map_table geo df selected_year)
        = count (same_region g) geo
          * Nat.max 1 (count (on_pc_name g) (df_year selected_year df)))
  /\ (forall g, In g geo ->
        1 <= count (of_region g) (party_map_table geo df selected_year))
  /\ (forall m, In m (party_map_table geo df selected_year) ->
        ((forall r, In r df -> year_is selected_year r = true ->
            Pc_name r <> m_pc_name m) ->
         m_Pc_name m = None /\ m_party m = Some OTHER
         /\ m_candidate_name m = None)
        /\ ((exists r, In r df /\ year_is selected_year r = true
                       /\ Pc_name r = m_pc_name m) ->
            exists r, In r df /\ year_is selected_year r = true
              /\ Pc_name r = m_pc_name m
              /\ m_Pc_name m = Pc_name r
              /\ m_party m
                 = Some (match party r with
                         | Some p => p
                         | None => OTHER
                         end)
              /\ m_candidate_name m = candidate_name r))
  /\ (forall (Figure : Type)
        (choropleth_party : option float -> list map_row -> Figure)
        (G : globals) (h : heap),
        nth (geo_ref G) h (ResultsFrame []) = GeoFrame geo ->
        nth (df_hist_ref G) h (ResultsFrame []) = ResultsFrame df ->
        int_defined selected_year = true ->
        fst (plot_map choropleth_party G selected_year h)
        = Some (choropleth_party selected_year
                  (party_map_table geo df selected_year))).
Proof.
  split; [apply df_year_In|]. split; [apply df_year_distinct|].
  unfold party_map_table. split; [|split; [|split]].
  - intros g. apply count_of_region.
  - intros g Hg. rewrite count_of_region.
    assert (0 < count (same_region g) geo).
    { apply count_pos. exists g. split; [exact Hg|].
      apply same_region_refl. }
    nia.
  - intros m Hm.
    destruct (party_of_row geo _ m Hm) as [H0 Hpos]. split.
    + intros Hno. apply H0. now apply no_match_iff.
    + intros (r & Hr & Hy & E).
      assert (Hn : 0 < count (fun y => opt_eqb (m_pc_name m) (y_Pc_name y))
                         (df_year selected_year df)).
      { apply count_pos.
        exists (mk_year_row (Pc_name r) (party r) (candidate_name r)).
        split; [apply df_year_In; eauto|].
        simpl. apply opt_eqb_eq. now symmetry. }
      destruct (Hpos Hn) as (y & Hin & Hon & H1 & H2 & H3).
      apply df_year_In in Hin. destruct Hin as (r' & Hr' & Hy' & ->).
      simpl in *. apply opt_eqb_eq in Hon.
      exists r'. repeat split; auto.
  - intros Figure cp G h Hgeo Hdf Hint.
    rewrite plot_map_figure, Hgeo, Hdf, Hint. reflexivity.
Qed.

(** Agra has two results in 2019, and two rows in the table; Varanasi
    has none, and one row. *)
Lemma left_join_keeps_every_region_witness :
  count (on_pc_name Sample.geo_agra)
    (df_year (Some 2019%float) Sample.df_hist_UP_2019_twice) = 2
  /\ count (of_region Sample.geo_agra)
       (party_map_table Sample.geo Sample.df_hist_UP_2019_twice
          (Some 2019%float)) = 2
  /\ count (of_region (mk_geo_row (Sample.text "Varanasi") 3))
       (party_map_table Sample.geo Sample.df_hist_UP_2019_twice
          (Some 2019%float)) = 1.
Proof.
  destruct (left_join_keeps_every_region Sample.geo
              Sample.df_hist_UP_2019_twice (Some 2019%float))
    as (_ & _ & Hcount & _).
  split; [reflexivity|]. split.
  - rewrite Hcount. reflexivity.
  - rewrite Hcount. reflexivity.
Defined.

(** The table of the sample, by evaluation: Agra and Aligarh have a
    result of 2019, Varanasi has none. *)
Example party_map_table_UP_2019 :
  map (fun m => (m_pc_name m, m_party m))
    (party_map_table Sample.geo Sample.df_hist_UP_2019 (Some 2019%float))
  = [ (Sample.text "Agra", Sample.text "BJP");
      (Sample.text "Aligarh", Sample.text "BJP");
      (Sample.text "Varanasi", Sample.text "OTHER") ].
Proof. reflexivity. Qed.

End PartyMap.

Module PartyNames.

Import Main DF DFFacts KeyFacts TitleFacts.

(** On a text that does not start with two ASCII capitals,
    [replace(party_map)] gives an abbreviation only for its full
    name. *)
Lemma replace_party_map_iff (t k v : Py.str) :
  (forall d1 d2 rest,
      Py.is_upper_ascii d1 = true -> Py.is_upper_ascii d2 = true ->
      t <> d1 :: d2 :: rest) ->
  In (k, v) party_map ->
  (replace party_map t = v <-> t = k).
Proof.
  intros Hcap Hin. vm_compute in Hin.
  split.
  - intros H. cbv [party_map replace] in H.
    repeat match type of H with
      | context [Py.eqb t ?k] =>
          let E := fresh "E" in
          destruct (Py.eqb t k) eqn:E;
          [apply PyFacts.eqb_eq in E; vm_compute in E, H|]
      end;
      repeat (destruct Hin as [Hin|Hin];
              [injection Hin as <- <-;
               first [ assumption | discriminate H
                     | exfalso; vm_compute in H;
                       refine (Hcap _ _ _ _ _ H); reflexivity ]|]);
      contradiction.
  - intros ->.
    repeat (destruct Hin as [Hin|Hin];
            [injection Hin as <- <-; reflexivity|]).
    contradiction.
Qed.

(** X1. Under either pandas, an abbreviation of [party_map] is the
    party of a row exactly when the raw party, stripped and in title
    case, is the full name it stands for. (So a raw party that is
    already written ["BJP"] becomes ["Bjp"], not ["BJP"].) *)
Theorem abbreviation_only_from_full_name (version : pandas)
  (c : option Py.str) (k v : Py.str) :
  In (k, v) party_map ->
  (clean_party version c = Some v <->
   strip_title (astype_str version c) = Some k).
Proof.
  intros Hin. unfold clean_party.
  destruct (astype_str version c) as [s|];
    unfold strip_title; cbn [option_map]; [|split; discriminate].
  assert (H := replace_party_map_iff (Py.title (Py.strip s)) k v
                 (fun d1 d2 rest H1 H2 =>
                    title_not_capitals (Py.strip s) d1 d2 rest H1 H2)
                 Hin).
  split.
  - intros E. injection E as E. f_equal. now apply H.
  - intros E. injection E as E. f_equal. now apply H.
Qed.

(** A party written with U+017F, the long s, which is not in ASCII:
    its title-case form is the capital S. *)
Lemma abbreviation_only_from_full_name_witness :
  In (Py.lit "Samajwadi Party", Py.lit "SP") party_map /\
  (clean_party pandas_3
     (Some (383%N :: Py.lit "amajwadi party ")) = Some (Py.lit "SP") <->
   strip_title
     (astype_str pandas_3 (Some (383%N :: Py.lit "amajwadi party ")))
   = Some (Py.lit "Samajwadi Party")).
Proof.
  assert (Hin : In (Py.lit "Samajwadi Party", Py.lit "SP") party_map)
    by (vm_compute; tauto).
  split; [exact Hin|].
  exact (abbreviation_only_from_full_name _ _ _ _ Hin).
Defined.

(** The long s in the sample above, by evaluation. *)
Example long_s_Samajwadi_Party :
  clean_party pandas_3 (Some (383%N :: Py.lit "amajwadi party "))
  = Some (Py.lit "SP").
Proof. vm_compute. reflexivity. Qed.

Lemma replace_cases (m : list (Py.str * Py.str)) (s : Py.str) :
  (exists v, In (s, v) m /\ replace m s = v)
  \/ (replace m s = s /\ ~ In s (map fst m)).
Proof.
  induction m as [|[k v] m IH]; simpl.
  - right. split; [reflexivity|tauto].
  - destruct (Py.eqb s k) eqn:E.
    + apply PyFacts.eqb_eq in E. subst k. left. exists v. auto.
    + destruct IH as [(v' & Hin & Hv)|[Hr Hno]].
      * left. exists v'. auto.
      * right. split; [exact Hr|]. intros [->|H]; [|tauto].
        now rewrite PyFacts.eqb_refl in E.
Qed.

(** A party that starts with two ASCII capitals after the cleaning is
    one of the abbreviations. *)
Lemma clean_party_capitals (version : pandas) (c : option Py.str)
  d1 d2 rest :
  Py.is_upper_ascii d1 = true -> Py.is_upper_ascii d2 = true ->
  clean_party version c = Some (d1 :: d2 :: rest) ->
  exists k, strip_title (astype_str version c) = Some k
            /\ In (k, d1 :: d2 :: rest) party_map.
Proof.
  intros H1 H2 E. unfold clean_party in E.
  destruct (astype_str version c) as [s|];
    unfold strip_title in *; cbn [option_map] in *; [|discriminate].
  assert (E' : replace party_map (Py.title (Py.strip s))
               = d1 :: d2 :: rest) by (now injection E).
  clear E. rename E' into E. exists (Py.title (Py.strip s)).
  split; [reflexivity|].
  destruct (replace_cases party_map (Py.title (Py.strip s)))
    as [(v & Hin & Hv)|[Hr _]].
  - rewrite Hv in E. now subst v.
  - rewrite Hr in E. now apply title_not_capitals in E.
Qed.

Lemma clean_party_not_OTHER (version : pandas) (c : option Py.str) :
  clean_party version c <> Some OTHER.
Proof.
  intros E.
  apply (clean_party_capitals version c 79%N 84%N (Py.lit "HER")) in E;
    [|reflexivity|reflexivity].
  destruct E as (k & _ & E). vm_compute in E.
  repeat (destruct E as [E|E]; [discriminate E|]). contradiction.
Qed.

(** Under pandas 2 every row has a party. *)
Lemma clean_party_pandas_2 (c : option Py.str) :
  clean_party pandas_2 c <> None.
Proof. destruct c; discriminate. Qed.

(** Under pandas 3 the party is missing where the file has none. *)
Lemma clean_party_pandas_3 (c : option Py.str) :
  clean_party pandas_3 c = None <-> c = None.
Proof.
  destruct c as [s|]; unfold clean_party, strip_title, astype_str;
    cbn [option_map]; split; intros H; try discriminate H; reflexivity.
Qed.

(** The party of a row of [df_hist] is the cleaned party of a row of
    the file. *)
Lemma df_hist_party (version : pandas) (to_numeric : Py.str -> float)
  (raw : list raw_row) (r : row) :
  In r (df_hist (df_loaded version to_numeric raw)) ->
  exists x, In x raw /\ party r = clean_party version (raw_party x).
Proof.
  unfold df_hist, clean, df_loaded. intros H.
  apply in_map_iff in H. destruct H as (r1 & <- & H).
  apply in_map_iff in H. destruct H as (r2 & <- & H).
  apply in_map_iff in H. destruct H as (r3 & <- & H).
  apply filter_In in H. destruct H as [H _].
  apply in_map_iff in H. destruct H as (x & <- & H).
  exists x. split; [exact H|reflexivity].
Qed.

(** X2. On the tables the program computes, a region of the
    winning-party map has the party ["OTHER"] when no result of the
    selected year has the region's name. A row of the map that has the
    party ["OTHER"] although a result has the name is the row of a
    result without a party: no party of [df_hist] is itself
    ["OTHER"]. Under pandas 2, where every row has a party, ["OTHER"]
    marks exactly the regions without a result. *)
Theorem OTHER_marks_regions_without_result (version : pandas)
  (to_numeric : Py.str -> float) (raw : list raw_row)
  (geo : list geo_row) (selected_year : option float) (m : map_row) :
  In m (party_map_table geo (df_hist (df_loaded version to_numeric raw))
          selected_year) ->
  ((forall r, In r (df_hist (df_loaded version to_numeric raw)) ->
      year_is selected_year r = true -> Pc_name r <> m_pc_name m) ->
   m_party m = Some OTHER)
  /\ (m_party m = Some OTHER ->
      (forall r, In r (df_hist (df_loaded version to_numeric raw)) ->
         year_is selected_year r = true -> Pc_name r <> m_pc_name m)
      \/ (exists r, In r (df_hist (df_loaded version to_numeric raw))
            /\ year_is selected_year r = true
            /\ Pc_name r = m_pc_name m
            /\ candidate_name r = m_candidate_name m
            /\ party r = None))
  /\ (version = pandas_2 ->
      (m_party m = Some OTHER <->
       forall r, In r (df_hist (df_loaded version to_numeric raw)) ->
         year_is selected_year r = true -> Pc_name r <> m_pc_name m)).
Proof.
  intros Hm. apply PartyMap.party_of_row in Hm. destruct Hm as [H0 Hpos].
  set (df := df_hist (df_loaded version to_numeric raw)) in *.
  assert (Hto : (forall r, In r df -> year_is selected_year r = true ->
                   Pc_name r <> m_pc_name m) ->
                m_party m = Some OTHER).
  { intros Hno. apply H0. now apply PartyMap.no_match_iff. }
  assert (Hfrom : m_party m = Some OTHER ->
            (forall r, In r df -> year_is selected_year r = true ->
               Pc_name r <> m_pc_name m)
            \/ (exists r, In r df /\ year_is selected_year r = true
                  /\ Pc_name r = m_pc_name m
                  /\ candidate_name r = m_candidate_name m
                  /\ party r = None)).
  { intros HO.
    destruct (count (fun y => opt_eqb (m_pc_name m) (y_Pc_name y))
                (df_year selected_year df)) eqn:En.
    - left. now apply PartyMap.no_match_iff.
    - right. destruct (Hpos ltac:(lia)) as (y & Hy & Hon & H1 & H2 & H3).
      apply PartyMap.df_year_In in Hy.
      destruct Hy as (r & Hr & Hyr & ->). simpl in *.
      apply opt_eqb_eq in Hon.
      exists r. repeat split; auto.
      destruct (party r) as [p|] eqn:Hp; [|reflexivity].
      exfalso. rewrite HO in H2. injection H2 as H2.
      destruct (df_hist_party version to_numeric raw r Hr)
        as (x & _ & Hx).
      apply (clean_party_not_OTHER version (raw_party x)).
      rewrite <- Hx, Hp, H2. reflexivity. }
  split; [exact Hto|]. split; [exact Hfrom|].
  intros ->. split; [|exact Hto].
  intros HO. destruct (Hfrom HO) as [H|(r & Hr & _ & _ & _ & Hp)];
    [exact H|].
  exfalso.
  destruct (df_hist_party pandas_2 to_numeric raw r Hr) as (x & _ & Hx).
  apply (clean_party_pandas_2 (raw_party x)). now rewrite <- Hx.
Qed.

(** Under pandas 3 the region of a result without a party has the
    party ["OTHER"]: Agra, with its party left out of the file. *)
Lemma OTHER_marks_regions_without_result_witness :
  In (mk_map_row (Sample.text "Agra") 1 (Sample.text "Agra") (Some OTHER)
        (Sample.text "S P Singh"))
    (party_map_table Sample.geo
       (df_hist (df_loaded pandas_3 Sample.to_numeric
                   [Sample.raw_agra_no_party]))
       (Some 2019%float))
  /\ ((forall r,
         In r (df_hist (df_loaded pandas_3 Sample.to_numeric
                          [Sample.raw_agra_no_party])) ->
         year_is (Some 2019%float) r = true ->
         Pc_name r <> Sample.text "Agra")
      \/ (exists r,
            In r (df_hist (df_loaded pandas_3 Sample.to_numeric
                             [Sample.raw_agra_no_party]))
            /\ year_is (Some 2019%float) r = true
            /\ Pc_name r = Sample.text "Agra"
            /\ candidate_name r = Sample.text "S P Singh"
            /\ party r = None)).
Proof.
  assert (Hin : In (mk_map_row (Sample.text "Agra") 1 (Sample.text "Agra")
                      (Some OTHER) (Sample.text "S P Singh"))
                  (party_map_table Sample.geo
                     (df_hist (df_loaded pandas_3 Sample.to_numeric
                                 [Sample.raw_agra_no_party]))
                     (Some 2019%float)))
    by (vm_compute; tauto).
  split; [exact Hin|].
  exact (proj1 (proj2 (OTHER_marks_regions_without_result pandas_3
                         Sample.to_numeric [Sample.raw_agra_no_party]
                         Sample.geo (Some 2019%float) _ Hin))
           eq_refl).
Defined.

(** The same file under pandas 2: the party is the text ["Nan"]. *)
Example party_Nan_under_pandas_2 :
  map (fun m => (m_pc_name m, m_party m))
    (party_map_table Sample.geo
       (df_hist (df_loaded pandas_2 Sample.to_numeric
                   [Sample.raw_agra_no_party]))
       (Some 2019%float))
  = [ (Sample.text "Agra", Sample.text "Nan");
      (Sample.text "Aligarh", Sample.text "OTHER");
      (Sample.text "Varanasi", Sample.text "OTHER") ].
Proof. vm_compute. reflexivity. Qed.

(** X3. Under either pandas, a result counts for the history chart,
    whose rows are the ones with a party of [major_parties], exactly
    when its raw party, stripped and in title case, is one of the
    eight full names of [party_map]. *)
Theorem major_party_only_from_full_name (version : pandas)
  (c : option Py.str) :
  isin major_parties (clean_party version c) = true <->
  exists k, strip_title (astype_str version c) = Some k
            /\ In k (map fst party_map).
Proof.
  split.
  - intros H. unfold isin in H.
    destruct (clean_party version c) as [p|] eqn:E; [|discriminate].
    apply existsb_exists in H.
    destruct H as (v & Hv & Ev). apply PyFacts.eqb_eq in Ev. subst p.
    assert (Hk : exists k, strip_title (astype_str version c) = Some k
                           /\ In (k, v) party_map).
    { vm_compute in Hv.
      repeat (destruct Hv as [Hv|Hv];
              [subst v;
               apply clean_party_capitals; [reflexivity|reflexivity|exact E]
              |]).
      contradiction. }
    destruct Hk as (k & Hk & Hin). exists k. split; [exact Hk|].
    apply in_map_iff. now exists (k, v).
  - intros (k & Hk & H). apply in_map_iff in H.
    destruct H as ([k' v] & Ek & Hin). simpl in Ek. subst k'.
    rewrite (proj2 (abbreviation_only_from_full_name version c k v Hin) Hk).
    repeat (destruct Hin as [Hin|Hin];
            [injection Hin as _ <-; reflexivity|]).
    contradiction.
Qed.

End PartyNames.

Module MarginMap.

Import Main DF DFFacts KeyFacts App AppFacts.

Section LeftJoin.

Variables L R : Type.
Variable on : L -> R -> bool.

Lemma left_rows_size ys g :
  length (left_rows on ys g) = Nat.max 1 (count (on g) ys).
Proof.
  unfold left_rows, count.
  destruct (filter (on g) ys) as [|y l]; [reflexivity|].
  rewrite length_map. simpl. reflexivity.
Qed.

Lemma left_rows_left ys g p : In p (left_rows on ys g) -> fst p = g.
Proof.
  unfold left_rows.
  destruct (filter (on g) ys) as [|y l].
  - intros [<-|[]]. reflexivity.
  - intros H. apply in_map_iff in H. destruct H as (r & <- & _).
    reflexivity.
Qed.

Lemma left_rows_right ys g p :
  In p (left_rows on ys g) ->
  match snd p with
  | Some y => In y ys /\ on g y = true
  | None => count (on g) ys = 0
  end.
Proof.
  unfold left_rows, count.
  destruct (filter (on g) ys) as [|y l] eqn:E.
  - intros [<-|[]]. reflexivity.
  - intros H. apply in_map_iff in H. destruct H as (r & <- & Hr).
    simpl. apply filter_In. rewrite E. exact Hr.
Qed.

Lemma merge_left_rows p left ys :
  In p (merge_left on left ys) ->
  In (fst p) left /\ In p (left_rows on ys (fst p)).
Proof.
  unfold merge_left. intros H. apply in_flat_map in H.
  destruct H as (g & Hg & Hp).
  rewrite (left_rows_left ys g p Hp). auto.
Qed.

End LeftJoin.

Lemma of_margin_region_row g p :
  of_margin_region g (fillna_margin_color (margin_map_row_of p))
  = same_region g (fst p).
Proof. destruct p as [g' [y|]]; reflexivity. Qed.

Lemma same_region_on_Pc_name_margin g g' ys :
  same_region g g' = true ->
  count (on_Pc_name_margin g') ys = count (on_Pc_name_margin g) ys.
Proof.
  unfold same_region. rewrite andb_true_iff, opt_eqb_eq.
  intros [H _]. apply count_ext_in. intros y _.
  unfold on_Pc_name_margin. now rewrite H.
Qed.

Lemma count_of_margin_region g geo ys :
  count (of_margin_region g)
    (map fillna_margin_color (merge_margin_map geo ys))
  = count (same_region g) geo
    * Nat.max 1 (count (on_Pc_name_margin g) ys).
Proof.
  unfold merge_margin_map. rewrite map_map.
  change (fun g0 y => opt_eqb (pc_name g0) (g_Pc_name y))
    with on_Pc_name_margin.
  induction geo as [|g' geo IH]; [reflexivity|].
  change (merge_left on_Pc_name_margin (g' :: geo) ys)
    with (left_rows on_Pc_name_margin ys g'
            ++ merge_left on_Pc_name_margin geo ys).
  rewrite map_app, PartyMap.count_app, IH, count_cons.
  destruct (same_region g g') eqn:E.
  - rewrite PartyMap.count_all.
    + rewrite length_map, left_rows_size.
      rewrite (same_region_on_Pc_name_margin g g' ys E). lia.
    + intros m Hm. apply in_map_iff in Hm. destruct Hm as (p & <- & Hp).
      rewrite of_margin_region_row, (left_rows_left _ _ _ ys g' p Hp).
      exact E.
  - rewrite PartyMap.count_none; [lia|].
    intros m Hm. apply in_map_iff in Hm. destruct Hm as (p & <- & Hp).
    rewrite of_margin_region_row, (left_rows_left _ _ _ ys g' p Hp).
    exact E.
Qed.

(** The figure of [plot_margin_map] is drawn from [margin_map_table]
    of the two tables in memory. *)
Lemma plot_margin_map_figure (Figure : Type)
  (choropleth_margin : option float -> list margin_map_row -> Figure)
  (G : globals) (selected_year : option float) (h : heap) :
  fst (plot_margin_map choropleth_margin G selected_year h)
  = if int_defined selected_year
    then Some (choropleth_margin selected_year
                 (margin_map_table
                    (regions_of (nth (geo_ref G) h (ResultsFrame [])))
                    (results_of (nth (df_hist_ref G) h (ResultsFrame [])))
                    selected_year))
    else None.
Proof.
  unfold plot_margin_map, bind, load, new_frame, store, ret. simpl.
  rewrite nth_update_same by (rewrite length_app; simpl; lia).
  rewrite nth_middle. reflexivity.
Qed.

Lemma dup_eqb_refl x : F64.dup_eqb x x = true.
Proof.
  destruct (F64.isna x) eqn:E.
  - unfold F64.dup_eqb. rewrite E. apply orb_true_r.
  - rewrite dup_eqb_key by exact E. now apply F64Facts.key_eqb_refl.
Qed.

Lemma same_margin_row_refl a : same_margin_row a a = true.
Proof.
  unfold same_margin_row.
  now rewrite !opt_eqb_refl, dup_eqb_refl.
Qed.

Lemma same_margin_row_sym a b : same_margin_row a b = same_margin_row b a.
Proof.
  unfold same_margin_row.
  now rewrite (opt_eqb_sym (g_Pc_name a)), (dup_eqb_sym (g_margin a)),
    (opt_eqb_sym (g_margin_color a)), (opt_eqb_sym (g_party a)).
Qed.

Lemma same_margin_row_trans a b c :
  same_margin_row a b = true -> same_margin_row b c = true ->
  same_margin_row a c = true.
Proof.
  unfold same_margin_row. rewrite !andb_true_iff, !opt_eqb_eq.
  intros [[[-> H1] ->] ->] [[[-> H2] ->] ->].
  repeat split. eapply dup_eqb_trans; eauto.
Qed.

(** The rows of [df_year_margin]: the four columns of the rows of the
    selected year, each once; two rows are the same when their columns
    are equal, missing values being equal to each other. *)
Lemma df_year_margin_In selected_year df y :
  In y (df_year_margin selected_year df) ->
  exists r, In r df /\ year_is selected_year r = true /\
    y = mk_margin_row (Pc_name r) (margin r) (margin_color r) (party r).
Proof.
  unfold df_year_margin. intros H. apply drop_duplicates_In in H.
  apply in_map_iff in H. destruct H as (r & <- & H).
  apply filter_In in H. destruct H as [H Hy]. eauto.
Qed.

Lemma df_year_margin_complete selected_year df r :
  In r df -> year_is selected_year r = true ->
  exists y, In y (df_year_margin selected_year df) /\
    same_margin_row
      (mk_margin_row (Pc_name r) (margin r) (margin_color r) (party r)) y
    = true.
Proof.
  intros Hr Hy. unfold df_year_margin.
  apply (drop_duplicates_complete _ same_margin_row same_margin_row_sym
           same_margin_row_trans).
  - apply in_map_iff. exists r. split; [reflexivity|].
    apply filter_In. auto.
  - apply same_margin_row_refl.
Qed.

Lemma df_year_margin_distinct selected_year df y :
  count (same_margin_row y) (df_year_margin selected_year df) <= 1.
Proof.
  unfold df_year_margin, drop_duplicates.
  rewrite (count_drop_duplicates_from _ same_margin_row
             same_margin_row_sym same_margin_row_trans).
  simpl. destruct (existsb _ _); lia.
Qed.

(** X4. The table of the margin map is the left join of the regions
    with the results of the selected year: the rows [df_year] joins
    are the distinct quadruples of name, margin, margin color and party
    of the rows of the results table with that year; the table holds
    every region of the boundary table once for each of these results
    with the region's name and once when there is none, and the figure
    of [plot_margin_map] is drawn from this table. *)
Theorem margin_map_keeps_every_region (geo : list geo_row)
  (df : list row) (selected_year : option float) :
  (forall y, In y (df_year_margin selected_year df) ->
      exists r, In r df /\ year_is selected_year r = true /\
        y = mk_margin_row (Pc_name r) (margin r) (margin_color r)
              (party r))
  /\ (forall r, In r df -> year_is selected_year r = true ->
        exists y, In y (df_year_margin selected_year df) /\
          same_margin_row
            (mk_margin_row (Pc_name r) (margin r) (margin_color r)
               (party r)) y = true)
  /\ (forall y,
        count (same_margin_row y) (df_year_margin selected_year df) <= 1)
  /\ (forall g,
        count (of_margin_region g) (margin_map_table geo df selected_year)
        = count (same_region g) geo
          * Nat.max 1 (count (on_Pc_name_margin g)
                         (df_year_margin selected_year df)))
  /\ (forall g, In g geo ->
        1 <= count (of_margin_region g)
               (margin_map_table geo df selected_year))
  /\ (forall (Figure : Type)
        (choropleth_margin :
           option float -> list margin_map_row -> Figure)
        (G : globals) (h : heap),
        nth (geo_ref G) h (ResultsFrame []) = GeoFrame geo ->
        nth (df_hist_ref G) h (ResultsFrame []) = ResultsFrame df ->
        int_defined selected_year = true ->
        fst (plot_margin_map choropleth_margin G selected_year h)
        = Some (choropleth_margin selected_year
                  (margin_map_table geo df selected_year))).
Proof.
  split; [apply df_year_margin_In|].
  split; [apply df_year_margin_complete|].
  split; [apply df_year_margin_distinct|].
  unfold margin_map_table. split; [|split].
  - intros g. apply count_of_margin_region.
  - intros g Hg. rewrite count_of_margin_region.
    assert (0 < count (same_region g) geo).
    { apply count_pos. exists g. split; [exact Hg|].
      apply PartyMap.same_region_refl. }
    nia.
  - intros Figure cm G h Hgeo Hdf Hint.
    rewrite plot_margin_map_figure, Hgeo, Hdf, Hint. reflexivity.
Qed.

(** Agra has two results in 2019, with margins of 20 and 18, and two
    rows in the table; Varanasi has none, and one row. *)
Lemma margin_map_keeps_every_region_witness :
  count (on_Pc_name_margin Sample.geo_agra)
    (df_year_margin (Some 2019%float) Sample.df_hist_UP_2019_twice) = 2
  /\ count (of_margin_region Sample.geo_agra)
       (margin_map_table Sample.geo Sample.df_hist_UP_2019_twice
          (Some 2019%float)) = 2
  /\ count (of_margin_region (mk_geo_row (Sample.text "Varanasi") 3))
       (margin_map_table Sample.geo Sample.df_hist_UP_2019_twice
          (Some 2019%float)) = 1.
Proof.
  destruct (margin_map_keeps_every_region Sample.geo
              Sample.df_hist_UP_2019_twice (Some 2019%float))
    as (_ & _ & _ & Hcount & _).
  split; [reflexivity|]. split.
  - rewrite Hcount. reflexivity.
  - rewrite Hcount. reflexivity.
Defined.

Lemma fillna_gray_twice c : fillna_gray (fillna_gray c) = fillna_gray c.
Proof. destruct c; reflexivity. Qed.

Lemma color_discrete_map_keys :
  map fst color_discrete_map = labels ++ [gray].
Proof. reflexivity. Qed.

(** The rows of the margin table of [df_hist]: the margin that is
    shown and the color belong together. *)
Lemma margin_map_table_color (loaded : list row) (geo : list geo_row)
  (selected_year : option float) (m : margin_map_row) :
  In m (margin_map_table geo (df_hist loaded) selected_year) ->
  mm_margin_color m = fillna_gray (cut (mm_margin m)).
Proof.
  unfold margin_map_table, merge_margin_map. rewrite map_map. intros H.
  apply in_map_iff in H. destruct H as ([g o] & <- & Hp).
  apply merge_left_rows in Hp. destruct Hp as [_ Hp]. simpl in Hp.
  apply left_rows_right in Hp. simpl in Hp.
  destruct o as [y|]; [|reflexivity].
  destruct Hp as [Hy _]. unfold df_year_margin in Hy.
  apply drop_duplicates_In in Hy. apply in_map_iff in Hy.
  destruct Hy as (r & <- & Hr). apply filter_In in Hr.
  destruct Hr as [Hr _]. simpl.
  rewrite (MarginBuckets.df_hist_In r loaded Hr).
  apply fillna_gray_twice.
Qed.

(** The cleaning and the derived columns leave the party of a row as
    it was loaded. *)
Lemma df_hist_party_loaded (loaded : list row) (r : row) :
  In r (df_hist loaded) -> exists x, In x loaded /\ party r = party x.
Proof.
  unfold df_hist, clean. intros H.
  apply in_map_iff in H. destruct H as (r1 & <- & H).
  apply in_map_iff in H. destruct H as (r2 & <- & H).
  apply in_map_iff in H. destruct H as (x & <- & H).
  apply filter_In in H. destruct H as [H _]. eauto.
Qed.

(** X5. On the margin map every region has a color that is a key of
    [color_discrete_map]: the bucket of the margin shown for it, and
    ["gray"] exactly when that margin is missing or outside 0 to 100;
    a region without a result of the selected year has no margin, and
    is gray. Where every loaded row has a party, as under pandas 2, a
    row of the map with no name and no party of a result is the row of
    such a region. *)
Theorem margin_map_colors_are_keyed (loaded : list row)
  (geo : list geo_row) (selected_year : option float)
  (m : margin_map_row) :
  In m (margin_map_table geo (df_hist loaded) selected_year) ->
  mm_margin_color m = fillna_gray (cut (mm_margin m))
  /\ (exists l, mm_margin_color m = Some l
                /\ In l (map fst color_discrete_map))
  /\ (mm_margin_color m = Some gray <-> in_range (mm_margin m) = false)
  /\ ((forall r, In r (df_hist loaded) ->
         year_is selected_year r = true -> Pc_name r <> mm_pc_name m) ->
      F64.isna (mm_margin m) = true /\ mm_margin_color m = Some gray)
  /\ ((forall r, In r loaded -> party r <> None) ->
      mm_Pc_name m = None -> mm_party m = None ->
      mm_margin_color m = Some gray).
Proof.
  intros Hm. assert (Hc := margin_map_table_color loaded geo _ m Hm).
  destruct (MarginBuckets.bucket_of_margin (mm_margin m)) as [Hin Hout].
  split; [exact Hc|]. split; [|split; [|split]].
  - rewrite Hc, color_discrete_map_keys.
    destruct (in_range (mm_margin m)) eqn:E.
    + destruct (Hin eq_refl) as (i & _ & Hl & _).
      rewrite Hl. destruct (nth_error labels i) as [l|] eqn:El.
      * exists l. split; [reflexivity|].
        apply in_or_app. left. eapply nth_error_In. exact El.
      * destruct (cut (mm_margin m)); discriminate Hl.
    + exists gray. split; [now apply Hout|].
      apply in_or_app. right. now left.
  - rewrite Hc. exact Hout.
  - intros Hno.
    unfold margin_map_table, merge_margin_map in Hm.
    rewrite map_map in Hm. apply in_map_iff in Hm.
    destruct Hm as ([g [y|]] & <- & Hp); [|split; reflexivity].
    exfalso. apply merge_left_rows in Hp. destruct Hp as [_ Hp].
    apply left_rows_right in Hp. simpl in Hp. destruct Hp as [Hy Hon].
    apply df_year_margin_In in Hy. destruct Hy as (r & Hr & Hyr & ->).
    simpl in Hon, Hno. apply opt_eqb_eq in Hon.
    apply (Hno r Hr Hyr). now symmetry.
  - intros Hparty _ Hp.
    unfold margin_map_table, merge_margin_map in Hm.
    rewrite map_map in Hm. apply in_map_iff in Hm.
    destruct Hm as ([g [y|]] & <- & Hm); [|reflexivity].
    exfalso. apply merge_left_rows in Hm. destruct Hm as [_ Hm].
    apply left_rows_right in Hm. simpl in Hm. destruct Hm as [Hy _].
    apply df_year_margin_In in Hy. destruct Hy as (r & Hr & _ & ->).
    simpl in Hp.
    destruct (df_hist_party_loaded loaded r Hr) as (x & Hx & E).
    apply (Hparty x Hx). now rewrite <- E.
Qed.

Lemma margin_map_colors_are_keyed_witness :
  In (mk_margin_map_row (Sample.text "Varanasi") 3 None nan (Some gray)
        None)
    (margin_map_table Sample.geo
       (df_hist (df_loaded pandas_2 Sample.to_numeric Sample.raw_UP_2019))
       (Some 2019%float))
  /\ exists l, Some gray = Some l /\ In l (map fst color_discrete_map).
Proof.
  assert (Hin : In (mk_margin_map_row (Sample.text "Varanasi") 3 None nan
                      (Some gray) None)
                  (margin_map_table Sample.geo
                     (df_hist (df_loaded pandas_2 Sample.to_numeric
                                 Sample.raw_UP_2019))
                     (Some 2019%float)))
    by (vm_compute; tauto).
  split; [exact Hin|].
  exact (proj1 (proj2 (margin_map_colors_are_keyed _ _ _ _ Hin))).
Defined.

(** Under pandas 3 a result with no name and no party, joined to a
    region with no name, has the color of its margin: on a row of the
    margin map a missing name and a missing party do not tell that the
    region has no result. *)
Example margin_map_result_without_name_and_party :
  margin_map_table [mk_geo_row None 7]
    (df_hist (df_loaded pandas_3 Sample.to_numeric
                [mk_raw_row (Sample.text "Uttar Pradesh") (Num 2019) None
                   None (Sample.text "S P Singh") (Sample.num "59%")
                   (Sample.num "20%") (Sample.num "1,180")
                   (Sample.num "2,000")]))
    (Some 2019%float)
  = [mk_margin_map_row None 7 None 20 (Sample.text "15-20") None].
Proof. vm_compute. reflexivity. Qed.

End MarginMap.

Module Dropdowns.

Import Main DF DFFacts KeyFacts F64 F64Facts.

Section Unique.

Variable A : Type.
Variable same : A -> A -> bool.
Variable le : A -> A -> bool.
Hypothesis same_sym : forall a b, same a b = same b a.
Hypothesis same_trans :
  forall a b c, same a b = true -> same b c = true -> same a c = true.

(** After [unique], a value stands once. *)
Lemma drop_duplicates_once x l :
  In x (drop_duplicates same l) -> same x x = true ->
  count (same x) (drop_duplicates same l) = 1.
Proof.
  intros Hin Hr. apply (count_drop_duplicates _ same same_sym same_trans).
  apply existsb_exists. exists x. split; [|exact Hr].
  now apply drop_duplicates_In in Hin.
Qed.

Lemma count_zero (p : A -> bool) l :
  count p l = 0 -> forall y, In y l -> p y = false.
Proof.
  intros H y Hy. destruct (p y) eqn:E; [|reflexivity].
  assert (0 < count p l) by (apply count_pos; eauto). lia.
Qed.

(** A sorted list in which every value stands once ascends
    strictly. *)
Lemma sorted_once_strict s :
  StronglySorted (fun a b => le a b = true) s ->
  (forall x, In x s -> same x x = true) ->
  (forall x, In x s -> count (same x) s = 1) ->
  StronglySorted (fun a b => le a b = true /\ same a b = false) s.
Proof.
  induction 1 as [|x rest Hs IH Hall]; intros Hr Hc; [constructor|].
  assert (Hx : count (same x) rest = 0).
  { assert (H1 := Hc x (or_introl eq_refl)).
    rewrite count_cons, (Hr x (or_introl eq_refl)) in H1. lia. }
  constructor.
  - apply IH.
    + intros y Hy. apply Hr. now right.
    + intros y Hy. assert (H1 := Hc y (or_intror Hy)).
      rewrite count_cons, same_sym, (count_zero _ _ Hx y Hy) in H1.
      exact H1.
  - rewrite Forall_forall in *. intros y Hy. split; [now apply Hall|].
    now apply (count_zero _ _ Hx).
Qed.

Lemma sorted_unique_strict l :
  (forall a b, le a b = true \/ le b a = true) ->
  (forall a b c, le a b = true -> le b c = true -> le a c = true) ->
  (forall x, In x l -> same x x = true) ->
  StronglySorted (fun a b => le a b = true /\ same a b = false)
    (sort_values le (drop_duplicates same l)).
Proof.
  intros Htot Htr Hr. apply sorted_once_strict.
  - now apply sort_values_sorted.
  - intros x Hx. apply Hr.
    now apply sort_values_In, drop_duplicates_In in Hx.
  - intros x Hx.
    rewrite <- (GroupFacts.count_perm _ (same x) _ _
                  (sort_values_perm _ le (drop_duplicates same l))).
    apply sort_values_In in Hx.
    apply drop_duplicates_once; [exact Hx|].
    apply Hr. now apply drop_duplicates_In in Hx.
Qed.

End Unique.

Lemma StronglySorted_impl_In (A : Type) (R R' : A -> A -> Prop) s :
  (forall a b, In a s -> In b s -> R a b -> R' a b) ->
  StronglySorted R s -> StronglySorted R' s.
Proof.
  intros Himp Hs. induction Hs as [|x rest Hs IH Hall]; [constructor|].
  constructor.
  - apply IH. intros a b Ha Hb. apply Himp; now right.
  - rewrite Forall_forall in *. intros y Hy.
    apply Himp; [now left|now right|now apply Hall].
Qed.

(** [l[-1]] of a list. *)
Lemma item_last_None (A : Type) (l : list A) :
  item_last l = None <-> l = [].
Proof.
  unfold item_last. split; [|now intros ->].
  intros H. apply nth_error_None in H.
  destruct l; [reflexivity|simpl in H; lia].
Qed.

Lemma item_last_Some (A : Type) (l : list A) x :
  item_last l = Some x -> exists l', l = l' ++ [x].
Proof.
  unfold item_last. intros H.
  destruct (exists_last (l := l)) as (l' & y & ->).
  { intros ->. discriminate H. }
  exists l'. rewrite length_app in H. simpl in H.
  replace (length l' + 1 - 1) with (length l') in H by lia.
  rewrite nth_error_app2, Nat.sub_diag in H by lia.
  simpl in H. now injection H as ->.
Qed.

Lemma available_years_notna df y :
  In y (available_years df) ->
  notna y = true /\ exists r, In r df /\ year r = y.
Proof.
  unfold available_years. intros H.
  apply sort_values_In, drop_duplicates_In, filter_In in H;
    try apply asc_le_total; try apply asc_le_trans.
  destruct H as [H Hn]. split; [exact Hn|].
  apply in_map_iff in H. destruct H as (r & <- & Hr). eauto.
Qed.

Lemma available_years_complete df r :
  In r df -> notna (year r) = true ->
  exists y, In y (available_years df) /\ (y =? year r)%float = true.
Proof.
  intros Hr Hn. unfold available_years.
  assert (Hin : In (year r) (filter notna (map year df))).
  { apply filter_In. split; [now apply in_map|exact Hn]. }
  assert (Hna : isna (year r) = false)
    by (unfold notna in Hn; now apply negb_true_iff in Hn).
  destruct (drop_duplicates_complete _ key_eqb key_eqb_sym key_eqb_trans
              _ _ Hin (key_eqb_refl _ Hna)) as (d & Hd & Hs).
  exists d. split.
  - apply sort_values_In. exact Hd.
  - rewrite key_eqb_sym in Hs. exact Hs.
Qed.

Lemma asc_le_strict a b :
  notna a = true -> notna b = true ->
  asc_le a b = true -> key_eqb a b = false -> (a <? b)%float = true.
Proof.
  unfold notna, asc_le, key_eqb. rewrite !negb_true_iff.
  intros -> -> Hle He.
  rewrite MarginBuckets.leb_ltb_eqb, He, orb_false_r in Hle. exact Hle.
Qed.

(** X6. The years offered by the two year dropdowns ascend strictly
    (so none is offered twice), none of them is NaN, each is the year
    of a row of the table, and every year of a row that is not NaN is
    among them. *)
Theorem available_years_ascending_and_complete (df : list row) :
  StronglySorted (fun a b => (a <? b)%float = true) (available_years df)
  /\ (forall y, In y (available_years df) ->
        notna y = true /\ exists r, In r df /\ year r = y)
  /\ (forall r, In r df -> notna (year r) = true ->
        exists y, In y (available_years df)
                  /\ (y =? year r)%float = true).
Proof.
  split; [|split].
  - apply StronglySorted_impl_In
      with (R := fun a b => asc_le a b = true /\ key_eqb a b = false).
    + intros a b Ha Hb [Hle He].
      apply asc_le_strict; try assumption;
        now apply available_years_notna with (df := df).
    + unfold available_years.
      apply sorted_unique_strict.
      * apply key_eqb_sym.
      * apply key_eqb_trans.
      * apply asc_le_total.
      * apply asc_le_trans.
      * intros x Hx. apply filter_In in Hx. destruct Hx as [_ Hx].
        apply key_eqb_refl. unfold notna in Hx.
        now apply negb_true_iff in Hx.
  - apply available_years_notna.
  - apply available_years_complete.
Qed.

(** X7. The year the dropdowns start with is the latest year of the
    table: a year of a row, not NaN, and no row has a later one.
    Taking it raises [IndexError] exactly when no row has a year. *)
Theorem default_year_is_latest (df : list row) :
  (default_year df = None <->
   forall r, In r df -> isna (year r) = true)
  /\ (forall y, default_year df = Some y ->
        notna y = true
        /\ (exists r, In r df /\ year r = y)
        /\ forall r, In r df -> notna (year r) = true ->
             (year r <=? y)%float = true).
Proof.
  unfold default_year. split.
  - rewrite item_last_None. split.
    + intros E r Hr. destruct (isna (year r)) eqn:Hn; [reflexivity|].
      destruct (available_years_complete df r Hr) as (y & Hy & _).
      { unfold notna. now rewrite Hn. }
      rewrite E in Hy. destruct Hy.
    + intros Hall. destruct (available_years df) as [|y l] eqn:E;
        [reflexivity|].
      destruct (available_years_notna df y) as (Hn & r & Hr & Hy).
      { rewrite E. now left. }
      rewrite <- Hy in Hn. unfold notna in Hn.
      rewrite (Hall r Hr) in Hn. discriminate.
  - intros y Hy. apply item_last_Some in Hy. destruct Hy as (l' & E).
    assert (Hin : In y (available_years df))
      by (rewrite E; apply in_or_app; right; now left).
    destruct (available_years_notna df y Hin) as (Hn & Hex).
    split; [exact Hn|]. split; [exact Hex|].
    intros r Hr Hnr.
    destruct (available_years_complete df r Hr Hnr) as (e & He & Heq).
    assert (Hre : (year r <=? e)%float = true).
    { apply key_eqb_leb. unfold key_eqb.
      now rewrite MarginBuckets.float_eqb_sym. }
    apply leb_trans with (y := e); [exact Hre|].
    rewrite E in He. apply in_app_or in He.
    destruct He as [He|[<-|[]]].
    + assert (Hs : StronglySorted (fun a b => asc_le a b = true)
                     (l' ++ [y])).
      { rewrite <- E. unfold available_years.
        apply sort_values_sorted; [apply asc_le_total|apply asc_le_trans]. }
      assert (Hle := sorted_app_le _ asc_le l' [y] e y Hs He
                       (or_introl eq_refl)).
      unfold asc_le in Hle. unfold notna in Hn.
      apply negb_true_iff in Hn. rewrite Hn in Hle.
      apply leb_notna in Hre. destruct Hre as [_ Hne].
      now rewrite Hne in Hle.
    + apply leb_refl. unfold notna in Hn. now apply negb_true_iff in Hn.
Qed.

Lemma default_year_is_latest_witness :
  default_year Sample.df_hist_UP_2019 = Some 2019%float /\
  forall r, In r Sample.df_hist_UP_2019 -> notna (year r) = true ->
    (year r <=? 2019)%float = true.
Proof.
  assert (E : default_year Sample.df_hist_UP_2019 = Some 2019%float)
    by reflexivity.
  split; [exact E|].
  exact (proj2 (proj2 (proj2 (default_year_is_latest
                                Sample.df_hist_UP_2019) _ E))).
Defined.

Lemma dropna_str_In (col : list (option Py.str)) s :
  In s (dropna_str col) <-> In (Some s) col.
Proof.
  unfold dropna_str. rewrite in_flat_map. split.
  - intros ([x|] & Hc & Hx); [|destruct Hx].
    destruct Hx as [<-|[]]. exact Hc.
  - intros H. exists (Some s). split; [exact H|now left].
Qed.

Lemma str_eqb_trans a b c :
  Py.eqb a b = true -> Py.eqb b c = true -> Py.eqb a c = true.
Proof. rewrite !PyFacts.eqb_eq. congruence. Qed.

Lemma states_In df s :
  In s (states df) <-> exists r, In r df /\ state r = Some s.
Proof.
  unfold states. split.
  - intros H.
    apply sort_values_In, drop_duplicates_In, dropna_str_In, in_map_iff
      in H; try apply PyFacts.str_leb_total;
      try apply PyFacts.str_leb_trans.
    exact (match H with ex_intro _ r (conj E Hr) =>
                          ex_intro _ r (conj Hr E) end).
  - intros (r & Hr & E).
    assert (Hin : In s (dropna_str (map state df))).
    { apply dropna_str_In. rewrite <- E. now apply in_map. }
    destruct (drop_duplicates_complete _ Py.eqb PyFacts.str_eqb_sym
                str_eqb_trans _ _ Hin (PyFacts.eqb_refl s))
      as (d & Hd & Hs).
    apply PyFacts.eqb_eq in Hs. subst d.
    apply sort_values_In. exact Hd.
Qed.

(** X8. The states offered by the state dropdown are the states of
    the rows of the table, each once, in ascending order of their
    code points. *)
Theorem states_ascending_and_complete (df : list row) :
  StronglySorted (fun a b => Py.leb a b = true /\ a <> b) (states df)
  /\ (forall s, In s (states df) <->
        exists r, In r df /\ state r = Some s).
Proof.
  split; [|apply states_In].
  apply StronglySorted_impl_In
    with (R := fun a b => Py.leb a b = true /\ Py.eqb a b = false).
  - intros a b _ _ [Hle He]. split; [exact Hle|].
    intros ->. now rewrite PyFacts.eqb_refl in He.
  - unfold states. apply sorted_unique_strict.
    + apply PyFacts.str_eqb_sym.
    + apply str_eqb_trans.
    + apply PyFacts.str_leb_total.
    + apply PyFacts.str_leb_trans.
    + intros x _. apply PyFacts.eqb_refl.
Qed.

(** X9. The state the dropdown starts with is the first state in
    that order: the state of a row, and no row has a state before it.
    Taking it raises [IndexError] exactly when no row has a state. *)
Theorem default_state_is_first (df : list row) :
  (default_state df = None <-> forall r, In r df -> state r = None)
  /\ (forall s, default_state df = Some s ->
        (exists r, In r df /\ state r = Some s)
        /\ forall r s', In r df -> state r = Some s' ->
             Py.leb s s' = true).
Proof.
  unfold default_state, item_first. split.
  - split.
    + intros E r Hr. destruct (state r) as [s|] eqn:Hs; [|reflexivity].
      assert (Hin : In s (states df)) by (apply states_In; eauto).
      destruct (states df); [destruct Hin|discriminate E].
    + intros Hall. destruct (states df) as [|s l] eqn:E; [reflexivity|].
      assert (Hin : In s (states df)) by (rewrite E; now left).
      apply states_In in Hin. destruct Hin as (r & Hr & Hs).
      rewrite (Hall r Hr) in Hs. discriminate.
  - intros s Hs. destruct (states df) as [|s0 l] eqn:E; [discriminate|].
    simpl in Hs. injection Hs as ->.
    split.
    + apply states_In. rewrite E. now left.
    + intros r s' Hr Hs'.
      assert (Hin : In s' (states df)) by (apply states_In; eauto).
      rewrite E in Hin. destruct Hin as [<-|Hin];
        [apply PyFacts.str_leb_refl|].
      assert (Hsort : StronglySorted (fun a b => Py.leb a b = true)
                        (s :: l)).
      { rewrite <- E. unfold states.
        apply sort_values_sorted;
          [apply PyFacts.str_leb_total|apply PyFacts.str_leb_trans]. }
      apply StronglySorted_inv in Hsort. destruct Hsort as [_ Hall].
      rewrite Forall_forall in Hall. now apply Hall.
Qed.

Lemma default_state_is_first_witness :
  default_state Sample.df_kerala_2019 = Some Sample.Kerala /\
  exists r, In r Sample.df_kerala_2019 /\ state r = Some Sample.Kerala.
Proof.
  assert (E : default_state Sample.df_kerala_2019 = Some Sample.Kerala)
    by reflexivity.
  split; [exact E|].
  exact (proj1 (proj2 (default_state_is_first Sample.df_kerala_2019)
                  _ E)).
Defined.

End Dropdowns.

Module Totals.

Import Main DF DFFacts GroupFacts KeyFacts DominanceFacts.

Lemma count_add (A : Type) (p q r : A -> bool) l :
  (forall x, In x l ->
     (if p x then 1 else 0) + (if q x then 1 else 0)
     = if r x then 1 else 0) ->
  count p l + count q l = count r l.
Proof.
  induction l as [|a l IH]; intros H; [reflexivity|].
  rewrite !count_cons.
  assert (Ha := H a (or_introl eq_refl)).
  assert (IH' := IH (fun x Hx => H x (or_intror Hx))). lia.
Qed.

Lemma count_false (A : Type) (l : list A) : count (fun _ => false) l = 0.
Proof. induction l as [|a l IH]; [reflexivity|]. now rewrite count_cons. Qed.

Lemma count_true (A : Type) (p : A -> bool) l :
  (forall x, In x l -> p x = true) -> count p l = length l.
Proof.
  intros H. induction l as [|a l IH]; [reflexivity|].
  rewrite count_cons, (H a (or_introl eq_refl)), IH; [reflexivity|].
  intros x Hx. apply H. now right.
Qed.

Lemma count_filter_le (A : Type) (p q : A -> bool) l :
  count p (filter q l) <= count p l.
Proof.
  induction l as [|a l IH]; [reflexivity|]. simpl.
  destruct (q a); rewrite !count_cons; lia.
Qed.

Section Partition.

Variables A K : Type.
Variable notna : K -> bool.
Variables keqb kle : K -> K -> bool.
Variable key : A -> K.

Hypothesis keqb_sym : forall a b, keqb a b = keqb b a.
Hypothesis keqb_trans :
  forall a b c, keqb a b = true -> keqb b c = true -> keqb a c = true.
Hypothesis keqb_refl : forall a, notna a = true -> keqb a a = true.

(** The group sizes of the keys that [unique] keeps count the
    values of [L] that have one of these keys, each once. *)
Lemma sum_drop_duplicates_from (L before l : list K) :
  list_sum (map (fun d => count (keqb d) L)
              (drop_duplicates_from keqb before l))
  = count (fun x => existsb (keqb x) l
                    && negb (existsb (keqb x) before)) L.
Proof.
  revert before. induction l as [|a l IH]; intros before.
  - simpl. now rewrite count_false.
  - simpl. destruct (existsb (keqb a) before) eqn:E.
    + rewrite IH. apply count_ext_in. intros x _. simpl.
      destruct (keqb x a) eqn:Hxa; [|reflexivity].
      rewrite (existsb_same_trans _ keqb keqb_sym keqb_trans x a before
                 Hxa), E.
      simpl. now rewrite andb_false_r.
    + simpl. rewrite IH. apply count_add. intros x _. simpl.
      rewrite (keqb_sym x a).
      destruct (keqb a x) eqn:Hax.
      * rewrite keqb_sym in Hax.
        rewrite (existsb_same_trans _ keqb keqb_sym keqb_trans x a
                   before Hax), E.
        simpl. now rewrite andb_false_r.
      * reflexivity.
Qed.

(** The sizes of the groups add up to the number of rows with a
    key. *)
Lemma groupby_size_total l :
  list_sum (map snd (groupby_size notna keqb kle key l))
  = count (fun r => notna (key r)) l.
Proof.
  unfold groupby_size. set (keys := filter notna (map key l)).
  rewrite map_map. simpl.
  rewrite <- (Permutation_map _
                (sort_values_perm _ kle (drop_duplicates keqb keys))).
  unfold drop_duplicates. rewrite sum_drop_duplicates_from.
  rewrite count_true.
  - unfold keys. rewrite <- count_map. reflexivity.
  - intros x Hx. simpl. rewrite andb_true_r.
    apply existsb_exists. exists x. split; [exact Hx|].
    apply keqb_refl. unfold keys in Hx. apply filter_In in Hx. tauto.
Qed.

(** No two groups have the same key. *)
Lemma groupby_size_once k l :
  count (fun kn => keqb k (fst kn)) (groupby_size notna keqb kle key l)
  <= 1.
Proof.
  unfold groupby_size. set (keys := filter notna (map key l)).
  rewrite count_map.
  assert (E : count (fun x => keqb k (fst (x, count (keqb x) keys)))
                (sort_values kle (drop_duplicates keqb keys))
              = count (keqb k) (drop_duplicates keqb keys)).
  { rewrite (count_perm _ (keqb k) _ _
               (sort_values_perm _ kle (drop_duplicates keqb keys))).
    apply count_ext_in. reflexivity. }
  rewrite E. unfold drop_duplicates.
  rewrite (count_drop_duplicates_from _ keqb keqb_sym keqb_trans).
  simpl. destruct (existsb (keqb k) keys); lia.
Qed.

End Partition.

(** X10. The seats of [seat_counts] add up to the number of results
    that have a state, a party and a year, and no state, year and
    party has two rows: every such result is counted once. (Under
    pandas 2 every result has a party; under pandas 3 a result whose
    party is missing in the file is not counted.) *)
Theorem seat_counts_partition (df : list row) :
  list_sum (map seats (seat_counts (df_dom df)))
  = count
      (fun r =>
         notna_str (state r) && notna_str (party r) && F64.notna (year r))
      df
  /\ forall s y p,
       count (fun d => key3_eqb (s, y, p)
                         (s_state d, s_year d, s_party d))
         (seat_counts (df_dom df)) <= 1.
Proof.
  unfold seat_counts. split.
  - rewrite map_map.
    rewrite (map_ext _ snd) by (intros [[[s y] p] n]; reflexivity).
    rewrite (groupby_size_total _ _ key3_notna key3_eqb key3_le
               (fun k : key3 => k) key3_eqb_sym key3_eqb_trans
               key3_eqb_refl).
    rewrite (count_state_year_party key3_notna).
    assert (E : forall r,
               existsb key3_notna (state_year_party r)
               = notna_str (state r) && notna_str (party r)
                 && F64.notna (year r)).
    { intros r. unfold state_year_party.
      destruct (party r); simpl.
      - now rewrite orb_false_r, andb_true_r.
      - now rewrite andb_false_r. }
    unfold df_dom. rewrite count_filter.
    + apply count_ext_in. intros r _. apply E.
    + intros r _ Hr. now rewrite <- E.
  - intros s y p. rewrite count_map.
    rewrite (count_ext_in _ _ (fun kn => key3_eqb (s, y, p) (fst kn)))
      by (intros [[[s' y'] p'] n] _; reflexivity).
    apply (groupby_size_once _ _ key3_notna key3_eqb key3_le
             (fun k : key3 => k) key3_eqb_sym key3_eqb_trans).
Qed.

(** Two results of one state and year, one of them without a party in
    the file: under pandas 2 both are counted, under pandas 3 one. *)
Example seat_counts_without_party :
  map seats
    (seat_counts
       (df_dom (clean (df_loaded pandas_2 Sample.to_numeric
                         [Sample.raw_agra; Sample.raw_agra_no_party]))))
  = [1; 1]
  /\ map seats
       (seat_counts
          (df_dom (clean (df_loaded pandas_3 Sample.to_numeric
                            [Sample.raw_agra; Sample.raw_agra_no_party]))))
     = [1].
Proof. split; vm_compute; reflexivity. Qed.

Lemma dominant_state d df : In d (dominant df) -> s_state d <> None.
Proof.
  unfold dominant. intros H.
  apply drop_duplicates_In, sort_values_In, seat_counts_In in H.
  destruct H as [H _]. simpl in H. apply andb_true_iff in H.
  destruct H as [H _]. now destruct (s_state d).
Qed.

(** X11. The counts of [state_party_dominance] add up to the number
    of rows of [dominant], which has one row for each state and year,
    and no state and party has two rows. *)
Theorem state_party_dominance_partition (df : list row) :
  list_sum (map times_dominated (state_party_dominance df))
  = length (dominant df)
  /\ forall s p,
       count (fun m => key2_eqb (s, p) (dm_state m, dm_party m))
         (state_party_dominance df) <= 1.
Proof.
  unfold state_party_dominance. split.
  - rewrite map_map.
    rewrite (map_ext _ snd) by (intros [[s p] n]; reflexivity).
    rewrite (groupby_size_total _ _ key2_notna key2_eqb key2_le
               (fun d => (s_state d, s_party d)) key2_eqb_sym
               key2_eqb_trans (fun a _ => Sunburst.key2_eqb_refl a)).
    apply count_true. intros d Hd. apply dominant_state in Hd.
    unfold key2_notna. simpl. now destruct (s_state d).
  - intros s p. rewrite count_map.
    rewrite (count_ext_in _ _ (fun kn => key2_eqb (s, p) (fst kn)))
      by (intros [[s' p'] n] _; reflexivity).
    apply (groupby_size_once _ _ key2_notna key2_eqb key2_le
             (fun d => (s_state d, s_party d)) key2_eqb_sym
             key2_eqb_trans).
Qed.

(** X12. The wins of [candidate_wins] add up to the number of results
    that have a candidate name and a party, and no candidate and party
    has two rows, in [candidate_wins] or in [sunburst_data]. *)
Theorem candidate_wins_partition (df : list row) :
  list_sum (map wins (candidate_wins df))
  = count
      (fun r => notna_str (candidate_name r) && notna_str (party r)) df
  /\ (forall c p,
        count (fun w => key2_eqb (c, p) (w_candidate_name w, w_party w))
          (candidate_wins df) <= 1)
  /\ (forall c p,
        count (fun w => key2_eqb (c, p) (w_candidate_name w, w_party w))
          (sunburst_data df) <= 1).
Proof.
  assert (Honce : forall c p,
    count (fun w => key2_eqb (c, p) (w_candidate_name w, w_party w))
      (candidate_wins df) <= 1).
  { intros c p. unfold candidate_wins. rewrite count_map.
    rewrite (count_ext_in _ _ (fun kn => key2_eqb (c, p) (fst kn)))
      by (intros [[c' p'] n] _; reflexivity).
    apply (groupby_size_once _ _ key2_notna key2_eqb key2_le
             (fun k : key2 => k) key2_eqb_sym key2_eqb_trans). }
  split; [|split; [exact Honce|]].
  - unfold candidate_wins. rewrite map_map.
    rewrite (map_ext _ snd) by (intros [[c p] n]; reflexivity).
    rewrite (groupby_size_total _ _ key2_notna key2_eqb key2_le
               (fun k : key2 => k) key2_eqb_sym key2_eqb_trans
               (fun a _ => Sunburst.key2_eqb_refl a)).
    rewrite (Sunburst.count_candidate_party key2_notna).
    apply count_ext_in. intros r _. unfold candidate_party.
    destruct (party r); simpl.
    + unfold key2_notna. simpl. now rewrite orb_false_r, andb_true_r.
    + now rewrite andb_false_r.
  - intros c p. unfold sunburst_data.
    eapply Nat.le_trans; [apply count_filter_le|apply Honce].
Qed.

End Totals.

Module Heatmap.

Import Main DF DFFacts KeyFacts App AppFacts.

(** The figure of [plot_heatmap], from the table in memory. *)
Lemma plot_heatmap_figure (Figure : Type)
  (mean : list float -> float)
  (quicksort : list (Py.str * float) -> list (Py.str * float))
  (heatmap : option Py.str -> heat_data -> option Figure)
  (no_data : Figure)
  (G : globals) (st : option Py.str) (h : heap) :
  fst (plot_heatmap mean quicksort heatmap no_data G st h)
  = match filter (state_is st)
            (results_of (nth (turnout_top_ref G) h (ResultsFrame [])))
    with
    | [] => Some no_data
    | r :: rows =>
        match heatmap_data mean quicksort
                (map normalize_Pc_name (r :: rows))
        with
        | Some data => heatmap st data
        | None => None
        end
    end.
Proof.
  unfold plot_heatmap, bind, load, new_frame, store, ret. simpl.
  rewrite nth_middle. simpl.
  destruct (filter (state_is st) _) as [|r rows]; [reflexivity|].
  simpl. rewrite nth_update_same by (rewrite length_app; simpl; lia).
  simpl. destruct (heatmap_data _ _ _); reflexivity.
Qed.

Lemma filter_nil_iff (A : Type) (p : A -> bool) l :
  filter p l = [] <-> forall x, In x l -> p x = false.
Proof.
  split.
  - intros E x Hx. destruct (p x) eqn:Hp; [|reflexivity].
    assert (H : In x (filter p l)) by (apply filter_In; auto).
    rewrite E in H. destruct H.
  - intros H. induction l as [|a l IH]; [reflexivity|]. simpl.
    rewrite (H a (or_introl eq_refl)). apply IH.
    intros x Hx. apply H. now right.
Qed.

Lemma forallb_false (A : Type) (p : A -> bool) l :
  forallb p l = false <-> exists x, In x l /\ p x = false.
Proof.
  induction l as [|a l IH]; simpl.
  - split; [discriminate|]. intros (x & [] & _).
  - rewrite andb_false_iff, IH. split.
    + intros [H|(x & Hx & H)]; eauto.
    + intros (x & [<-|Hx] & H); eauto.
Qed.

Lemma existsb_eqb_In (n : Py.str) l :
  existsb (Py.eqb n) l = true <-> In n l.
Proof.
  rewrite existsb_exists. split.
  - intros (x & Hx & E). apply PyFacts.eqb_eq in E. now subst.
  - intros H. exists n. split; [exact H|apply PyFacts.eqb_refl].
Qed.

Section Pivot.

Variable mean : list float -> float.
Variable quicksort : list (Py.str * float) -> list (Py.str * float).

(** [pivot.loc[top_10]] raises exactly when a label of [top_10] is
    not in the index of [pivot]. *)
Lemma heatmap_data_None df :
  heatmap_data mean quicksort df = None <->
  exists n, In n (top_10 mean quicksort df)
            /\ ~ In n (pivot_index mean df).
Proof.
  unfold heatmap_data, pivot_loc.
  destruct (forallb _ (top_10 mean quicksort df)) eqn:E.
  - split; [discriminate|]. intros (n & Hn & Hno). exfalso.
    rewrite forallb_forall in E. apply Hno.
    apply existsb_eqb_In. now apply E.
  - split; [|reflexivity]. intros _.
    apply forallb_false in E. destruct E as (n & Hn & E).
    exists n. split; [exact Hn|]. intros Hin.
    apply existsb_eqb_In in Hin. congruence.
Qed.

Lemma group_mean_all_nan vals :
  (forall v, In v vals -> F64.isna v = true) ->
  group_mean mean vals = nan.
Proof.
  intros H. unfold group_mean.
  assert (E : filter F64.notna vals = []).
  { apply filter_nil_iff. intros v Hv. unfold F64.notna.
    now rewrite (H v Hv). }
  now rewrite E.
Qed.

(** A constituency whose rows all have a NaN turnout is not in the
    index of [pivot]. *)
Lemma all_nan_not_in_pivot_index df n :
  (forall r, In r df -> Pc_name r = Some n ->
     F64.isna (Turnout r) = true) ->
  ~ In n (pivot_index mean df).
Proof.
  intros H Hin. unfold pivot_index in Hin. apply filter_In in Hin.
  destruct Hin as [_ Hin]. apply existsb_exists in Hin.
  destruct Hin as (y & _ & Hy).
  unfold mean_in_year in Hy. rewrite group_mean_all_nan in Hy;
    [discriminate Hy|].
  intros v Hv. apply in_map_iff in Hv. destruct Hv as (r & <- & Hr).
  apply filter_In in Hr. destruct Hr as [Hr Hk].
  apply andb_true_iff in Hk. destruct Hk as [Hk _].
  unfold has_Pc_name in Hk. apply opt_eqb_eq in Hk. now apply H.
Qed.

Lemma filter_partition_length (A : Type) (p : A -> bool) l :
  length (filter p l) + length (filter (fun x => negb (p x)) l)
  = length l.
Proof.
  induction l as [|a l IH]; [reflexivity|]. simpl.
  destruct (p a); simpl; lia.
Qed.

Hypothesis quicksort_length :
  forall l, length (quicksort l) = length l.

Lemma sort_values_descending_length ser :
  length (sort_values_descending quicksort ser) = length ser.
Proof.
  unfold sort_values_descending.
  rewrite length_app, length_rev, quicksort_length, length_rev.
  assert (E : filter (fun e : Py.str * float => F64.isna (snd e)) ser
              = filter (fun e => negb (F64.notna (snd e))) ser).
  { apply filter_ext. intros e. unfold F64.notna.
    now rewrite negb_involutive. }
  rewrite E.
  apply (filter_partition_length _ (fun e => F64.notna (snd e)) ser).
Qed.

(** Among ten constituencies or fewer, one whose rows all have a NaN
    turnout is a label of [top_10]. *)
Lemma all_nan_in_top_10 df n :
  In n (names df) ->
  (forall r, In r df -> Pc_name r = Some n ->
     F64.isna (Turnout r) = true) ->
  length (names df) <= 10 ->
  In n (top_10 mean quicksort df).
Proof.
  intros Hn Hnan Hlen. unfold top_10.
  rewrite firstn_all2
    by (rewrite sort_values_descending_length; unfold mean_Turnout;
        now rewrite length_map).
  apply in_map_iff. exists (n, nan). split; [reflexivity|].
  unfold sort_values_descending. apply in_or_app. right.
  apply filter_In. split; [|reflexivity].
  unfold mean_Turnout. apply in_map_iff. exists n.
  split; [|exact Hn]. f_equal. apply group_mean_all_nan.
  intros v Hv. apply in_map_iff in Hv. destruct Hv as (r & <- & Hr).
  apply filter_In in Hr. destruct Hr as [Hr Hk].
  unfold has_Pc_name in Hk. apply opt_eqb_eq in Hk. now apply Hnan.
Qed.

End Pivot.

(** X13. [plot_heatmap] returns the figure "No data available for
    selected state" when no row of [turnout_top] has the selected
    state, as is the case when nothing is selected. When a row has it,
    the callback builds the table of the rows of that state, with
    their names normalized, and raises [KeyError] at
    [pivot.loc[top_10]] exactly when a label of [top_10] is not in the
    index of [pivot]; otherwise its result is the one of [px.imshow]
    on the table. The error occurs when the state has ten
    constituencies or fewer and all the rows of one of them have a NaN
    turnout. *)
Theorem plot_heatmap_no_data (Figure : Type)
  (mean : list float -> float)
  (quicksort : list (Py.str * float) -> list (Py.str * float))
  (heatmap : option Py.str -> heat_data -> option Figure)
  (no_data : Figure)
  (G : globals) (st : option Py.str) (h : heap) (top : list row) :
  nth (turnout_top_ref G) h (ResultsFrame []) = ResultsFrame top ->
  (st = None ->
   fst (plot_heatmap mean quicksort heatmap no_data G st h) = Some no_data)
  /\ ((forall r, In r top -> state r <> st) ->
      fst (plot_heatmap mean quicksort heatmap no_data G st h)
      = Some no_data)
  /\ (forall s r, st = Some s -> In r top -> state r = Some s ->
        fst (plot_heatmap mean quicksort heatmap no_data G st h)
        = match heatmap_data mean quicksort
                  (map normalize_Pc_name (filter (state_is st) top))
          with
          | Some data => heatmap st data
          | None => None
          end)
  /\ (heatmap_data mean quicksort
        (map normalize_Pc_name (filter (state_is st) top)) = None <->
      exists n,
        In n (top_10 mean quicksort
                (map normalize_Pc_name (filter (state_is st) top)))
        /\ ~ In n (pivot_index mean
                     (map normalize_Pc_name (filter (state_is st) top))))
  /\ ((forall l, length (quicksort l) = length l) ->
      forall s r n,
        st = Some s -> In r top -> state r = Some s ->
        In n (names (map normalize_Pc_name (filter (state_is st) top))) ->
        (forall x,
            In x (map normalize_Pc_name (filter (state_is st) top)) ->
            Pc_name x = Some n -> F64.isna (Turnout x) = true) ->
        length (names (map normalize_Pc_name (filter (state_is st) top)))
        <= 10 ->
        fst (plot_heatmap mean quicksort heatmap no_data G st h) = None)
  /\ (forall x, In x (filter (state_is st) top) -> state x = st).
Proof.
  intros Htop. rewrite plot_heatmap_figure, Htop. simpl results_of.
  assert (Hrows : forall s r, st = Some s -> In r top ->
            state r = Some s ->
            match filter (state_is st) top with
            | [] => Some no_data
            | r0 :: rows =>
                match heatmap_data mean quicksort
                        (map normalize_Pc_name (r0 :: rows))
                with
                | Some data => heatmap st data
                | None => None
                end
            end
            = match heatmap_data mean quicksort
                      (map normalize_Pc_name (filter (state_is st) top))
              with
              | Some data => heatmap st data
              | None => None
              end).
  { intros s r -> Hr Hs.
    destruct (filter (state_is (Some s)) top) as [|a l] eqn:E;
      [|reflexivity].
    exfalso. apply (proj1 (filter_nil_iff _ _ _) E) in Hr.
    unfold state_is in Hr. rewrite Hs, opt_eqb_refl in Hr.
    discriminate. }
  split; [|split; [|split; [|split; [|split]]]].
  - intros ->.
    assert (E : filter (state_is None) top = [])
      by (apply filter_nil_iff; reflexivity).
    now rewrite E.
  - intros Hno.
    assert (E : filter (state_is st) top = []).
    { apply filter_nil_iff. intros x Hx. unfold state_is.
      destruct st as [s|]; [|reflexivity].
      destruct (opt_eqb (state x) (Some s)) eqn:Ex; [|reflexivity].
      apply opt_eqb_eq in Ex. now apply Hno in Hx. }
    now rewrite E.
  - exact Hrows.
  - apply heatmap_data_None.
  - intros Hq s r n Hst Hr Hs Hn Hnan Hlen.
    rewrite (Hrows s r Hst Hr Hs).
    assert (E : heatmap_data mean quicksort
                  (map normalize_Pc_name (filter (state_is st) top))
                = None).
    { apply heatmap_data_None. exists n. split.
      - now apply all_nan_in_top_10.
      - now apply all_nan_not_in_pivot_index. }
    now rewrite E.
  - intros x Hx. apply filter_In in Hx. destruct Hx as [_ Hx].
    unfold state_is in Hx. destruct st as [s|]; [|discriminate].
    now apply opt_eqb_eq.
Qed.

Lemma quicksort_length l : length (Sample.quicksort l) = length l.
Proof.
  unfold Sample.quicksort. symmetry. apply Permutation_length.
  apply sort_values_perm.
Qed.

(** Kasaragod and Wayanad: Wayanad has no votes and no electors on
    record, so that its turnout is NaN; it is a label of [top_10] and
    not in the index of [pivot], and the callback raises. *)
Lemma plot_heatmap_no_data_witness :
  nth (turnout_top_ref (fst Sample.started_kerala_two))
    (snd Sample.started_kerala_two) (ResultsFrame [])
  = ResultsFrame
      (turnout_top_of
         (df_loaded pandas_2 Sample.to_numeric Sample.raw_kerala_two))
  /\ fst (plot_heatmap Sample.mean Sample.quicksort
            (fun _ data => Some (length (h_index data))) 0
            (fst Sample.started_kerala_two) (Some Sample.Kerala)
            (snd Sample.started_kerala_two)) = None
  /\ fst (plot_heatmap Sample.mean Sample.quicksort
            (fun _ data => Some (length (h_index data))) 0
            (fst Sample.started_kerala_two) None
            (snd Sample.started_kerala_two)) = Some 0.
Proof.
  assert (Htop : nth (turnout_top_ref (fst Sample.started_kerala_two))
                   (snd Sample.started_kerala_two) (ResultsFrame [])
                 = ResultsFrame
                     (turnout_top_of
                        (df_loaded pandas_2 Sample.to_numeric
                           Sample.raw_kerala_two)))
    by reflexivity.
  destruct (plot_heatmap_no_data nat Sample.mean Sample.quicksort
              (fun _ data => Some (length (h_index data))) 0
              (fst Sample.started_kerala_two) (Some Sample.Kerala)
              (snd Sample.started_kerala_two) _ Htop)
    as (_ & _ & _ & _ & Herr & _).
  split; [exact Htop|]. split.
  - apply (Herr quicksort_length Sample.Kerala Sample.row_wayanad
             (Py.lit "Wayanad") eq_refl).
    + vm_compute. tauto.
    + reflexivity.
    + vm_compute. tauto.
    + intros x Hx Hn. vm_compute in Hx.
      destruct Hx as [<-|[<-|[]]]; [discriminate Hn|reflexivity].
    + vm_compute. lia.
  - exact (proj1 (plot_heatmap_no_data nat Sample.mean Sample.quicksort
                    (fun _ data => Some (length (h_index data))) 0
                    (fst Sample.started_kerala_two) None
                    (snd Sample.started_kerala_two) _ Htop)
             eq_refl).
Defined.

(** The same state with Kasaragod alone: the callback returns the
    figure of a table of one constituency. *)
Example plot_heatmap_one_constituency :
  fst (plot_heatmap Sample.mean Sample.quicksort
         (fun _ data => Some (h_index data, h_columns data, h_values data))
         ([], [], [])
         (fst (startup
                 (df_loaded pandas_2 Sample.to_numeric
                    [Sample.raw_kerala "Kasaragod" "810" "1,000"])
                 Sample.regions []))
         (Some Sample.Kerala)
         (snd (startup
                 (df_loaded pandas_2 Sample.to_numeric
                    [Sample.raw_kerala "Kasaragod" "810" "1,000"])
                 Sample.regions [])))
  = Some ([Py.lit "Kasaragod"], [2019%float], [[81%float]]).
Proof. vm_compute. reflexivity. Qed.

(** A name that was normalized stays as it is when it is normalized
    again, if it is ASCII or missing. *)
Lemma normalize_Pc_name_twice (r : row) :
  (forall s, Pc_name r = Some s -> Py.is_ascii s = true) ->
  normalize_Pc_name (normalize_Pc_name r) = normalize_Pc_name r.
Proof.
  intros H. unfold normalize_Pc_name, set_Pc_name. simpl.
  destruct (Pc_name r) as [s|]; [|reflexivity]. simpl.
  rewrite (TitleFacts.title_strip_idempotent s); [reflexivity|].
  apply TitleFacts.is_ascii_stable. now apply H.
Qed.

(** The rows of [turnout_top] as the program computes it: normalized
    rows of the loaded table. *)
Lemma turnout_top_of_In (loaded : list row) (r : row) :
  In r (turnout_top_of loaded) ->
  exists x, In x loaded /\
    r = normalize_Pc_name (recompute_Turnout x).
Proof.
  unfold turnout_top_of, turnout_top, groupby_head. intros H.
  apply groupby_head_from_In in H. destruct H as [H _].
  apply sort_values_In in H. apply in_map_iff in H.
  destruct H as (c & <- & Hc). unfold clean in Hc.
  apply in_map_iff in Hc. destruct Hc as (x & <- & Hx).
  apply filter_In in Hx. destruct Hx as [Hx _]. eauto.
Qed.

Lemma map_id_In (A : Type) (f : A -> A) l :
  (forall x, In x l -> f x = x) -> map f l = l.
Proof.
  intros H. induction l as [|a l IH]; [reflexivity|]. simpl.
  rewrite (H a (or_introl eq_refl)), IH; [reflexivity|].
  intros x Hx. apply H. now right.
Qed.

(** X14. On the table [turnout_top] the program computes from a file
    with ASCII constituency names, the normalization of the names
    that [plot_heatmap] repeats changes no row, and the rows of the
    selected state that the heat map is drawn from are at most ten for
    each year. *)
Theorem heatmap_rows_are_top_ten (loaded : list row) (s : Py.str) :
  (forall r c, In r loaded -> Pc_name r = Some c -> Py.is_ascii c = true) ->
  map normalize_Pc_name
    (filter (state_is (Some s)) (turnout_top_of loaded))
  = filter (state_is (Some s)) (turnout_top_of loaded)
  /\ forall y,
       count (fun r => F64.key_eqb (year r) y)
         (filter (state_is (Some s)) (turnout_top_of loaded)) <= 10.
Proof.
  intros Hascii. split.
  - apply map_id_In. intros r Hr. apply filter_In in Hr.
    destruct Hr as [Hr _]. apply turnout_top_of_In in Hr.
    destruct Hr as (x & Hx & ->).
    apply normalize_Pc_name_twice. intros c Hc.
    exact (Hascii x c Hx Hc).
  - intros y. unfold count. unfold state_is.
    assert (E : filter (fun r => F64.key_eqb (year r) y)
                  (filter (fun r => opt_eqb (state r) (Some s))
                     (turnout_top_of loaded))
                = filter (in_group s y) (turnout_top_of loaded)).
    { induction (turnout_top_of loaded) as [|a l IH]; [reflexivity|].
      simpl. unfold in_group at 1.
      destruct (opt_eqb (state a) (Some s)); simpl; [|exact IH].
      destruct (F64.key_eqb (year a) y); [now rewrite IH|exact IH]. }
    rewrite E. unfold turnout_top_of.
    rewrite TurnoutTop.filter_in_group_turnout_top.
    apply firstn_le_length.
Qed.

Lemma heatmap_rows_are_top_ten_witness :
  (forall r c,
      In r (df_loaded pandas_2 Sample.to_numeric Sample.raw_kerala_2019) ->
      Pc_name r = Some c -> Py.is_ascii c = true)
  /\ count (fun r => F64.key_eqb (year r) 2019)
       (filter (state_is (Some Sample.Kerala))
          (turnout_top_of
             (df_loaded pandas_2 Sample.to_numeric Sample.raw_kerala_2019)))
     <= 10.
Proof.
  assert (H : forall r c,
             In r (df_loaded pandas_2 Sample.to_numeric Sample.raw_kerala_2019) ->
             Pc_name r = Some c -> Py.is_ascii c = true).
  { intros r c Hr Hc. unfold df_loaded in Hr. apply in_map_iff in Hr.
    destruct Hr as (x & <- & Hx). simpl in Hc.
    repeat (destruct Hx as [<-|Hx];
            [injection Hc as <-; reflexivity|]).
    destruct Hx. }
  split; [exact H|].
  exact (proj2 (heatmap_rows_are_top_ten _ Sample.Kerala H) 2019%float).
Defined.

End Heatmap.

Module SessionFacts.

Import Main App AppFacts.

Section Served.

Variable Figure : Type.
Variable choropleth_party : option float -> list map_row -> Figure.
Variable choropleth_margin :
  option float -> list margin_map_row -> Figure.
Variable sunburst : list wins_row -> Figure.
Variable history : list row -> Figure.
Variable mean : list float -> float.
Variable quicksort : list (Py.str * float) -> list (Py.str * float).
Variable heatmap : option Py.str -> heat_data -> option Figure.
Variable no_data : Figure.
Variable bar : list dominance_row -> Figure.
Variable G : globals.

Let callback :=
  callback choropleth_party choropleth_margin sunburst history mean
    quicksort heatmap no_data bar G.

Let session :=
  session choropleth_party choropleth_margin sunburst history mean
    quicksort heatmap no_data bar G.

Lemma callback_keeps base i : keeps base (callback i) (fun _ => True).
Proof.
  destruct i; unfold callback, App.callback; cbv beta iota.
  - apply plot_map_keeps.
  - apply plot_margin_map_keeps.
  - apply plot_sunburst_keeps.
  - apply plot_history_keeps.
  - apply plot_heatmap_keeps.
  - apply plot_dom_graph_keeps.
Qed.

Lemma session_keeps base inputs :
  keeps base (session inputs) (fun _ => True).
Proof.
  induction inputs as [|i inputs IH]; unfold session; cbn [App.session];
    fold session.
  - apply keeps_ret. exact I.
  - eapply keeps_bind; [apply callback_keeps|]. intros f _.
    eapply keeps_bind; [exact IH|]. intros fs _.
    apply keeps_ret. exact I.
Qed.

(** What a computation keeps, a name still points to. *)
Lemma keeps_nth (A : Type) (m : M A) h r :
  r < length h -> keeps (length h) m (fun _ => True) ->
  nth r (snd (m h)) (ResultsFrame []) = nth r h (ResultsFrame []).
Proof.
  intros Hr Hk. destruct (Hk h (le_n _)) as (_ & Hsame & _).
  apply nth_error_nth. rewrite (Hsame r Hr).
  now apply nth_error_nth'.
Qed.

(** The figure of a callback is drawn from the five tables. *)
Lemma callback_figure i h h' :
  (forall r,
      In r [ df_hist_ref G; geo_ref G; turnout_top_ref G;
             state_party_dominance_ref G; sunburst_data_ref G ] ->
      nth r h' (ResultsFrame []) = nth r h (ResultsFrame [])) ->
  fst (callback i h') = fst (callback i h).
Proof.
  intros H.
  assert (H1 := H (df_hist_ref G) ltac:(simpl; tauto)).
  assert (H2 := H (geo_ref G) ltac:(simpl; tauto)).
  assert (H3 := H (turnout_top_ref G) ltac:(simpl; tauto)).
  assert (H4 := H (state_party_dominance_ref G) ltac:(simpl; tauto)).
  assert (H5 := H (sunburst_data_ref G) ltac:(simpl; tauto)).
  destruct i; unfold callback, App.callback; cbv beta iota.
  - now rewrite !PartyMap.plot_map_figure, H1, H2.
  - now rewrite !MarginMap.plot_margin_map_figure, H1, H2.
  - unfold plot_sunburst, bind, load, ret. simpl. now rewrite H5.
  - unfold plot_history, bind, load, ret. simpl. now rewrite H1.
  - now rewrite !Heatmap.plot_heatmap_figure, H3.
  - unfold plot_dom_graph, bind, load, ret. simpl. now rewrite H4.
Qed.

Lemma callback_after_session h before i :
  allocated G h ->
  fst (callback i (snd (session before h))) = fst (callback i h).
Proof.
  intros Ha. apply callback_figure. intros r Hr.
  apply keeps_nth; [|apply session_keeps].
  unfold allocated in Ha. rewrite Forall_forall in Ha. now apply Ha.
Qed.

End Served.

(** X15. The figure a callback returns for an input does not depend
    on the inputs that were served before it in the session: it is the
    figure the callback returns on the heap the session started
    with. *)
Theorem figure_independent_of_session
  (Figure : Type)
  (choropleth_party : option float -> list map_row -> Figure)
  (choropleth_margin : option float -> list margin_map_row -> Figure)
  (sunburst : list wins_row -> Figure)
  (history : list row -> Figure)
  (mean : list float -> float)
  (quicksort : list (Py.str * float) -> list (Py.str * float))
  (heatmap : option Py.str -> heat_data -> option Figure)
  (no_data : Figure)
  (bar : list dominance_row -> Figure)
  (G : globals) (h : heap) (before : list input) (i : input) :
  allocated G h ->
  fst (callback choropleth_party choropleth_margin sunburst history
         mean quicksort heatmap no_data bar G i
         (snd (session choropleth_party choropleth_margin sunburst
                 history mean quicksort heatmap no_data bar G before h)))
  = fst (callback choropleth_party choropleth_margin sunburst history
           mean quicksort heatmap no_data bar G i h).
Proof. apply callback_after_session. Qed.

Lemma figure_independent_of_session_witness :
  allocated (fst Sample.started) (snd Sample.started) /\
  fst (callback (fun _ rows => length rows) (fun _ rows => length rows)
         (fun rows => length rows) (fun rows => length rows)
         Sample.mean Sample.quicksort
         (fun _ data => Some (length (h_index data))) 0
         (fun rows => length rows)
         (fst Sample.started) (year_dropdown (Some 2019%float))
         (snd (session (fun _ rows => length rows)
                 (fun _ rows => length rows)
                 (fun rows => length rows) (fun rows => length rows)
                 Sample.mean Sample.quicksort
                 (fun _ data => Some (length (h_index data))) 0
                 (fun rows => length rows)
                 (fst Sample.started)
                 [ state_dropdown (Some (Py.lit "Uttar Pradesh"));
                   margin_year_dropdown (Some 2019%float);
                   year_dropdown None ]
                 (snd Sample.started))))
  = Some 3.
Proof.
  assert (Ha : allocated (fst Sample.started) (snd Sample.started))
    by (unfold allocated; simpl; repeat constructor).
  split; [exact Ha|].
  rewrite (figure_independent_of_session nat _ _ _ _ _ _ _ _ _
             (fst Sample.started) (snd Sample.started) _ _ Ha).
  reflexivity.
Defined.

(** The heap and the names after start-up. *)
Lemma startup_heap (loaded : list row) (regions : list geo_row)
  (h0 : heap) :
  startup loaded regions h0
  = (mk_globals (length h0) (length h0 + 1) (length h0 + 2)
       (length h0 + 3) (length h0 + 4),
     h0 ++ [ ResultsFrame (df_hist loaded);
             GeoFrame (map normalize_pc_name regions);
             ResultsFrame (turnout_top_of loaded);
             DominanceFrame (state_party_dominance (clean loaded));
             WinsFrame (sunburst_data (df_hist loaded)) ]).
Proof.
  unfold startup, bind, new_frame, ret. simpl.
  rewrite !length_app. simpl. rewrite <- !app_assoc. simpl.
  f_equal. f_equal; lia.
Qed.

Lemma nth_startup (h0 l : heap) k :
  nth (length h0 + k) (h0 ++ l) (ResultsFrame [])
  = nth k l (ResultsFrame []).
Proof. apply app_nth2_plus. Qed.

Lemma nth_startup_first (h0 l : heap) :
  nth (length h0) (h0 ++ l) (ResultsFrame []) = nth 0 l (ResultsFrame []).
Proof. rewrite <- (nth_startup h0 l 0). now rewrite Nat.add_0_r. Qed.

Lemma startup_allocated (loaded : list row) (regions : list geo_row)
  (h0 : heap) :
  allocated (fst (startup loaded regions h0))
    (snd (startup loaded regions h0)).
Proof.
  rewrite startup_heap. unfold allocated. simpl.
  rewrite length_app. simpl. repeat constructor; lia.
Qed.

(** X16. After start-up, and after any inputs served since, every
    callback draws its figure from the table the pipeline computes
    from the loaded files: the two maps from the regions joined with
    the results of the selected year, the sunburst from
    [sunburst_data], the history from [df_hist], the heat map from the
    table [heatmap_data] of the rows of [turnout_top] of the selected
    state, the bar chart from [state_party_dominance]. The map
    callbacks raise exactly when [int(selected_year)] does; the heat
    map callback raises when [pivot.loc[top_10]] does, or
    [px.imshow]. *)
Theorem figures_after_startup
  (Figure : Type)
  (choropleth_party : option float -> list map_row -> Figure)
  (choropleth_margin : option float -> list margin_map_row -> Figure)
  (sunburst : list wins_row -> Figure)
  (history : list row -> Figure)
  (mean : list float -> float)
  (quicksort : list (Py.str * float) -> list (Py.str * float))
  (heatmap : option Py.str -> heat_data -> option Figure)
  (no_data : Figure)
  (bar : list dominance_row -> Figure)
  (loaded : list row) (regions : list geo_row) (h0 : heap)
  (before : list input) (i : input) :
  fst (callback choropleth_party choropleth_margin sunburst history
         mean quicksort heatmap no_data bar
         (fst (startup loaded regions h0)) i
         (snd (session choropleth_party choropleth_margin sunburst
                 history mean quicksort heatmap no_data bar
                 (fst (startup loaded regions h0)) before
                 (snd (startup loaded regions h0)))))
  = match i with
    | year_dropdown v =>
        if int_defined v
        then Some (choropleth_party v
                     (party_map_table (map normalize_pc_name regions)
                        (df_hist loaded) v))
        else None
    | margin_year_dropdown v =>
        if int_defined v
        then Some (choropleth_margin v
                     (margin_map_table (map normalize_pc_name regions)
                        (df_hist loaded) v))
        else None
    | sunburst_chart _ => Some (sunburst (sunburst_data (df_hist loaded)))
    | hist_graph _ => Some (history (df_hist loaded))
    | state_dropdown v =>
        match filter (state_is v) (turnout_top_of loaded) with
        | [] => Some no_data
        | r :: rows =>
            match heatmap_data mean quicksort
                    (map normalize_Pc_name (r :: rows))
            with
            | Some data => heatmap v data
            | None => None
            end
        end
    | dominance_graph _ =>
        Some (bar (state_party_dominance (clean loaded)))
    end.
Proof.
  rewrite callback_after_session by apply startup_allocated.
  rewrite startup_heap. simpl fst. simpl snd.
  destruct i; unfold callback; cbv beta iota.
  - rewrite PartyMap.plot_map_figure. simpl geo_ref. simpl df_hist_ref.
    rewrite nth_startup.
    rewrite nth_startup_first.
    reflexivity.
  - rewrite MarginMap.plot_margin_map_figure.
    simpl geo_ref. simpl df_hist_ref. rewrite nth_startup.
    rewrite nth_startup_first.
    reflexivity.
  - unfold plot_sunburst, bind, load, ret. simpl.
    now rewrite nth_startup.
  - unfold plot_history, bind, load, ret. simpl.
    now rewrite nth_startup_first.
  - rewrite Heatmap.plot_heatmap_figure. simpl turnout_top_ref.
    now rewrite nth_startup.
  - unfold plot_dom_graph, bind, load, ret. simpl.
    now rewrite nth_startup.
Qed.

(** After a session on the two constituencies of the sample, the
    heat map of their state raises, and the map of 2019 is drawn. *)
Example figures_after_startup_kerala_two :
  map (fun i =>
         fst (callback (fun _ rows => length rows)
                (fun _ rows => length rows) (fun rows => length rows)
                (fun rows => length rows) Sample.mean Sample.quicksort
                (fun _ data => Some (length (h_index data))) 0
                (fun rows => length rows)
                (fst Sample.started_kerala_two) i
                (snd (session (fun _ rows => length rows)
                        (fun _ rows => length rows)
                        (fun rows => length rows)
                        (fun rows => length rows) Sample.mean
                        Sample.quicksort
                        (fun _ data => Some (length (h_index data))) 0
                        (fun rows => length rows)
                        (fst Sample.started_kerala_two)
                        [ year_dropdown (Some 2019%float);
                          state_dropdown (Some Sample.Kerala) ]
                        (snd Sample.started_kerala_two)))))
    [ state_dropdown (Some Sample.Kerala); state_dropdown None;
      year_dropdown (Some 2019%float); year_dropdown None ]
  = [None; Some 0; Some 3; None].
Proof. vm_compute. reflexivity. Qed.

End SessionFacts.

Module TieBreak.

Import Main DF DFFacts GroupFacts KeyFacts DominanceFacts.

Section Stable.

Variable A : Type.
Variable le : A -> A -> bool.
Variable p : A -> bool.
Hypothesis tie : forall x y, p x = true -> p y = true -> le x y = true.

(** The sort is stable: rows that tie with each other keep their
    order. *)
Lemma filter_insert x l : filter p (insert le x l) = filter p (x :: l).
Proof.
  induction l as [|y l IH]; [reflexivity|]. simpl insert.
  destruct (le x y) eqn:E; [reflexivity|].
  change (filter p (y :: insert le x l))
    with (if p y then y :: filter p (insert le x l)
          else filter p (insert le x l)).
  rewrite IH. simpl.
  destruct (p x) eqn:Px, (p y) eqn:Py; try reflexivity.
  rewrite (tie x y Px Py) in E. discriminate.
Qed.

Lemma filter_sort_values l : filter p (sort_values le l) = filter p l.
Proof.
  induction l as [|x l IH]; [reflexivity|]. simpl sort_values.
  rewrite filter_insert. simpl. now rewrite IH.
Qed.

End Stable.

Lemma StronglySorted_map (A B : Type) (f : A -> B) (R : B -> B -> Prop) l :
  StronglySorted (fun a b => R (f a) (f b)) l ->
  StronglySorted R (map f l).
Proof.
  induction 1 as [|x l Hs IH Hall]; simpl; constructor; [exact IH|].
  rewrite Forall_forall in *. intros y Hy. apply in_map_iff in Hy.
  destruct Hy as (a & <- & Ha). now apply Hall.
Qed.

Lemma key3_le_total a b : key3_le a b = true \/ key3_le b a = true.
Proof.
  apply lex_total; [intros; apply opt_asc_le_total|].
  apply lex_total; [intros; apply F64Facts.asc_le_total|].
  intros; apply PyFacts.str_leb_total.
Qed.

Lemma key3_le_trans a b c :
  key3_le a b = true -> key3_le b c = true -> key3_le a c = true.
Proof.
  apply lex_trans; [intros ? ? ?; apply opt_asc_le_trans|].
  apply lex_trans; [intros ? ? ?; apply F64Facts.asc_le_trans|].
  intros ? ? ?; apply PyFacts.str_leb_trans.
Qed.

(** The rows of [seat_counts] stand in the order of their state, year
    and party. *)
Lemma seat_counts_sorted (dom : list row) :
  StronglySorted
    (fun a b => key3_le (s_state a, s_year a, s_party a)
                  (s_state b, s_year b, s_party b) = true)
    (seat_counts dom).
Proof.
  unfold seat_counts, groupby_size. rewrite map_map.
  apply StronglySorted_map.
  apply Dropdowns.StronglySorted_impl_In
    with (R := fun a b => key3_le a b = true).
  - intros [[s y] p] [[s' y'] p'] _ _ H. exact H.
  - apply sort_values_sorted; [apply key3_le_total|apply key3_le_trans].
Qed.

Lemma dup_eqb_asc_le a x y :
  F64.dup_eqb a x = true -> F64.dup_eqb a y = true ->
  F64.asc_le x y = true.
Proof.
  intros Hx Hy. rewrite dup_eqb_sym in Hx.
  assert (H := dup_eqb_trans _ _ _ Hx Hy).
  unfold F64.asc_le. destruct (F64.isna y) eqn:Ny; [reflexivity|].
  unfold F64.dup_eqb in H. rewrite Ny, andb_false_r, orb_false_r in H.
  change (F64.key_eqb x y = true) in H.
  destruct (F64Facts.key_eqb_notna _ _ H) as [Nx _]. rewrite Nx.
  now apply F64Facts.key_eqb_leb.
Qed.

(** X17. When several parties have the same number of seats in a
    state and year, [dominant] keeps the one whose name comes first:
    no party with as many seats as the dominant one has a name before
    it. *)
Theorem dominant_tie_goes_to_first_party (df : list row)
  (d g : seats_row) :
  In d (dominant df) -> In g (seat_counts (df_dom df)) ->
  same_state_year d g = true -> seats g = seats d ->
  Py.leb (s_party d) (s_party g) = true.
Proof.
  intros Hd Hg Hsame Hseats.
  set (p := fun r => same_state_year d r && (seats r =? seats d)).
  assert (Htie : forall x y, p x = true -> p y = true ->
                   by_state_year_seats x y = true).
  { intros x y Hx Hy. unfold p, same_state_year in Hx, Hy.
    rewrite !andb_true_iff, opt_eqb_eq, Nat.eqb_eq in Hx, Hy.
    destruct Hx as [[Sx Yx] Nx], Hy as [[Sy Yy] Ny].
    unfold by_state_year_seats, lex.
    rewrite <- Sx, <- Sy, opt_asc_le_refl. simpl.
    rewrite (dup_eqb_asc_le _ _ _ Yx Yy), (dup_eqb_asc_le _ _ _ Yy Yx).
    simpl. apply Nat.leb_le. lia. }
  destruct (dominant_split _ _ Hd) as (l1 & l2 & E & Hno).
  assert (Hin : In d (seat_counts (df_dom df))).
  { apply (sort_values_In _ by_state_year_seats). rewrite E.
    apply in_or_app. right. now left. }
  assert (Hpd : p d = true).
  { unfold p. rewrite Nat.eqb_refl, andb_true_r.
    apply Dominance.same_state_year_refl.
    apply seat_counts_In in Hin. destruct Hin as [Hk _].
    simpl in Hk. apply andb_true_iff in Hk. destruct Hk as [_ Hk].
    unfold F64.notna in Hk. now apply negb_true_iff in Hk. }
  assert (Hf : filter p (seat_counts (df_dom df))
               = d :: filter p l2).
  { rewrite <- (filter_sort_values _ by_state_year_seats p Htie), E.
    rewrite filter_app. simpl. rewrite Hpd.
    assert (Hl : forall l,
               (forall x, In x l -> same_state_year d x = false) ->
               filter p l = []).
    { induction l as [|a l IH]; intros Hl; [reflexivity|]. simpl.
      unfold p at 1. rewrite (Hl a (or_introl eq_refl)). simpl.
      apply IH. intros x Hx. apply Hl. now right. }
    now rewrite (Hl l1 Hno). }
  assert (Hs := sorted_filter _
                  (fun a b => key3_le (s_state a, s_year a, s_party a)
                                (s_state b, s_year b, s_party b))
                  p _ (seat_counts_sorted (df_dom df))).
  rewrite Hf in Hs. apply StronglySorted_inv in Hs.
  destruct Hs as [_ Hall]. rewrite Forall_forall in Hall.
  assert (Hgf : In g (d :: filter p l2)).
  { rewrite <- Hf. apply filter_In. split; [exact Hg|].
    unfold p. rewrite Hsame, Hseats. now rewrite Nat.eqb_refl. }
  destruct Hgf as [<-|Hgf]; [apply PyFacts.str_leb_refl|].
  assert (Hle := Hall g Hgf).
  unfold same_state_year in Hsame.
  apply andb_true_iff in Hsame. destruct Hsame as [Hst Hy].
  apply opt_eqb_eq in Hst.
  assert (Hnd : F64.isna (s_year d) = false).
  { apply seat_counts_In in Hin. destruct Hin as [Hk _].
    simpl in Hk. apply andb_true_iff in Hk. destruct Hk as [_ Hk].
    unfold F64.notna in Hk. now apply negb_true_iff in Hk. }
  assert (Hdd : F64.dup_eqb (s_year d) (s_year d) = true).
  { rewrite dup_eqb_key by exact Hnd. now apply F64Facts.key_eqb_refl. }
  assert (T1 : opt_asc_le (s_state g) (s_state d) = true)
    by (rewrite Hst; apply opt_asc_le_refl).
  assert (T2 : F64.asc_le (s_year g) (s_year d) = true)
    by (apply (dup_eqb_asc_le (s_year d)); assumption).
  unfold key3_le, lex in Hle. simpl in Hle.
  rewrite T1, T2 in Hle. simpl in Hle.
  apply andb_true_iff in Hle. destruct Hle as [_ Hle].
  apply andb_true_iff in Hle. destruct Hle as [_ Hle]. exact Hle.
Qed.

Lemma dominant_tie_goes_to_first_party_witness :
  In (mk_seats_row (Sample.text "Uttar Pradesh") 2019 (Py.lit "BJP") 1)
    (dominant (clean (df_loaded pandas_2 Sample.to_numeric
                        [Sample.raw_agra; Sample.raw_rae_bareli])))
  /\ In (mk_seats_row (Sample.text "Uttar Pradesh") 2019 (Py.lit "INC") 1)
       (seat_counts
          (df_dom (clean (df_loaded pandas_2 Sample.to_numeric
                            [Sample.raw_agra; Sample.raw_rae_bareli]))))
  /\ Py.leb (Py.lit "BJP") (Py.lit "INC") = true.
Proof.
  assert (Hd : In (mk_seats_row (Sample.text "Uttar Pradesh") 2019
                     (Py.lit "BJP") 1)
                 (dominant (clean (df_loaded pandas_2 Sample.to_numeric
                                     [Sample.raw_agra;
                                      Sample.raw_rae_bareli]))))
    by (vm_compute; tauto).
  assert (Hg : In (mk_seats_row (Sample.text "Uttar Pradesh") 2019
                     (Py.lit "INC") 1)
                 (seat_counts
                    (df_dom (clean (df_loaded pandas_2 Sample.to_numeric
                                      [Sample.raw_agra;
                                       Sample.raw_rae_bareli])))))
    by (vm_compute; tauto).
  split; [exact Hd|]. split; [exact Hg|].
  exact (dominant_tie_goes_to_first_party _ _ _ Hd Hg eq_refl eq_refl).
Defined.

End TieBreak.

Module Offered.

Import Main DF DFFacts KeyFacts.

Lemma drop_duplicates_nonempty (A : Type) (same : A -> A -> bool) l :
  l <> [] -> drop_duplicates same l <> [].
Proof. destruct l as [|a l]; [congruence|]. intros _. discriminate. Qed.

Lemma In_nonempty (A : Type) (x : A) l : In x l -> l <> [].
Proof. intros H ->. destruct H. Qed.

(** X18. Every year the year dropdowns offer has a result: a row of
    the table has that year, and the rows that [plot_map] and
    [plot_margin_map] select for it are not empty. *)
Theorem offered_year_has_results (df : list row) (y : float) :
  In y (available_years df) ->
  (exists r, In r df /\ year_is (Some y) r = true)
  /\ df_year (Some y) df <> []
  /\ df_year_margin (Some y) df <> [].
Proof.
  intros Hy. apply Dropdowns.available_years_notna in Hy.
  destruct Hy as (Hn & r & Hr & E).
  assert (Hyr : year_is (Some y) r = true).
  { simpl. rewrite E. apply F64Facts.key_eqb_refl.
    unfold F64.notna in Hn. now apply negb_true_iff in Hn. }
  assert (Hf : In r (filter (year_is (Some y)) df))
    by (apply filter_In; auto).
  split; [eauto|]. split.
  - unfold df_year. apply drop_duplicates_nonempty.
    eapply In_nonempty. apply in_map. exact Hf.
  - unfold df_year_margin. apply drop_duplicates_nonempty.
    eapply In_nonempty. apply in_map. exact Hf.
Qed.

Lemma offered_year_has_results_witness :
  In 2019%float (available_years Sample.df_hist_UP_2019) /\
  df_year (Some 2019%float) Sample.df_hist_UP_2019 <> [].
Proof.
  assert (H : In 2019%float (available_years Sample.df_hist_UP_2019))
    by (left; reflexivity).
  split; [exact H|].
  exact (proj1 (proj2 (offered_year_has_results _ _ H))).
Defined.

(** The rows of [df_hist] are the rows [turnout_top] is computed
    from, with the margin color added. *)
Lemma df_hist_before_color (loaded : list row) (r : row) :
  In r (df_hist loaded) ->
  exists x, In x (map normalize_Pc_name (clean loaded)) /\
    state x = state r /\ year x = year r.
Proof.
  unfold df_hist. intros H. apply in_map_iff in H.
  destruct H as (x & <- & Hx). exists x. auto.
Qed.

(** X19. A state with a result that has a year is offered by the
    state dropdown and has rows in [turnout_top], so that selecting it
    gives [plot_heatmap] rows to draw and not the figure without
    data. *)
Theorem offered_state_has_turnout_rows (loaded : list row) (r : row)
  (s : Py.str) :
  In r (df_hist loaded) -> state r = Some s ->
  F64.notna (year r) = true ->
  In s (states (df_hist loaded))
  /\ filter (state_is (Some s)) (turnout_top_of loaded) <> [].
Proof.
  intros Hr Hs Hn. split.
  - apply Dropdowns.states_In. eauto.
  - destruct (df_hist_before_color loaded r Hr) as (x & Hx & Sx & Yx).
    assert (Hg : in_group s (year r) x = true).
    { unfold in_group. rewrite Sx, Hs, opt_eqb_refl, Yx. simpl.
      apply F64Facts.key_eqb_refl. unfold F64.notna in Hn.
      now apply negb_true_iff in Hn. }
    assert (Hne : filter (in_group s (year r)) (turnout_top_of loaded)
                  <> []).
    { unfold turnout_top_of.
      rewrite TurnoutTop.filter_in_group_turnout_top.
      assert (Hin : In x (filter (in_group s (year r))
                            (sort_values by_state_year_Turnout
                               (map normalize_Pc_name (clean loaded))))).
      { apply filter_In. split; [|exact Hg].
        now apply sort_values_In. }
      destruct (filter (in_group s (year r)) _) as [|a l];
        [destruct Hin|discriminate]. }
    destruct (filter (in_group s (year r)) (turnout_top_of loaded))
      as [|t l] eqn:E; [congruence|].
    assert (Ht : In t (filter (in_group s (year r))
                         (turnout_top_of loaded)))
      by (rewrite E; now left).
    apply filter_In in Ht. destruct Ht as [Ht Hgt].
    apply (In_nonempty _ t). apply filter_In. split; [exact Ht|].
    unfold in_group in Hgt. apply andb_true_iff in Hgt.
    exact (proj1 Hgt).
Qed.

Lemma offered_state_has_turnout_rows_witness :
  In Sample.hist_agra
    (df_hist (df_loaded pandas_2 Sample.to_numeric Sample.raw_UP_2019))
  /\ In (Py.lit "Uttar Pradesh")
       (states (df_hist (df_loaded pandas_2 Sample.to_numeric Sample.raw_UP_2019)))
  /\ filter (state_is (Some (Py.lit "Uttar Pradesh")))
       (turnout_top_of (df_loaded pandas_2 Sample.to_numeric Sample.raw_UP_2019))
     <> [].
Proof.
  assert (H : In Sample.hist_agra
                (df_hist (df_loaded pandas_2 Sample.to_numeric Sample.raw_UP_2019)))
    by (left; reflexivity).
  split; [exact H|].
  exact (offered_state_has_turnout_rows _ _ _ H eq_refl eq_refl).
Defined.

End Offered.
